(** * Benchmark regression detection: [scripts/compare_benchmarks.py]

    A shallow embedding of the [BenchmarkComparator] class and of [main],
    followed by the properties of the comparison, classification, reporting
    and exit-code logic.

    Python values are embedded as the JSON decoder produces them: integers
    are unbounded ([Z]), floats are IEEE binary64 (the kernel's primitive
    [float]), objects are association lists.  Exceptions are explicit: every
    operation that can raise returns a [result]. *)

From Stdlib Require Import ZArith List String Ascii Bool Lia Floats DecimalString.
From Stdlib Require Uint63.
Import ListNotations.

Set Warnings "-inexact-float,-register-all".

Open Scope string_scope.
Open Scope Z_scope.

(** ** Exceptions *)

(** The exceptions of reading and writing a file: those of [open], of the
    decoding of bytes to text and of text to bytes, and of the JSON
    decoder; [OtherError] is any other one ([OSError] for a full disk,
    [RecursionError] from the decoder, ...). *)
Inductive io_error :=
| FileNotFoundError
| PermissionError
| IsADirectoryError
| UnicodeDecodeError
| UnicodeEncodeError
| JSONDecodeError
| OtherError (name : string).

Inductive exn :=
| KeyError (key : string)
| TypeError
| AttributeError
| OverflowError
| ZeroDivisionError
| IOError (e : io_error)
| SystemExit (code : Z).

Inductive result (A : Type) :=
| Ok (a : A)
| Raise (e : exn).

Arguments Ok {A} a.
Arguments Raise {A} e.

Module Res.
Definition ret {A} (a : A) : result A := Ok a.

Definition bind {A B} (m : result A) (k : A -> result B) : result B :=
  match m with
  | Ok a => k a
  | Raise e => Raise e
  end.
End Res.

Declare Scope res_scope.
Delimit Scope res_scope with res.

Notation "x <- m ;; k" := (Res.bind m (fun x => k))
  (at level 100, m at next level, right associativity) : res_scope.
Notation "' p <- m ;; k" := (Res.bind m (fun p => k))
  (at level 100, p pattern, m at next level, right associativity) : res_scope.

(** ** Python values *)

Inductive value :=
| VNone
| VBool (b : bool)
| VInt (z : Z)
| VFloat (f : float)
| VStr (s : string)
| VList (l : list value)
| VDict (d : list (string * value)).

(** A [dict] is kept as an association list in insertion order; a key is
    looked up from the front. *)
Fixpoint dict_get {A} (k : string) (d : list (string * A)) : option A :=
  match d with
  | [] => None
  | (k', v) :: d' => if String.eqb k' k then Some v else dict_get k d'
  end.

(** [d[k] = v]: an existing key keeps its place, a new key goes last. *)
Fixpoint dict_set {A} (k : string) (v : A) (d : list (string * A)) : list (string * A) :=
  match d with
  | [] => [(k, v)]
  | (k', v') :: d' =>
      if String.eqb k' k then (k, v) :: d' else (k', v') :: dict_set k v d'
  end.

(** [bool(v)] *)
Definition truthy (v : value) : bool :=
  match v with
  | VNone => false
  | VBool b => b
  | VInt z => negb (z =? 0)
  | VFloat f => negb (f =? 0)%float
  | VStr s => negb (String.eqb s "")
  | VList l => match l with [] => false | _ => true end
  | VDict d => match d with [] => false | _ => true end
  end.

(** [v == name] for a string [name] *)
Definition eq_str (v : value) (name : string) : bool :=
  match v with
  | VStr s => String.eqb s name
  | _ => false
  end.

(** [d.get(k)] and [d.get(k, default)]: only a dict has the method. *)
Definition py_get (v : value) (k : string) (default : value) : result value :=
  match v with
  | VDict d => Ok (match dict_get k d with Some x => x | None => default end)
  | _ => Raise AttributeError
  end.

(** [v[k]] for a string key *)
Definition subscript (v : value) (k : string) : result value :=
  match v with
  | VDict d => match dict_get k d with Some x => Ok x | None => Raise (KeyError k) end
  | _ => Raise TypeError
  end.

(** [k in v] for a string [k]: key of a dict, element of a list, substring
    of a string. *)
Definition is_substring (k s : string) : bool :=
  match index 0 k s with Some _ => true | None => false end.

Definition contains (k : string) (v : value) : result bool :=
  match v with
  | VDict d => Ok (match dict_get k d with Some _ => true | None => false end)
  | VList l => Ok (existsb (fun x => eq_str x k) l)
  | VStr s => Ok (is_substring k s)
  | _ => Raise TypeError
  end.

(** [for x in v]: the items the loop visits. *)
Definition chars (s : string) : list value :=
  map (fun c => VStr (String c "")) (list_ascii_of_string s).

Definition iterate (v : value) : result (list value) :=
  match v with
  | VList l => Ok l
  | VDict d => Ok (map (fun kv => VStr (fst kv)) d)
  | VStr s => Ok (chars s)
  | _ => Raise TypeError
  end.

(** ** Numbers

    [bool] is a subclass of [int]; arithmetic sees [True] as 1. *)

Inductive num :=
| NInt (z : Z)
| NFloat (f : float).

Definition as_num (v : value) : option num :=
  match v with
  | VInt z => Some (NInt z)
  | VBool b => Some (NInt (if b then 1 else 0))
  | VFloat f => Some (NFloat f)
  | _ => None
  end.

Definition is_inf (f : float) : bool :=
  match Prim2SF f with S754_infinity _ => true | _ => false end.

(** [float(z)]: round to nearest, ties to even; out of range raises. *)
Definition float_of_Z (z : Z) : result float :=
  let f := SF2Prim (binary_normalize prec emax z 0 false) in
  if is_inf f then Raise OverflowError else Ok f.

Definition to_float (n : num) : result float :=
  match n with
  | NInt z => float_of_Z z
  | NFloat f => Ok f
  end.

(** An integer as an (unnormalised) binary float with exponent 0. *)
Definition sf_of_Z (z : Z) : spec_float :=
  match z with
  | Z0 => S754_zero false
  | Zpos p => S754_finite false p 0
  | Zneg p => S754_finite true p 0
  end.

(** [a / b] on two ints: the correctly rounded quotient. *)
Definition int_truediv (a b : Z) : result float :=
  if b =? 0 then Raise ZeroDivisionError
  else
    let f := SF2Prim (SFdiv prec emax (sf_of_Z a) (sf_of_Z b)) in
    if is_inf f then Raise OverflowError else Ok f.

Definition float_truediv (a b : float) : result float :=
  if (b =? 0)%float then Raise ZeroDivisionError else Ok (a / b)%float.

Definition num_sub (a b : num) : result num :=
  match a, b with
  | NInt x, NInt y => Ok (NInt (x - y))
  | _, _ =>
      (x <- to_float a ;;
       y <- to_float b ;;
       Ok (NFloat (x - y)%float))%res
  end.

Definition num_truediv (a b : num) : result float :=
  match a, b with
  | NInt x, NInt y => int_truediv x y
  | _, _ =>
      (x <- to_float a ;;
       y <- to_float b ;;
       float_truediv x y)%res
  end.

Definition num_mul (a b : num) : result num :=
  match a, b with
  | NInt x, NInt y => Ok (NInt (x * y))
  | _, _ =>
      (x <- to_float a ;;
       y <- to_float b ;;
       Ok (NFloat (x * y)%float))%res
  end.

(** [a < k] for an int literal [k] that is exactly a float *)
Definition num_lt_int (a : num) (k : Z) (kf : float) : bool :=
  match a with
  | NInt x => x <? k
  | NFloat f => (f <? kf)%float
  end.

(** [v == 0] *)
Definition eq_zero (v : value) : bool :=
  match as_num v with
  | Some (NInt z) => z =? 0
  | Some (NFloat f) => (f =? 0)%float
  | None => false
  end.

Definition need_num (v : value) : result num :=
  match as_num v with
  | Some n => Ok n
  | None => Raise TypeError
  end.

(** ** Strings and number formatting *)

Definition nl : string := String "010" "".

Fixpoint str_repeat (s : string) (n : nat) : string :=
  match n with
  | O => ""
  | S n' => s ++ str_repeat s n'
  end.

(** [sep.join(l)] *)
Fixpoint join (sep : string) (l : list string) : string :=
  match l with
  | [] => ""
  | [x] => x
  | x :: l' => x ++ sep ++ join sep l'
  end.

(** [s.replace(old, new)] for a non-empty [old]: occurrences are replaced
    from the left and do not overlap; [skip] counts the characters of a
    replaced occurrence still to drop. *)
Fixpoint replace_from (old new : string) (skip : nat) (s : string) : string :=
  match s with
  | EmptyString => EmptyString
  | String c s' =>
      match skip with
      | S k => replace_from old new k s'
      | O =>
          if prefix old s
          then new ++ replace_from old new (String.length old - 1) s'
          else String c (replace_from old new 0 s')
      end
  end.

Definition replace (s old new : string) : string := replace_from old new 0 s.

(** [f"{s:{w}s}"]: left-justified in a field of width [w] *)
Definition ljust (w : nat) (s : string) : string :=
  s ++ str_repeat " " (w - String.length s).

Definition digits (n : Z) : string :=
  NilZero.string_of_uint (N.to_uint (Z.to_N n)).

(** Round the rational [n / d] ([d > 0], [n >= 0]) to the nearest integer,
    ties to even. *)
Definition round_half_even (n d : Z) : Z :=
  let q := n / d in
  let r := n mod d in
  match (2 * r) ?= d with
  | Lt => q
  | Gt => q + 1
  | Eq => if Z.even q then q else q + 1
  end.

(** The decimal digits of [|x| * 10^p] rounded to an integer, with the
    point [p] places from the right. *)
Definition fixed_digits (p : nat) (m : positive) (e : Z) : string :=
  let scale := 10 ^ Z.of_nat p in
  let n :=
    if 0 <=? e then Zpos m * 2 ^ e * scale
    else round_half_even (Zpos m * scale) (2 ^ (- e)) in
  let ds := digits n in
  let ds := str_repeat "0" (S p - String.length ds) ++ ds in
  let k := (String.length ds - p)%nat in
  match p with
  | O => ds
  | _ => substring 0 k ds ++ "." ++ substring k p ds
  end.

(** [f"{x:.{p}f}"], and [f"{x:+.{p}f}"] when [plus] is set *)
Definition fmt_float (plus : bool) (p : nat) (x : float) : string :=
  let sign (s : bool) := if s then "-" else if plus then "+" else "" in
  match Prim2SF x with
  | S754_nan => sign false ++ "nan"
  | S754_infinity s => sign s ++ "inf"
  | S754_zero s => sign s ++ fixed_digits p 1 (-2000)
  | S754_finite s m e => sign s ++ fixed_digits p m e
  end.

(** The same format applied to an int or a float: an int is first
    converted to a float. *)
Definition fmt_num (plus : bool) (p : nat) (n : num) : result string :=
  (x <- to_float n ;; Ok (fmt_float plus p x))%res.

(** ** [class BenchmarkComparator] *)

Inductive Severity := OK | IMPROVEMENT | WARNING | CRITICAL.

Definition severity_str (s : Severity) : string :=
  match s with
  | OK => "OK"
  | IMPROVEMENT => "IMPROVEMENT"
  | WARNING => "WARNING"
  | CRITICAL => "CRITICAL"
  end.

Definition REGRESSION_THRESHOLDS : list (string * float) :=
  [ ("core_latency_warning", 0.10%float);
    ("core_latency_critical", 0.25%float);
    ("safety_overhead_warning", 0.05%float);
    ("safety_overhead_critical", 0.15%float);
    ("throughput_warning", 0.15%float);
    ("throughput_critical", 0.30%float);
    ("memory_warning", 0.20%float);
    ("memory_critical", 0.50%float) ].

(** [self.REGRESSION_THRESHOLDS[k]] *)
Definition threshold (k : string) : result float :=
  match dict_get k REGRESSION_THRESHOLDS with
  | Some x => Ok x
  | None => Raise (KeyError k)
  end.

Record BenchmarkComparator := {
  baseline_file : string;
  current_file : string;
  baseline_data : value;
  current_data : value;
  warnings : list string;
  critical_issues : list string
}.

Definition add_warning (self : BenchmarkComparator) (msg : string) : BenchmarkComparator :=
  {| baseline_file := baseline_file self;
     current_file := current_file self;
     baseline_data := baseline_data self;
     current_data := current_data self;
     warnings := (warnings self ++ [msg])%list;
     critical_issues := critical_issues self |}.

Definition add_critical (self : BenchmarkComparator) (msg : string) : BenchmarkComparator :=
  {| baseline_file := baseline_file self;
     current_file := current_file self;
     baseline_data := baseline_data self;
     current_data := current_data self;
     warnings := warnings self;
     critical_issues := (critical_issues self ++ [msg])%list |}.

(** The outcome of [open(filename, 'r')] followed by [json.load]: one of
    them raises, or the decoder returns a value (Python's decoder also
    accepts [NaN] and [Infinity], which it returns as floats).  A path
    outside [files] does not exist: [open] raises [FileNotFoundError]. *)
Inductive document :=
| Unreadable (e : io_error)
| Parsed (data : value).

Inductive stream := Stdout | Stderr.

(** What is written to a stream: a text, or the traceback the interpreter
    writes for an uncaught exception (several lines whose wording depends
    on the installation; only the exception is recorded). *)
Inductive output :=
| Text (s : string)
| Traceback (e : exn).

(** The state of a path the run may write to: the text it holds, or how
    writing to it fails.  [Refuses e]: [open(path, 'w')] raises [e] and the
    path is left as it is.  [Breaks kept e]: the file is opened, so created
    or truncated, and [write] or the closing of the file raises [e] when
    [kept] characters have reached it.  A path outside [written] can be
    written. *)
Inductive file :=
| Holds (text : string)
| Refuses (e : io_error)
| Breaks (kept : nat) (e : io_error).

Record world := {
  files : list (string * document);
  written : list (string * file);
  console : list (stream * output)
}.

(** [print(s)] writes to standard output, which is taken to accept every
    text. *)
Definition print (s : string) (w : world) : world :=
  {| files := files w;
     written := written w;
     console := (console w ++ [(Stdout, Text s)])%list |}.

(** A text on standard error. *)
Definition eprint (s : string) (w : world) : world :=
  {| files := files w;
     written := written w;
     console := (console w ++ [(Stderr, Text s)])%list |}.

(** The interpreter reports an uncaught exception on standard error. *)
Definition uncaught (e : exn) (w : world) : world :=
  {| files := files w;
     written := written w;
     console := (console w ++ [(Stderr, Traceback e)])%list |}.

Definition store (path : string) (f : file) (w : world) : world :=
  {| files := files w;
     written := dict_set path f (written w);
     console := console w |}.

(** [with open(path, 'w') as f: f.write(text)] *)
Definition write_file (path text : string) (w : world) : result unit * world :=
  match dict_get path (written w) with
  | Some (Refuses e) => (Raise (IOError e), w)
  | Some (Breaks kept e) =>
      (Raise (IOError e), store path (Holds (substring 0 kept text)) w)
  | Some (Holds _) | None => (Ok tt, store path (Holds text) w)
  end.

(** [json.load(f)] on [open(filename, 'r')] *)
Definition read_json (filename : string) (w : world) : result value :=
  match dict_get filename (files w) with
  | None => Raise (IOError FileNotFoundError)
  | Some (Unreadable e) => Raise (IOError e)
  | Some (Parsed data) => Ok data
  end.

(** The [try] block, then the two [except] clauses; any other exception
    propagates. *)
Definition _load_json (filename : string) (w : world) : result value * world :=
  match (data <- read_json filename w ;;
         found <- contains "benchmarks" data ;;
         Ok (if found : bool then data else VDict [("benchmarks", data)]))%res with
  | Raise (IOError FileNotFoundError) =>
      (Raise (SystemExit 1), print ("Error: File " ++ filename ++ " not found") w)
  | Raise (IOError JSONDecodeError) =>
      (Raise (SystemExit 1), print ("Error: Invalid JSON in " ++ filename) w)
  | r => (r, w)
  end.

Definition __init__ (baseline_file current_file : string) (w : world)
  : result BenchmarkComparator * world :=
  match _load_json baseline_file w with
  | (Raise e, w1) => (Raise e, w1)
  | (Ok baseline_data, w1) =>
      match _load_json current_file w1 with
      | (Raise e, w2) => (Raise e, w2)
      | (Ok current_data, w2) =>
          (Ok {| baseline_file := baseline_file;
                 current_file := current_file;
                 baseline_data := baseline_data;
                 current_data := current_data;
                 warnings := [];
                 critical_issues := [] |}, w2)
      end
  end.

Fixpoint find_benchmark (items : list value) (name : string) : result value :=
  match items with
  | [] => Ok VNone
  | bench :: rest =>
      (n <- py_get bench "name" VNone ;;
       if eq_str n name then Ok bench else find_benchmark rest name)%res
  end.

Definition _get_benchmark_by_name (benchmarks : value) (name : string) : result value :=
  (items <- iterate benchmarks ;;
   find_benchmark items name)%res.

Definition _calculate_percentage_change (baseline current : value) : result float :=
  if eq_zero baseline then Ok 0%float
  else
    (c <- need_num current ;;
     b <- need_num baseline ;;
     d <- num_sub c b ;;
     num_truediv d b)%res.

Definition _format_time (time_us : value) : result string :=
  (t <- need_num time_us ;;
   if num_lt_int t 1 1%float then
     (x <- num_mul t (NInt 1000) ;;
      s <- fmt_num false 2 x ;;
      Ok (s ++ " ns"))
   else if num_lt_int t 1000 1000%float then
     (s <- fmt_num false 2 t ;;
      Ok (s ++ " μs"))
   else
     (x <- num_truediv t (NInt 1000) ;;
      Ok (fmt_float false 2 x ++ " ms")))%res.

Definition _assess_performance_change (change : float) (category : string)
  : result Severity :=
  (warning_threshold <- threshold (category ++ "_warning") ;;
   critical_threshold <- threshold (category ++ "_critical") ;;
   Ok (if (critical_threshold <? change)%float then CRITICAL
       else if (warning_threshold <? change)%float then WARNING
       else if (change <? - 0.05)%float then IMPROVEMENT
       else OK))%res.

Definition _assess_throughput_change (change : float) : result Severity :=
  (critical <- threshold "throughput_critical" ;;
   if (change <? - critical)%float then Ok CRITICAL
   else
     (warning <- threshold "throughput_warning" ;;
      Ok (if (change <? - warning)%float then WARNING
          else if (0.05 <? change)%float then IMPROVEMENT
          else OK)))%res.

(** [for x in l: body], threading the state [s] *)
Fixpoint for_each {A S} (body : A -> S -> result S) (l : list A) (s : S) : result S :=
  match l with
  | [] => Ok s
  | x :: l' => (s' <- body x s ;; for_each body l' s')%res
  end.

(** *** The three comparisons

    Each [results[bench_name] = {...}] entry is a record; the [dict] of
    results is an association list in insertion order. *)

Module Core.
Record entry := {
  baseline_time : value;
  current_time : value;
  change_percent : float;
  status : Severity
}.
End Core.

Module Safety.
Record entry := {
  baseline_overhead_percent : float;
  current_overhead_percent : float;
  overhead_change_percent : float;
  status : Severity
}.
End Safety.

Module Memory.
Record entry := {
  baseline_throughput : value;
  current_throughput : value;
  change_percent : float;
  status : Severity
}.
End Memory.

Definition core_benchmarks : list string :=
  [ "BM_MakeMove_ShortChain_mean";
    "BM_MakeMove_MediumChain_mean";
    "BM_MakeMove_LongChain_mean" ].

Definition memory_benchmarks : list string :=
  [ "BM_MakeMove_MemoryTracking/64_mean";
    "BM_MakeMove_MemoryTracking/256_mean" ].

(** The two records of one metric, as each loop iteration looks them up. *)
Definition lookup_pair (self : BenchmarkComparator) (bench_name : string)
  : result (value * value) :=
  (bs <- subscript (baseline_data self) "benchmarks" ;;
   baseline <- _get_benchmark_by_name bs bench_name ;;
   cs <- subscript (current_data self) "benchmarks" ;;
   current <- _get_benchmark_by_name cs bench_name ;;
   Ok (baseline, current))%res.

(** The body of the loop of [compare_core_performance]. *)
Definition core_body (bench_name : string)
    (st : list (string * Core.entry) * BenchmarkComparator)
  : result (list (string * Core.entry) * BenchmarkComparator) :=
  let '(results, self) := st in
  ('(baseline, current) <- lookup_pair self bench_name ;;
   if truthy baseline && truthy current then
     (baseline_time <- py_get baseline "cpu_time" (VInt 0) ;;
      current_time <- py_get current "cpu_time" (VInt 0) ;;
      change <- _calculate_percentage_change baseline_time current_time ;;
      status <- _assess_performance_change change "core_latency" ;;
      let results :=
        dict_set bench_name
          {| Core.baseline_time := baseline_time;
             Core.current_time := current_time;
             Core.change_percent := (change * 100)%float;
             Core.status := status |} results in
      critical <- threshold "core_latency_critical" ;;
      if (critical <? change)%float then
        (b <- _format_time baseline_time ;;
         c <- _format_time current_time ;;
         Ok (results,
             add_critical self
               ("CRITICAL: " ++ bench_name ++ " increased by "
                ++ fmt_float false 1 (change * 100) ++ "% "
                ++ "(" ++ b ++ " → " ++ c ++ ")")))
      else
        (warning <- threshold "core_latency_warning" ;;
         if (warning <? change)%float then
           (b <- _format_time baseline_time ;;
            c <- _format_time current_time ;;
            Ok (results,
                add_warning self
                  ("WARNING: " ++ bench_name ++ " increased by "
                   ++ fmt_float false 1 (change * 100) ++ "% "
                   ++ "(" ++ b ++ " → " ++ c ++ ")")))
         else Ok (results, self)))
   else Ok (results, self))%res.

Definition compare_core_performance (self : BenchmarkComparator)
  : result (list (string * Core.entry) * BenchmarkComparator) :=
  for_each core_body core_benchmarks ([], self).

(** Lines 137-144: the overhead of each run and their difference, as
    [(baseline_overhead, current_overhead, overhead_change)]. *)
Definition safety_overheads
    (validate_only light_undo_baseline validate_only_current light_undo_current : value)
  : result (float * float * float) :=
  (v0 <- subscript validate_only "cpu_time" ;;
   l0 <- subscript light_undo_baseline "cpu_time" ;;
   baseline_overhead <- _calculate_percentage_change v0 l0 ;;
   v1 <- subscript validate_only_current "cpu_time" ;;
   l1 <- subscript light_undo_current "cpu_time" ;;
   current_overhead <- _calculate_percentage_change v1 l1 ;;
   Ok (baseline_overhead, current_overhead,
       (current_overhead - baseline_overhead)%float))%res.

(** The four records [compare_safety_overhead] looks up, in its order. *)
Definition lookup_overhead (self : BenchmarkComparator)
  : result (value * value * value * value) :=
  (bs <- subscript (baseline_data self) "benchmarks" ;;
   validate_only <- _get_benchmark_by_name bs "BM_SafetyLevel_Comparison/0_mean" ;;
   bs <- subscript (baseline_data self) "benchmarks" ;;
   light_undo_baseline <- _get_benchmark_by_name bs "BM_SafetyLevel_Comparison/1_mean" ;;
   cs <- subscript (current_data self) "benchmarks" ;;
   validate_only_current <- _get_benchmark_by_name cs "BM_SafetyLevel_Comparison/0_mean" ;;
   cs <- subscript (current_data self) "benchmarks" ;;
   light_undo_current <- _get_benchmark_by_name cs "BM_SafetyLevel_Comparison/1_mean" ;;
   Ok (validate_only, light_undo_baseline, validate_only_current, light_undo_current))%res.

(** The empty dict [{}] the method returns when a record is missing is
    [None]; a result dict is [Some]. *)
Definition compare_safety_overhead (self : BenchmarkComparator)
  : result (option Safety.entry * BenchmarkComparator) :=
  ('(validate_only, light_undo_baseline, validate_only_current, light_undo_current)
     <- lookup_overhead self ;;
   if forallb truthy
        [validate_only; light_undo_baseline; validate_only_current; light_undo_current]
   then
     ('(baseline_overhead, current_overhead, overhead_change)
        <- safety_overheads validate_only light_undo_baseline
             validate_only_current light_undo_current ;;
      status <- _assess_performance_change overhead_change "safety_overhead" ;;
      let result :=
        {| Safety.baseline_overhead_percent := (baseline_overhead * 100)%float;
           Safety.current_overhead_percent := (current_overhead * 100)%float;
           Safety.overhead_change_percent := (overhead_change * 100)%float;
           Safety.status := status |} in
      critical <- threshold "safety_overhead_critical" ;;
      if (critical <? overhead_change)%float then
        Ok (Some result,
            add_critical self
              ("CRITICAL: Safety overhead increased by "
               ++ fmt_float false 1 (overhead_change * 100) ++ "% "
               ++ "(" ++ fmt_float false 1 (baseline_overhead * 100) ++ "% → "
               ++ fmt_float false 1 (current_overhead * 100) ++ "%)"))
      else
        (warning <- threshold "safety_overhead_warning" ;;
         if (warning <? overhead_change)%float then
           Ok (Some result,
               add_warning self
                 ("WARNING: Safety overhead increased by "
                  ++ fmt_float false 1 (overhead_change * 100) ++ "% "
                  ++ "(" ++ fmt_float false 1 (baseline_overhead * 100) ++ "% → "
                  ++ fmt_float false 1 (current_overhead * 100) ++ "%)"))
         else Ok (Some result, self)))
   else Ok (None, self))%res.

(** The body of the loop of [compare_memory_performance]. *)
Definition memory_body (bench_name : string)
    (st : list (string * Memory.entry) * BenchmarkComparator)
  : result (list (string * Memory.entry) * BenchmarkComparator) :=
  let '(results, self) := st in
  ('(baseline, current) <- lookup_pair self bench_name ;;
   if truthy baseline && truthy current then
     (baseline_throughput <- py_get baseline "bytes_per_second" (VInt 0) ;;
      current_throughput <- py_get current "bytes_per_second" (VInt 0) ;;
      change <- _calculate_percentage_change baseline_throughput current_throughput ;;
      status <- _assess_throughput_change change ;;
      let results :=
        dict_set bench_name
          {| Memory.baseline_throughput := baseline_throughput;
             Memory.current_throughput := current_throughput;
             Memory.change_percent := (change * 100)%float;
             Memory.status := status |} results in
      critical <- threshold "throughput_critical" ;;
      if (change <? - critical)%float then
        Ok (results,
            add_critical self
              ("CRITICAL: " ++ bench_name ++ " throughput decreased by "
               ++ fmt_float false 1 (abs change * 100) ++ "%"))
      else
        (warning <- threshold "throughput_warning" ;;
         if (change <? - warning)%float then
           Ok (results,
               add_warning self
                 ("WARNING: " ++ bench_name ++ " throughput decreased by "
                  ++ fmt_float false 1 (abs change * 100) ++ "%"))
         else Ok (results, self)))
   else Ok (results, self))%res.

Definition compare_memory_performance (self : BenchmarkComparator)
  : result (list (string * Memory.entry) * BenchmarkComparator) :=
  for_each memory_body memory_benchmarks ([], self).

(** *** The report *)

(** [[f(x) for x in l]] when [f] can raise *)
Fixpoint map_res {A B} (f : A -> result B) (l : list A) : result (list B) :=
  match l with
  | [] => Ok []
  | x :: l' => (y <- f x ;; ys <- map_res f l' ;; Ok (y :: ys))%res
  end.

Definition core_line (item : string * Core.entry) : result string :=
  let '(bench_name, data) := item in
  let clean_name := replace (replace bench_name "BM_MakeMove_" "") "_mean" "" in
  (b <- _format_time (Core.baseline_time data) ;;
   c <- _format_time (Core.current_time data) ;;
   Ok (ljust 15 clean_name ++ ": " ++ b ++ " → " ++ c ++ " "
       ++ "(" ++ fmt_float true 1 (Core.change_percent data) ++ "%) ["
       ++ severity_str (Core.status data) ++ "]"))%res.

Definition safety_lines (safety_results : option Safety.entry) : list string :=
  match safety_results with
  | Some r =>
      [ "Baseline overhead: " ++ fmt_float false 2 (Safety.baseline_overhead_percent r) ++ "%";
        "Current overhead:  " ++ fmt_float false 2 (Safety.current_overhead_percent r) ++ "%";
        "Change:           " ++ fmt_float true 2 (Safety.overhead_change_percent r) ++ "% "
          ++ "[" ++ severity_str (Safety.status r) ++ "]" ]
  | None => [ "Safety overhead data not available" ]
  end.

Definition memory_line (item : string * Memory.entry) : string :=
  let '(bench_name, data) := item in
  let clean_name :=
    replace (replace bench_name "BM_MakeMove_MemoryTracking/" "") "_mean" "" in
  "Chain " ++ ljust 3 clean_name ++ ": "
  ++ fmt_float true 1 (Memory.change_percent data) ++ "% throughput change "
  ++ "[" ++ severity_str (Memory.status data) ++ "]".

(** [bool(l)] for a list *)
Definition nonempty {A} (l : list A) : bool :=
  match l with
  | [] => false
  | _ :: _ => true
  end.

Definition indent (s : string) : string := "   " ++ s.

Definition summary_lines (self : BenchmarkComparator) : list string :=
  List.concat
    [ if nonempty (critical_issues self)
      then "❌ CRITICAL ISSUES DETECTED:" :: map indent (critical_issues self)
      else [];
      if nonempty (warnings self)
      then "⚠️  WARNINGS:" :: map indent (warnings self)
      else [];
      if negb (nonempty (critical_issues self)) && negb (nonempty (warnings self))
      then [ "✅ No performance regressions detected" ]
      else [] ].

Definition header (self : BenchmarkComparator) : list string :=
  [ str_repeat "=" 60;
    "BENCHMARK REGRESSION ANALYSIS REPORT";
    str_repeat "=" 60;
    "Baseline: " ++ baseline_file self;
    "Current:  " ++ current_file self;
    "";
    "CORE PERFORMANCE ANALYSIS";
    str_repeat "-" 40 ].

(** The report, from its parts in the order they are appended. *)
Definition layout (head core : list string)
    (safety_results : option Safety.entry)
    (memory_results : list (string * Memory.entry))
    (summary : list string) : list string :=
  List.concat
    [ head; core; [ "" ];
      [ "SAFETY SYSTEM OVERHEAD ANALYSIS"; str_repeat "-" 40 ];
      safety_lines safety_results; [ "" ];
      [ "MEMORY PERFORMANCE ANALYSIS"; str_repeat "-" 40 ];
      map memory_line memory_results; [ "" ];
      [ "SUMMARY"; str_repeat "-" 40 ];
      summary;
      [ ""; str_repeat "=" 60 ] ].

(** The lines of the report, before they are joined. *)
Definition report_lines (self : BenchmarkComparator)
  : result (list string * BenchmarkComparator) :=
  let head := header self in
  ('(core_results, self) <- compare_core_performance self ;;
   core <- map_res core_line core_results ;;
   '(safety_results, self) <- compare_safety_overhead self ;;
   '(memory_results, self) <- compare_memory_performance self ;;
   Ok (layout head core safety_results memory_results (summary_lines self), self))%res.

Definition generate_report (self : BenchmarkComparator)
  : result (string * BenchmarkComparator) :=
  ('(report, self) <- report_lines self ;;
   Ok (join nl report, self))%res.

Definition get_exit_code (self : BenchmarkComparator) : Z :=
  if nonempty (critical_issues self) then 2
  else if nonempty (warnings self) then 1
  else 0.

(** ** [main] *)

Record args := {
  arg_baseline : string;
  arg_current : string;
  arg_output : option string;
  arg_exit_on_regression : bool
}.

(** The outcome of [parser.parse_args()] on the command line: the parsed
    arguments; or argparse rejects the command line, writes its usage
    message to standard error and exits with status 2; or the command line
    asks for help ([-h]), argparse prints the help text and exits with
    status 0.  An [args] stands for a command line that parses to it. *)
Inductive command_line :=
| Args (a : args)
| Rejected (usage : string)
| AskedHelp (help : string).

Coercion Args : args >-> command_line.

Definition parse_args (cl : command_line) (w : world) : result args * world :=
  match cl with
  | Args a => (Ok a, w)
  | Rejected usage => (Raise (SystemExit 2), eprint usage w)
  | AskedHelp help => (Raise (SystemExit 0), print help w)
  end.

(** Lines 325-331: the report goes to the output file or to standard
    output. *)
Definition output_report (a : args) (report : string) (w : world)
  : result unit * world :=
  match arg_output a with
  | Some path =>
      if String.eqb path "" then (Ok tt, print report w)
      else
        match write_file path report w with
        | (Raise e, w) => (Raise e, w)
        | (Ok tt, w) => (Ok tt, print ("Report written to " ++ path) w)
        end
  | None => (Ok tt, print report w)
  end.

Definition main (cl : command_line) (w : world) : result unit * world :=
  match parse_args cl w with
  | (Raise e, w) => (Raise e, w)
  | (Ok a, w) =>
      match __init__ (arg_baseline a) (arg_current a) w with
      | (Raise e, w) => (Raise e, w)
      | (Ok comparator, w) =>
          match generate_report comparator with
          | Raise e => (Raise e, w)
          | Ok (report, comparator) =>
              match output_report a report w with
              | (Raise e, w) => (Raise e, w)
              | (Ok tt, w) =>
                  if arg_exit_on_regression a then
                    let exit_code := get_exit_code comparator in
                    let w :=
                      if exit_code =? 0 then w
                      else print (nl ++ "Exiting with code " ++ digits exit_code
                                  ++ " due to performance issues") w in
                    (Raise (SystemExit exit_code), w)
                  else (Ok tt, w)
              end
          end
      end
  end.

(** The interpreter around [main()]: [SystemExit] sets the exit status;
    any other exception is uncaught, its traceback goes to standard error
    and the status is 1. *)
Definition run (cl : command_line) (w : world) : Z * world :=
  match main cl w with
  | (Ok tt, w) => (0, w)
  | (Raise (SystemExit code), w) => (code, w)
  | (Raise e, w) => (1, uncaught e w)
  end.

(** ** Categories and sample inputs *)

(** The categories [REGRESSION_THRESHOLDS] has a warning and a critical
    entry for. *)
Definition categories : list string :=
  [ "core_latency"; "safety_overhead"; "throughput"; "memory" ].

(** A benchmark record [{"name": n, "cpu_time": t}]. *)
Definition timed (n : string) (t : value) : value :=
  VDict [("name", VStr n); ("cpu_time", t)].

(** A record with a name and nothing else. *)
Definition untimed (n : string) : value :=
  VDict [("name", VStr n)].

Definition comparator (baseline current : list value) : BenchmarkComparator :=
  {| baseline_file := "baseline.json";
     current_file := "current.json";
     baseline_data := VDict [("benchmarks", VList baseline)];
     current_data := VDict [("benchmarks", VList current)];
     warnings := [];
     critical_issues := [] |}.

(** Overhead 10% in the baseline run and 18% in the current run. *)
Definition disabled_100 : value := timed "BM_SafetyLevel_Comparison/0_mean" (VInt 100).
Definition enabled_110 : value := timed "BM_SafetyLevel_Comparison/1_mean" (VInt 110).
Definition enabled_118 : value := timed "BM_SafetyLevel_Comparison/1_mean" (VInt 118).

Definition overhead_10_18 : BenchmarkComparator :=
  comparator [ disabled_100; enabled_110 ] [ disabled_100; enabled_118 ].

(** ** Result sets

    A result set is a sequence of records (JSON objects); a metric is
    absent from it when no record bears its name. *)

Definition is_record (v : value) : bool :=
  match v with
  | VDict _ => true
  | _ => false
  end.

Definition has_name (name : string) (bench : value) : bool :=
  match bench with
  | VDict d =>
      match dict_get "name" d with
      | Some n => eq_str n name
      | None => false
      end
  | _ => false
  end.

Definition result_set (data : value) (items : list value) : Prop :=
  subscript data "benchmarks" = Ok (VList items)
  /\ forallb is_record items = true.

Definition absent (name : string) (items : list value) : bool :=
  negb (existsb (has_name name) items).

(** The first record of that name, [None] when there is none. *)
Definition first_named (name : string) (items : list value) : value :=
  match find (has_name name) items with
  | Some bench => bench
  | None => VNone
  end.

Definition overhead_benchmarks : list string :=
  [ "BM_SafetyLevel_Comparison/0_mean";
    "BM_SafetyLevel_Comparison/1_mean" ].


(** ** What one comparison may do to the comparator *)

Definition same_inputs (self self' : BenchmarkComparator) : Prop :=
  baseline_file self' = baseline_file self
  /\ current_file self' = current_file self
  /\ baseline_data self' = baseline_data self
  /\ current_data self' = current_data self.

(** [l'] is [l] with one message appended. *)
Definition appended (l l' : list string) : Prop :=
  exists msg, l' = (l ++ [msg])%list.

(** A comparison classified [s] turns [self] into [self']: one message goes
    to [warnings] exactly when [s] is WARNING, one to [critical_issues]
    exactly when [s] is CRITICAL, and nothing else changes. *)
Definition contributes (s : Severity) (self self' : BenchmarkComparator) : Prop :=
  same_inputs self self'
  /\ (s = WARNING <-> appended (warnings self) (warnings self'))
  /\ (s = CRITICAL <-> appended (critical_issues self) (critical_issues self'))
  /\ (s <> WARNING -> warnings self' = warnings self)
  /\ (s <> CRITICAL -> critical_issues self' = critical_issues self).


(** The short-chain benchmark going from 100 to 130. *)
Definition regressed : BenchmarkComparator :=
  comparator
    [ timed "BM_MakeMove_ShortChain_mean" (VInt 100) ]
    [ timed "BM_MakeMove_ShortChain_mean" (VInt 130) ].


(** [self'] has the inputs of [self], and its two lists are those of [self]
    with messages appended. *)
Definition extends (self self' : BenchmarkComparator) : Prop :=
  same_inputs self self'
  /\ (exists ws, warnings self' = (warnings self ++ ws)%list)
  /\ (exists cs, critical_issues self' = (critical_issues self ++ cs)%list).


(** A suite that changed between the runs: the current run has no
    short-chain benchmark and no measurement with the safety feature on. *)
Definition evolved_baseline : list value :=
  [ timed "BM_MakeMove_ShortChain_mean" (VInt 100); disabled_100; enabled_110 ].

Definition evolved_current : list value :=
  [ timed "BM_MakeMove_MediumChain_mean" (VFloat 5); disabled_100 ].

Definition evolved : BenchmarkComparator :=
  comparator evolved_baseline evolved_current.


(** The short-chain benchmark going from 100 to 105: within thresholds. *)
Definition steady : BenchmarkComparator :=
  comparator
    [ timed "BM_MakeMove_ShortChain_mean" (VInt 100) ]
    [ timed "BM_MakeMove_ShortChain_mean" (VInt 105) ].


(** All four overhead records are there, one without a [cpu_time]. *)
Definition enabled_untimed : value := untimed "BM_SafetyLevel_Comparison/1_mean".

Definition overhead_untimed : BenchmarkComparator :=
  comparator [ disabled_100; enabled_110 ] [ disabled_100; enabled_untimed ].


(** The baseline record of the short-chain benchmark has no [cpu_time]. *)
Definition short_untimed : BenchmarkComparator :=
  comparator
    [ untimed "BM_MakeMove_ShortChain_mean" ]
    [ timed "BM_MakeMove_ShortChain_mean" (VInt 130) ].

(** ** Sample invocations *)

Definition cli : args :=
  {| arg_baseline := "baseline.json";
     arg_current := "current.json";
     arg_output := None;
     arg_exit_on_regression := false |}.

Definition no_files : world :=
  {| files := []; written := []; console := [] |}.

(** Both documents load; an overhead record of the current run has no
    [cpu_time]. *)
Definition untimed_files : world :=
  {| files :=
       [ ("baseline.json", Parsed (VDict [("benchmarks", VList [disabled_100; enabled_110])]));
         ("current.json", Parsed (VList [disabled_100; enabled_untimed])) ];
     written := [];
     console := [] |}.

(** The baseline loads; the current file cannot be opened. *)
Definition locked_files : world :=
  {| files :=
       [ ("baseline.json", Parsed (VList [disabled_100; enabled_110]));
         ("current.json", Unreadable PermissionError) ];
     written := [];
     console := [] |}.

(** The file does not load: [open] or [json.load] raises [e]. *)
Definition load_raises (filename : string) (w : world) (e : io_error) : Prop :=
  (dict_get filename (files w) = None /\ e = FileNotFoundError)
  \/ dict_get filename (files w) = Some (Unreadable e).

(** The message [_load_json] prints for the two exceptions it catches. *)
Definition load_message (filename : string) (e : io_error) : option string :=
  match e with
  | FileNotFoundError => Some ("Error: File " ++ filename ++ " not found")
  | JSONDecodeError => Some ("Error: Invalid JSON in " ++ filename)
  | _ => None
  end.

(** How the invocation ends on the load failure [e] of [filename]: the
    exception that leaves [main] and the world. *)
Definition load_failure (filename : string) (e : io_error) (w : world)
  : exn * world :=
  match load_message filename e with
  | Some msg => (SystemExit 1, print msg w)
  | None => (IOError e, w)
  end.

(** [float(z)] as the processor converts a machine integer. *)
Definition Z2F (z : Z) : float :=
  match z with
  | Z0 => 0%float
  | Zpos _ => of_uint63 (Uint63.of_Z z)
  | Zneg p => (- of_uint63 (Uint63.of_Z (Zpos p)))%float
  end.

(** The 53-bit mantissa of a positive integer below [2^53]. *)
Definition mantissa53 (p : positive) : positive :=
  fst (shl_align p 0 (Zpos (digits2_pos p) - 53)).


(** ** Notions for the further properties *)

(** The severities in increasing order. *)
Definition badness (s : Severity) : Z :=
  match s with
  | IMPROVEMENT => 0
  | OK => 1
  | WARNING => 2
  | CRITICAL => 3
  end.

(** [m] does not raise [SystemExit]. *)
Definition no_exit {A} (m : result A) : Prop :=
  forall code, m <> Raise (SystemExit code).

(** The path the report is written to, when it goes to a file. *)
Definition output_path (a : args) : option string :=
  match arg_output a with
  | Some path => if String.eqb path "" then None else Some path
  | None => None
  end.

(** Writing the report cannot fail: it goes to standard output, or to a
    path that can be written. *)
Definition writable (a : args) (w : world) : Prop :=
  match output_path a with
  | Some path =>
      match dict_get path (written w) with
      | Some (Refuses _) | Some (Breaks _ _) => False
      | Some (Holds _) | None => True
      end
  | None => True
  end.

(** Where [main] leaves the report. *)
Definition delivered (a : args) (text : string) (w : world) : Prop :=
  match output_path a with
  | Some path => dict_get path (written w) = Some (Holds text)
  | None => In (Stdout, Text text) (console w)
  end.

(** A change that is a zero or not a number. *)
Definition quiet (ch : float) : Prop :=
  ch = 0%float \/ ch = (-0)%float \/ ch = nan.

(** The measurement a comparison reads from a record. *)
Definition measurement (field : string) (record : list (string * value)) : value :=
  match dict_get field record with
  | Some t => t
  | None => VInt 0
  end.

(** The metric is found, with a non-empty record, in both result sets. *)
Definition present (self : BenchmarkComparator) (name : string) : bool :=
  match lookup_pair self name with
  | Ok (baseline, current) => truthy baseline && truthy current
  | Raise _ => false
  end.

(** Equality of severities. *)
Definition severity_eqb (a b : Severity) : bool :=
  match a, b with
  | OK, OK | IMPROVEMENT, IMPROVEMENT | WARNING, WARNING | CRITICAL, CRITICAL => true
  | _, _ => false
  end.

(** The statuses of the results of one comparison. *)
Definition statuses {E} (status : E -> Severity) (results : list (string * E))
  : list Severity :=
  map (fun item => status (snd item)) results.

(** How many of the statuses are [s]. *)
Definition count (s : Severity) (l : list Severity) : nat :=
  List.length (filter (severity_eqb s) l).

(** The status of the overhead comparison, when it has a result. *)
Definition safety_status (r : option Safety.entry) : list Severity :=
  match r with
  | Some e => [ Safety.status e ]
  | None => []
  end.

(** The statuses of all the comparisons of one report. *)
Definition all_statuses (core_results : list (string * Core.entry))
    (safety_results : option Safety.entry)
    (memory_results : list (string * Memory.entry)) : list Severity :=
  (statuses Core.status core_results ++ safety_status safety_results
   ++ statuses Memory.status memory_results)%list.

(** Two comparators the comparisons cannot tell apart: the same file
    names and lists, and the same records under every benchmark name the
    comparisons look up. *)
Definition agree (s t : BenchmarkComparator) : Prop :=
  baseline_file s = baseline_file t
  /\ current_file s = current_file t
  /\ warnings s = warnings t
  /\ critical_issues s = critical_issues t
  /\ (forall name, In name (core_benchmarks ++ memory_benchmarks) ->
                   lookup_pair s name = lookup_pair t name)
  /\ lookup_overhead s = lookup_overhead t.

(** The same value with comparators that agree, or the same exception. *)
Definition agree_result {A} (x y : result (A * BenchmarkComparator)) : Prop :=
  match x, y with
  | Ok (a, s), Ok (b, t) => a = b /\ agree s t
  | Raise e, Raise e' => e = e'
  | _, _ => False
  end.

(** What an invocation shows: its exit status, the files it wrote and the
    console. *)
Definition observable (r : Z * world)
  : Z * list (string * file) * list (stream * output) :=
  (fst r, written (snd r), console (snd r)).

(** The document holds the records [items], as a bare array or under
    ["benchmarks"] in an object. *)
Definition holds (doc : value) (items : list value) : Prop :=
  doc = VList items
  \/ exists d, doc = VDict d /\ dict_get "benchmarks" d = Some (VList items).

(** Every benchmark name a comparison looks up. *)
Definition inspected : list string :=
  (core_benchmarks ++ overhead_benchmarks ++ memory_benchmarks)%list.

(** The record bears a name some comparison looks up. *)
Definition relevant (bench : value) : bool :=
  existsb (fun name => has_name name bench) inspected.

(** A record with a float [cpu_time] and, when it has one, a float
    [bytes_per_second]. *)
Definition float_record (bench : value) : bool :=
  match bench with
  | VDict d =>
      match dict_get "cpu_time" d with
      | Some (VFloat _) => true
      | _ => false
      end
      && match dict_get "bytes_per_second" d with
         | None | Some (VFloat _) => true
         | _ => false
         end
  | _ => false
  end.

(** A float, or the default 0 that stands for a missing field. *)
Definition measured (v : value) : Prop :=
  (exists f, v = VFloat f) \/ v = VInt 0.

(** Both result sets of the comparator are sequences of such records. *)
Definition float_inputs (self : BenchmarkComparator) : Prop :=
  exists bitems citems,
    result_set (baseline_data self) bitems
    /\ result_set (current_data self) citems
    /\ forallb float_record bitems = true
    /\ forallb float_record citems = true.

(** Both times of a core result are floats. *)
Definition float_times (e : Core.entry) : Prop :=
  (exists x, Core.baseline_time e = VFloat x)
  /\ (exists y, Core.current_time e = VFloat y).

(** A run that stops before the report: no file is written and one entry
    is added to the console. *)
Definition stopped (cl : command_line) (w : world) : Prop :=
  written (snd (run cl w)) = written w
  /\ exists entry, console (snd (run cl w)) = (console w ++ [entry])%list.

(** ** Further sample inputs *)

(** A critical core regression (30%), a core warning (12%) and an overhead
    that grew from 10% to 18%. *)
Definition mixed : BenchmarkComparator :=
  comparator
    [ timed "BM_MakeMove_ShortChain_mean" (VInt 100);
      timed "BM_MakeMove_MediumChain_mean" (VInt 100);
      disabled_100; enabled_110 ]
    [ timed "BM_MakeMove_ShortChain_mean" (VInt 130);
      timed "BM_MakeMove_MediumChain_mean" (VInt 112);
      disabled_100; enabled_118 ].

(** The baseline measurement of the short-chain benchmark is zero. *)
Definition zero_record : list (string * value) :=
  [("name", VStr "BM_MakeMove_ShortChain_mean"); ("cpu_time", VInt 0)].

Definition slow_record : list (string * value) :=
  [("name", VStr "BM_MakeMove_ShortChain_mean"); ("cpu_time", VInt 130)].

Definition zero_baseline : BenchmarkComparator :=
  comparator [ VDict zero_record ] [ VDict slow_record ].

(** The two documents of an invocation, under the paths of [cli]. *)
Definition world_of (baseline current : value) : world :=
  {| files := [ ("baseline.json", Parsed baseline);
                ("current.json", Parsed current) ];
     written := [];
     console := [] |}.

Definition overhead_10 : list value := [ disabled_100; enabled_110 ].
Definition overhead_18 : list value := [ disabled_100; enabled_118 ].

(** The same result sets as bare arrays, as objects, and among records the
    comparisons do not look up. *)
Definition bare_files : world :=
  world_of (VList overhead_10) (VList overhead_18).

Definition wrapped_files : world :=
  world_of
    (VDict [("context", VDict []); ("benchmarks", VList overhead_10)])
    (VDict [("benchmarks", VList overhead_18)]).

Definition noisy_baseline : list value :=
  [ timed "BM_Other" (VStr "n/a"); disabled_100; enabled_110; untimed "BM_Setup" ].

Definition noisy_current : list value :=
  [ disabled_100; untimed "BM_Setup"; enabled_118 ].

Definition noisy_files : world :=
  world_of (VList noisy_baseline) (VList noisy_current).

(** One document under both paths. *)
Definition same_document : value :=
  VList [ disabled_100; enabled_110;
          timed "BM_MakeMove_ShortChain_mean" (VFloat 5) ].

Definition same_files : world := world_of same_document same_document.

(** Records as Google Benchmark writes them: float measurements. *)
Definition float_baseline : list value :=
  [ timed "BM_MakeMove_ShortChain_mean" (VFloat 0.5);
    VDict [ ("name", VStr "BM_MakeMove_MemoryTracking/64_mean");
            ("cpu_time", VFloat 1200);
            ("bytes_per_second", VFloat 1000000) ] ].

Definition float_current : list value :=
  [ timed "BM_MakeMove_ShortChain_mean" (VFloat 0.75);
    VDict [ ("name", VStr "BM_MakeMove_MemoryTracking/64_mean");
            ("cpu_time", VFloat 1500);
            ("bytes_per_second", VFloat 800000) ] ].

Definition float_files : world :=
  world_of (VList float_baseline) (VList float_current).


(** * Properties *)

(** ** Facts about binary64 comparison *)

Lemma SFeqb_finite (x : spec_float) (s : bool) (m : positive) (e : Z) :
  SFeqb x (S754_finite s m e) = true -> x = S754_finite s m e.
Proof.
  unfold SFeqb, SFcompare.
  destruct x as [s'|s'| |s' m' e']; try (destruct s, s'; discriminate);
    try discriminate.
  rewrite Pos.compare_cont_spec. simpl Pos.switch_Eq.
  destruct s', s; try discriminate;
    destruct (Z.compare_spec e' e); try discriminate;
    destruct (Pos.compare_spec m' m); try discriminate;
    intros _; subst; reflexivity.
Qed.

(** [x == y] on floats is Leibniz equality when [y] is finite and not zero. *)
Lemma feqb_finite (x y : float) (s : bool) (m : positive) (e : Z) :
  Prim2SF y = S754_finite s m e -> (x =? y)%float = true -> x = y.
Proof.
  intros Hy H. rewrite eqb_spec, Hy in H.
  apply Prim2SF_inj. rewrite Hy. now apply SFeqb_finite.
Qed.

(** ** Exit code *)

(** C1: the exit code is 2 when the critical list is non-empty (whatever the
    warnings), else 1 when the warning list is non-empty, else 0; a critical
    issue forces 2 even when warnings exist too. *)
Theorem get_exit_code_spec (self : BenchmarkComparator) :
  (critical_issues self <> [] -> get_exit_code self = 2)
  /\ (critical_issues self = [] -> warnings self <> [] -> get_exit_code self = 1)
  /\ (critical_issues self = [] -> warnings self = [] -> get_exit_code self = 0)
  /\ (critical_issues self <> [] -> warnings self <> [] -> get_exit_code self = 2).
Proof.
  unfold get_exit_code.
  destruct (critical_issues self) as [|c cs], (warnings self) as [|x xs]; simpl;
    repeat split; intros; congruence.
Qed.

Lemma get_exit_code_spec_witness :
  get_exit_code (add_warning (add_critical steady "critical") "warning") = 2.
Proof.
  apply (proj1 (get_exit_code_spec _)). simpl. discriminate.
Defined.

(** ** Classification *)

(** C2: in latency mode the critical threshold is tested first, then the
    warning threshold, both strictly: a change equal to the warning fraction
    is OK and a greater one (not above critical) is WARNING; a change equal
    to the critical fraction is WARNING and a greater one is CRITICAL. *)
Theorem latency_classification (category : string) :
  In category categories ->
  exists warning critical,
    threshold (category ++ "_warning") = Ok warning
    /\ threshold (category ++ "_critical") = Ok critical
    /\ forall change,
        ((critical <? change)%float = true ->
         _assess_performance_change change category = Ok CRITICAL)
        /\ ((critical <? change)%float = false ->
            (warning <? change)%float = true ->
            _assess_performance_change change category = Ok WARNING)
        /\ ((change =? warning)%float = true ->
            _assess_performance_change change category = Ok OK)
        /\ ((change =? critical)%float = true ->
            _assess_performance_change change category = Ok WARNING).
Proof.
  intros Hin.
  assert (Hcases : category = "core_latency" \/ category = "safety_overhead"
                   \/ category = "throughput" \/ category = "memory")
    by (simpl in Hin; intuition auto).
  destruct Hcases as [-> | [-> | [-> | ->]]];
    (eexists; eexists; split; [reflexivity | split; [reflexivity |]]);
    intros change; unfold _assess_performance_change; simpl;
    (repeat split;
     [ intros ->; reflexivity
     | intros -> ->; reflexivity
     | intros H; eapply feqb_finite in H; [subst change; reflexivity | reflexivity]
     | intros H; eapply feqb_finite in H; [subst change; reflexivity | reflexivity] ]).
Qed.

Lemma latency_classification_witness :
  exists warning critical,
    threshold ("core_latency" ++ "_warning") = Ok warning
    /\ threshold ("core_latency" ++ "_critical") = Ok critical
    /\ forall change,
        ((critical <? change)%float = true ->
         _assess_performance_change change "core_latency" = Ok CRITICAL)
        /\ ((critical <? change)%float = false ->
            (warning <? change)%float = true ->
            _assess_performance_change change "core_latency" = Ok WARNING)
        /\ ((change =? warning)%float = true ->
            _assess_performance_change change "core_latency" = Ok OK)
        /\ ((change =? critical)%float = true ->
            _assess_performance_change change "core_latency" = Ok WARNING).
Proof.
  apply (latency_classification "core_latency"). simpl. left. reflexivity.
Defined.

(** C3: in throughput mode the change is compared with the negated
    thresholds: below [-critical] is CRITICAL, else below [-warning] is
    WARNING, else above 0.05 is IMPROVEMENT, otherwise OK; with warning 0.15
    and critical 0.30, -0.16 is WARNING and +0.20 is IMPROVEMENT. *)
Theorem throughput_classification :
  exists warning critical,
    threshold "throughput_warning" = Ok warning
    /\ threshold "throughput_critical" = Ok critical
    /\ warning = 0.15%float /\ critical = 0.30%float
    /\ (forall change,
          ((change <? - critical)%float = true ->
           _assess_throughput_change change = Ok CRITICAL)
          /\ ((change <? - critical)%float = false ->
              (change <? - warning)%float = true ->
              _assess_throughput_change change = Ok WARNING)
          /\ ((change <? - critical)%float = false ->
              (change <? - warning)%float = false ->
              (0.05 <? change)%float = true ->
              _assess_throughput_change change = Ok IMPROVEMENT)
          /\ ((change <? - critical)%float = false ->
              (change <? - warning)%float = false ->
              (0.05 <? change)%float = false ->
              _assess_throughput_change change = Ok OK))
    /\ _assess_throughput_change (- 0.16)%float = Ok WARNING
    /\ _assess_throughput_change 0.20%float = Ok IMPROVEMENT.
Proof.
  exists 0.15%float, 0.30%float.
  repeat (split; [reflexivity |]).
  split; [| split; reflexivity].
  intros change. unfold _assess_throughput_change. simpl.
  repeat split.
  - intros ->. reflexivity.
  - intros -> ->. reflexivity.
  - intros -> -> ->. reflexivity.
  - intros -> -> ->. reflexivity.
Qed.

Lemma throughput_classification_witness :
  _assess_throughput_change (- 0.2)%float = Ok WARNING.
Proof.
  destruct throughput_classification as (w & c & _ & _ & -> & -> & H & _).
  apply (H (- 0.2)%float); reflexivity.
Defined.

(** ** Percentage change *)

(** *** Converting an integer to binary64

    [binary_normalize] on an integer gives a valid float that is not a
    zero: the integer is either exact, or rounded to 53 bits, or out of
    range. *)

Lemma digits2_pos_bounds (m : positive) :
  2 ^ (Zpos (digits2_pos m) - 1) <= Zpos m < 2 ^ Zpos (digits2_pos m).
Proof.
  induction m as [p IH | p IH |]; cbn [digits2_pos].
  - rewrite Pos2Z.inj_succ.
    replace (Z.succ (Zpos (digits2_pos p)) - 1) with (Z.succ (Zpos (digits2_pos p) - 1)) by lia.
    rewrite !Z.pow_succ_r by lia. lia.
  - rewrite Pos2Z.inj_succ.
    replace (Z.succ (Zpos (digits2_pos p)) - 1) with (Z.succ (Zpos (digits2_pos p) - 1)) by lia.
    rewrite !Z.pow_succ_r by lia. lia.
  - simpl. lia.
Qed.

Lemma digits2_pos_unique (m : positive) (k : Z) :
  2 ^ (k - 1) <= Zpos m < 2 ^ k -> Zpos (digits2_pos m) = k.
Proof.
  intros [Hlo Hhi]. pose proof (digits2_pos_bounds m) as [Dlo Dhi].
  assert (0 < k).
  { destruct (Z.ltb_spec 0 k); [assumption |].
    destruct (Z.eqb_spec k 0) as [-> | ]; [simpl in Hhi; lia |].
    rewrite Z.pow_neg_r in Hhi by lia. lia. }
  destruct (Z.lt_trichotomy (Zpos (digits2_pos m)) k) as [Hlt | [Heq | Hgt]];
    [| exact Heq |].
  - assert (2 ^ Zpos (digits2_pos m) <= 2 ^ (k - 1)) by (apply Z.pow_le_mono_r; lia).
    lia.
  - assert (2 ^ k <= 2 ^ (Zpos (digits2_pos m) - 1)) by (apply Z.pow_le_mono_r; lia).
    lia.
Qed.

Lemma iter_xO (k m : positive) :
  Zpos (Pos.iter xO m k) = Zpos m * 2 ^ Zpos k.
Proof.
  rewrite <- Z.shiftl_mul_pow2 by lia. simpl.
  now apply Pos.iter_swap_gen.
Qed.

Lemma shr_1_m (r : shr_record) :
  0 <= shr_m r -> shr_m (shr_1 r) = shr_m r / 2.
Proof.
  destruct r as [m b s]. cbn [shr_m]. intros H.
  destruct m as [|[p|p|]|p]; try lia; cbn [shr_1 shr_m].
  - reflexivity.
  - apply (Z.div_unique_pos (Zpos p~1) 2 (Zpos p) 1); lia.
  - apply (Z.div_unique_pos (Zpos p~0) 2 (Zpos p) 0); lia.
  - reflexivity.
Qed.

Lemma iter_shr_1_m (p : positive) (r : shr_record) :
  0 <= shr_m r -> shr_m (iter_pos shr_1 p r) = shr_m r / 2 ^ Zpos p.
Proof.
  revert r. induction p as [p IH | p IH |]; intros r H; cbn [iter_pos].
  - assert (H1 : 0 <= shr_m (shr_1 r)) by (rewrite shr_1_m by assumption; apply Z.div_pos; lia).
    assert (H2 : 0 <= shr_m (iter_pos shr_1 p (shr_1 r)))
      by (rewrite IH by assumption; apply Z.div_pos; lia).
    rewrite IH, IH, shr_1_m by assumption.
    rewrite !Z.div_div by lia. f_equal.
    replace (Zpos p~1) with (Zpos p + Zpos p + 1) by lia.
    rewrite !Z.pow_add_r by lia. change (2 ^ 1) with 2. ring.
  - assert (H2 : 0 <= shr_m (iter_pos shr_1 p r))
      by (rewrite IH by assumption; apply Z.div_pos; lia).
    rewrite IH, IH by assumption.
    rewrite !Z.div_div by lia. f_equal.
    replace (Zpos p~0) with (Zpos p + Zpos p) by lia.
    rewrite Z.pow_add_r by lia. ring.
  - now apply shr_1_m.
Qed.

Lemma fexp64 (e : Z) : fexp prec emax e = Z.max (e - 53) (-1074).
Proof. reflexivity. Qed.

Lemma binary_round_aux_exact (s : bool) (m : positive) (e : Z) :
  canonical_mantissa prec emax m e = true ->
  e <= 971 ->
  binary_round_aux prec emax s (Zpos m) e loc_Exact = S754_finite s m e.
Proof.
  unfold canonical_mantissa. intros Hc He. apply Z.eqb_eq in Hc.
  unfold binary_round_aux, shr_fexp. cbn [Zdigits2 shr_record_of_loc].
  rewrite Hc, Z.sub_diag. cbn [shr shr_m loc_of_shr_record round_nearest_even].
  cbn [Zdigits2 shr_record_of_loc]. rewrite Hc, Z.sub_diag. cbn [shr shr_m].
  change (emax - prec) with 971.
  destruct (Z.leb_spec e 971); [reflexivity | lia].
Qed.

Lemma round_nearest_even_range (m : Z) (l : location) :
  m <= round_nearest_even m l <= m + 1.
Proof.
  destruct l as [|[]]; cbn [round_nearest_even]; try lia.
  destruct (Z.even m); lia.
Qed.

Lemma shr_fexp_first (m n : positive) :
  Zpos (digits2_pos m) - 53 = Zpos n ->
  shr_fexp prec emax (Zpos m) 0 loc_Exact
  = (iter_pos shr_1 n (shr_record_of_loc (Zpos m) loc_Exact), Zpos n).
Proof.
  intros H. unfold shr_fexp. cbn [Zdigits2].
  rewrite fexp64, Z.add_0_r, Z.max_l, Z.sub_0_r, H by lia. reflexivity.
Qed.

Lemma shr_fexp_second (v n : positive) :
  2 ^ 52 <= Zpos v <= 2 ^ 53 ->
  exists r e m,
    shr_fexp prec emax (Zpos v) (Zpos n) loc_Exact = (r, e)
    /\ shr_m r = Zpos m
    /\ Zpos (digits2_pos m) = 53
    /\ 0 < e.
Proof.
  intros Hv. unfold shr_fexp. cbn [Zdigits2]. rewrite fexp64.
  destruct (Z.eq_dec (Zpos v) (2 ^ 53)) as [Heq | Hne].
  - assert (Hdig : Zpos (digits2_pos v) = 54)
      by (apply digits2_pos_unique; rewrite Heq; simpl; lia).
    rewrite Hdig, Z.max_l by lia.
    replace (54 + Zpos n - 53 - Zpos n) with 1 by lia.
    injection Heq as ->. cbn [shr iter_pos shr_record_of_loc shr_1].
    do 3 eexists. split; [reflexivity |]. cbn [shr_m].
    split; [reflexivity |]. split; [reflexivity | lia].
  - assert (Hdig : Zpos (digits2_pos v) = 53)
      by (apply digits2_pos_unique; lia).
    rewrite Hdig, Z.max_l by lia.
    replace (53 + Zpos n - 53 - Zpos n) with 0 by lia.
    cbn [shr shr_record_of_loc].
    do 3 eexists. split; [reflexivity |]. cbn [shr_m].
    split; [reflexivity |]. split; [exact Hdig | lia].
Qed.

(** An integer of more than 53 bits rounds to a float with a 53-bit
    mantissa, or overflows. *)
Lemma binary_round_aux_wide (s : bool) (m : positive) :
  53 < Zpos (digits2_pos m) ->
  exists m' e,
    Zpos (digits2_pos m') = 53 /\ 0 < e
    /\ binary_round_aux prec emax s (Zpos m) 0 loc_Exact
       = if e <=? 971 then S754_finite s m' e else S754_infinity s.
Proof.
  intros Hgt. pose proof (digits2_pos_bounds m) as [Dlo Dhi].
  destruct (Zpos (digits2_pos m) - 53) as [|n|n] eqn:En; try lia.
  unfold binary_round_aux. rewrite (shr_fexp_first m n En).
  set (r1 := iter_pos shr_1 n (shr_record_of_loc (Zpos m) loc_Exact)).
  assert (Hr1 : shr_m r1 = Zpos m / 2 ^ Zpos n)
    by (unfold r1; rewrite iter_shr_1_m; cbn; [reflexivity | lia]).
  assert (Hr1b : 2 ^ 52 <= shr_m r1 < 2 ^ 53).
  { rewrite Hr1.
    replace (Zpos (digits2_pos m)) with (Zpos n + 53) in Dlo, Dhi by lia.
    replace (Zpos n + 53 - 1) with (52 + Zpos n) in Dlo by lia.
    rewrite Z.pow_add_r in Dlo, Dhi by lia.
    assert (0 < 2 ^ Zpos n) by (apply Z.pow_pos_nonneg; lia).
    split.
    - apply Z.div_le_lower_bound; lia.
    - apply Z.div_lt_upper_bound; lia. }
  pose proof (round_nearest_even_range (shr_m r1) (loc_of_shr_record r1)) as Hv.
  destruct (round_nearest_even (shr_m r1) (loc_of_shr_record r1)) as [|v|v];
    try lia.
  destruct (shr_fexp_second v n) as (r & e & m' & -> & Hm & Hdig & He); [lia |].
  rewrite Hm. exists m', e. auto.
Qed.

Lemma binary_round_int (s : bool) (m : positive) :
  valid_binary (binary_round prec emax s m 0) = true
  /\ forall s', binary_round prec emax s m 0 <> S754_zero s'.
Proof.
  unfold binary_round. rewrite Z.add_0_r.
  remember (Zpos (digits2_pos m)) as d eqn:Ed.
  assert (Hd : 0 < d) by lia.
  rewrite fexp64.
  rewrite Z.max_l by lia.
  pose proof (digits2_pos_bounds m) as [Dlo Dhi]. rewrite <- Ed in Dlo, Dhi.
  destruct (Z.le_gt_cases d 53) as [Hle | Hgt].
  - (* the integer fits: the conversion is exact *)
    assert (exists mz, shl_align m 0 (d - 53) = (mz, d - 53)
                       /\ Zpos (digits2_pos mz) = 53) as (mz & -> & Hmz).
    { unfold shl_align. rewrite Z.sub_0_r.
      destruct (d - 53) as [|p|p] eqn:E; try lia.
      - exists m. split; [reflexivity | lia].
      - exists (Pos.iter xO m p). split; [reflexivity |].
        apply digits2_pos_unique. rewrite iter_xO.
        replace (53 - 1) with (d - 1 + Zpos p) by lia.
        replace 53 with (d + Zpos p) by lia.
        rewrite !Z.pow_add_r by lia.
        assert (0 < 2 ^ Zpos p) by (apply Z.pow_pos_nonneg; lia).
        split.
        + apply Z.mul_le_mono_nonneg_r; lia.
        + apply Z.mul_lt_mono_pos_r; lia. }
    assert (Hc : canonical_mantissa prec emax mz (d - 53) = true).
    { unfold canonical_mantissa. rewrite Hmz, fexp64. apply Z.eqb_eq. lia. }
    rewrite binary_round_aux_exact by (assumption || lia).
    split; [| discriminate].
    cbn [valid_binary]. unfold bounded. rewrite Hc. apply Z.leb_le.
    change (emax - prec) with 971. lia.
  - (* the integer is rounded to 53 bits *)
    assert (shl_align m 0 (d - 53) = (m, 0)) as ->.
    { unfold shl_align. rewrite Z.sub_0_r. destruct (d - 53) eqn:E; try lia; reflexivity. }
    destruct (binary_round_aux_wide s m) as (m' & e & Hdig & He & ->); [lia |].
    destruct (Z.leb_spec e 971); [| split; [reflexivity | discriminate]].
    split; [| discriminate].
    cbn [valid_binary]. unfold bounded, canonical_mantissa.
    rewrite fexp64, Hdig. apply andb_true_intro. split.
    + apply Z.eqb_eq. lia.
    + apply Z.leb_le. change (emax - prec) with 971. lia.
Qed.

(** A non-zero integer does not convert to a float zero. *)
Lemma float_of_Z_nonzero (z : Z) (y : float) :
  z <> 0 -> float_of_Z z = Ok y -> (y =? 0)%float = false.
Proof.
  intros Hz. unfold float_of_Z.
  assert (Hx : valid_binary (binary_normalize prec emax z 0 false) = true
               /\ forall s', binary_normalize prec emax z 0 false <> S754_zero s').
  { destruct z as [|m|m]; [contradiction | |]; apply binary_round_int. }
  destruct Hx as [Hvalid Hnz].
  destruct (is_inf _); [discriminate |]. intros [= <-].
  rewrite eqb_spec, Prim2SF_SF2Prim by exact Hvalid.
  change (Prim2SF 0) with (S754_zero false).
  destruct (binary_normalize prec emax z 0 false) as [s'|s'| |s' m' e'];
    try reflexivity.
  - exfalso. now apply (Hnz s').
  - destruct s'; reflexivity.
  - destruct s'; reflexivity.
Qed.

Lemma float_truediv_nonzero (x y : float) :
  (y =? 0)%float = false -> float_truediv x y = Ok (x / y)%float.
Proof.
  intros H. unfold float_truediv. now rewrite H.
Qed.

(** ** Integers a double holds exactly

    Below [2^53] the conversion of an integer is exact, and the quotient
    of two such integers is the quotient of their floats. *)

Lemma binary_round_small (s : bool) (p : positive) :
  Zpos p < 2 ^ 53 ->
  Zpos (mantissa53 p) = Zpos p * 2 ^ (53 - Zpos (digits2_pos p))
  /\ Zpos (digits2_pos (mantissa53 p)) = 53
  /\ binary_round prec emax s p 0
     = S754_finite s (mantissa53 p) (Zpos (digits2_pos p) - 53).
Proof.
  intros Hp. unfold binary_round, mantissa53. rewrite Z.add_0_r.
  remember (Zpos (digits2_pos p)) as d eqn:Ed.
  assert (Hd : 0 < d) by lia.
  rewrite fexp64, Z.max_l by lia.
  pose proof (digits2_pos_bounds p) as [Dlo Dhi]. rewrite <- Ed in Dlo, Dhi.
  assert (Hle : d <= 53).
  { destruct (Z.le_gt_cases d 53) as [H | H]; [exact H |].
    assert (2 ^ 53 <= 2 ^ (d - 1)) by (apply Z.pow_le_mono_r; lia). lia. }
  assert (exists P, shl_align p 0 (d - 53) = (P, d - 53)
                    /\ Zpos P = Zpos p * 2 ^ (53 - d)
                    /\ Zpos (digits2_pos P) = 53) as (P & -> & HP & HdP).
  { unfold shl_align. rewrite Z.sub_0_r.
    destruct (d - 53) as [|n|n] eqn:E; try lia.
    - exists p. replace (53 - d) with 0 by lia. rewrite Z.mul_1_r. repeat split; lia.
    - exists (Pos.iter xO p n). split; [reflexivity |].
      replace (53 - d) with (Zpos n) by lia. split; [apply iter_xO |].
      apply digits2_pos_unique. rewrite iter_xO.
      replace (53 - 1) with (d - 1 + Zpos n) by lia.
      replace 53 with (d + Zpos n) by lia.
      rewrite !Z.pow_add_r by lia.
      assert (0 < 2 ^ Zpos n) by (apply Z.pow_pos_nonneg; lia).
      split.
      + apply Z.mul_le_mono_nonneg_r; lia.
      + apply Z.mul_lt_mono_pos_r; lia. }
  cbn [fst]. split; [exact HP |]. split; [exact HdP |].
  apply binary_round_aux_exact; [| lia].
  unfold canonical_mantissa. rewrite HdP, fexp64. apply Z.eqb_eq. lia.
Qed.

Lemma Prim2SF_Z2F (z : Z) :
  Z.abs z < 2 ^ 53 ->
  Prim2SF (Z2F z) = binary_normalize prec emax z 0 false.
Proof.
  intros Hz.
  assert (Hpos : forall p, Zpos p < 2 ^ 53 ->
                           Prim2SF (of_uint63 (Uint63.of_Z (Zpos p)))
                           = binary_round prec emax false p 0).
  { intros p Hp. rewrite of_uint63_spec, Uint63.of_Z_spec.
    rewrite Z.mod_small; [reflexivity |].
    change Uint63.wB with (2 ^ 63). assert (2 ^ 53 < 2 ^ 63) by reflexivity. lia. }
  destruct z as [|p|p]; cbn [Z2F binary_normalize].
  - reflexivity.
  - apply Hpos. lia.
  - rewrite opp_spec, Hpos by lia.
    destruct (binary_round_small false p) as (_ & _ & ->); [lia |].
    destruct (binary_round_small true p) as (_ & _ & ->); [lia |].
    reflexivity.
Qed.

Lemma float_of_Z_small (z : Z) :
  Z.abs z < 2 ^ 53 -> float_of_Z z = Ok (Z2F z).
Proof.
  intros Hz. unfold float_of_Z. rewrite <- (Prim2SF_Z2F z Hz).
  rewrite SF2Prim_Prim2SF. unfold is_inf. rewrite (Prim2SF_Z2F z Hz).
  destruct z as [|p|p]; cbn [binary_normalize]; [reflexivity | |].
  - destruct (binary_round_small false p) as (_ & _ & ->); [lia | reflexivity].
  - destruct (binary_round_small true p) as (_ & _ & ->); [lia | reflexivity].
Qed.

Lemma div_eucl_div_mod (a b : Z) : Z.div_eucl a b = (a / b, a mod b).
Proof.
  unfold Z.div, Z.modulo. now destruct (Z.div_eucl a b).
Qed.

Lemma new_location_double (n r : Z) :
  0 < n -> 0 <= r < n -> new_location (2 * n) (2 * r) = new_location n r.
Proof.
  intros Hn Hr. unfold new_location. rewrite Z.even_mul. cbn [Z.even orb].
  destruct (Z.even n) eqn:En; unfold new_location_even, new_location_odd;
    (destruct (Z.eqb_spec r 0) as [-> | Hr0]; [reflexivity |]);
    (destruct (Z.eqb_spec (2 * r) 0) as [E | _]; [lia |]); f_equal.
  - destruct (Z.compare_spec (2 * (2 * r)) (2 * n)),
             (Z.compare_spec (2 * r) n); try reflexivity; lia.
  - assert (Ho : Z.odd n = true) by (rewrite <- Z.negb_even, En; reflexivity).
    apply Z.odd_spec in Ho as [k ->].
    destruct (Z.compare_spec (2 * (2 * r)) (2 * (2 * k + 1))),
             (Z.compare_spec (2 * r + 1) (2 * k + 1)); try reflexivity; lia.
Qed.

Lemma new_location_scale (k n r : Z) :
  0 <= k -> 0 < n -> 0 <= r < n ->
  new_location (n * 2 ^ k) (r * 2 ^ k) = new_location n r.
Proof.
  intros Hk Hn Hr. revert k Hk. apply natlike_ind.
  - now rewrite !Z.mul_1_r.
  - intros k Hk IH. rewrite Z.pow_succ_r by exact Hk.
    assert (0 < 2 ^ k) by (apply Z.pow_pos_nonneg; lia).
    replace (n * (2 * 2 ^ k)) with (2 * (n * 2 ^ k)) by ring.
    replace (r * (2 * 2 ^ k)) with (2 * (r * 2 ^ k)) by ring.
    rewrite new_location_double; [exact IH | nia | nia].
Qed.

(** The division of two integers below [2^53] starts from the same
    quotient, exponent and location as that of their floats. *)
Lemma SFdiv_core_small (p q : positive) :
  Zpos p < 2 ^ 53 -> Zpos q < 2 ^ 53 ->
  SFdiv_core_binary prec emax (Zpos (mantissa53 p)) (Zpos (digits2_pos p) - 53)
                    (Zpos (mantissa53 q)) (Zpos (digits2_pos q) - 53)
  = SFdiv_core_binary prec emax (Zpos p) 0 (Zpos q) 0
  /\ exists m l,
      SFdiv_core_binary prec emax (Zpos p) 0 (Zpos q) 0
      = (m, Zpos (digits2_pos p) - Zpos (digits2_pos q) - 53, l)
      /\ 0 < m < 2 ^ 54.
Proof.
  intros Hp Hq.
  destruct (binary_round_small false p Hp) as (HP & HdP & _).
  destruct (binary_round_small false q Hq) as (HQ & HdQ & _).
  pose proof (digits2_pos_bounds p) as [Plo Phi].
  pose proof (digits2_pos_bounds q) as [Qlo Qhi].
  remember (Zpos (digits2_pos p)) as dp eqn:Edp.
  remember (Zpos (digits2_pos q)) as dq eqn:Edq.
  assert (Hdp : 0 < dp <= 53).
  { split; [lia |]. destruct (Z.le_gt_cases dp 53) as [H | H]; [exact H |].
    assert (2 ^ 53 <= 2 ^ (dp - 1)) by (apply Z.pow_le_mono_r; lia). lia. }
  assert (Hdq : 0 < dq <= 53).
  { split; [lia |]. destruct (Z.le_gt_cases dq 53) as [H | H]; [exact H |].
    assert (2 ^ 53 <= 2 ^ (dq - 1)) by (apply Z.pow_le_mono_r; lia). lia. }
  set (A := Zpos p * 2 ^ (53 - dp + dq)).
  assert (Hc : 0 < 2 ^ (53 - dq)) by (apply Z.pow_pos_nonneg; lia).
  assert (Hraw : SFdiv_core_binary prec emax (Zpos p) 0 (Zpos q) 0
                 = (A / Zpos q, dp - dq - 53, new_location (Zpos q) (A mod Zpos q))).
  { unfold SFdiv_core_binary. cbn [Zdigits2]. rewrite <- Edp, <- Edq.
    rewrite fexp64, !Z.add_0_r, Z.sub_0_r.
    replace (Z.min (Z.max (dp - dq - 53) (-1074)) 0) with (dp - dq - 53) by lia.
    destruct (0 - (dp - dq - 53)) as [|s|s] eqn:Es; try lia.
    rewrite Z.shiftl_mul_pow2 by lia.
    replace (Zpos s) with (53 - dp + dq) by lia. fold A.
    now rewrite div_eucl_div_mod. }
  split.
  - rewrite Hraw. unfold SFdiv_core_binary. cbn [Zdigits2]. rewrite HdP, HdQ.
    rewrite fexp64.
    replace (53 + (dp - 53) - (53 + (dq - 53))) with (dp - dq) by lia.
    replace (Z.min (Z.max (dp - dq - 53) (-1074)) (dp - 53 - (dq - 53)))
      with (dp - dq - 53) by lia.
    replace (dp - 53 - (dq - 53) - (dp - dq - 53)) with 53 by lia.
    cbn match. rewrite Z.shiftl_mul_pow2 by lia.
    rewrite div_eucl_div_mod, HP, HQ.
    replace (Zpos p * 2 ^ (53 - dp) * 2 ^ 53) with (A * 2 ^ (53 - dq)).
    2:{ unfold A. rewrite <- !Z.mul_assoc, <- !Z.pow_add_r by lia.
        do 2 f_equal. lia. }
    rewrite Z.div_mul_cancel_r by lia.
    rewrite Z.mul_mod_distr_r by lia.
    rewrite new_location_scale; [reflexivity | lia | lia |].
    apply Z.mod_pos_bound. lia.
  - rewrite Hraw. do 2 eexists. split; [reflexivity |].
    assert (HA1 : 2 ^ 52 * 2 ^ dq <= A).
    { unfold A. replace (53 - dp + dq) with ((53 - dp) + dq) by lia.
      rewrite Z.pow_add_r, Z.mul_assoc by lia.
      apply Z.mul_le_mono_nonneg_r; [apply Z.pow_nonneg; lia |].
      replace 52 with ((dp - 1) + (53 - dp)) by lia.
      rewrite Z.pow_add_r by lia.
      apply Z.mul_le_mono_nonneg_r; [apply Z.pow_nonneg; lia | exact Plo]. }
    assert (HA2 : A < 2 ^ 54 * 2 ^ (dq - 1)).
    { unfold A. replace (2 ^ 54 * 2 ^ (dq - 1)) with (2 ^ dp * 2 ^ (53 - dp + dq)).
      - apply Z.mul_lt_mono_pos_r; [apply Z.pow_pos_nonneg; lia | exact Phi].
      - rewrite <- !Z.pow_add_r by lia. f_equal. lia. }
    split.
    + apply Z.div_str_pos. split; [lia |].
      assert (0 < 2 ^ 52) by reflexivity. nia.
    + apply Z.div_lt_upper_bound; [lia |].
      assert (0 < 2 ^ 54) by reflexivity.
      assert (2 ^ 54 * 2 ^ (dq - 1) <= Zpos q * 2 ^ 54) by nia. lia.
Qed.

Lemma digits2_pos_small (p : positive) :
  Zpos p < 2 ^ 53 -> 0 < Zpos (digits2_pos p) <= 53.
Proof.
  intros Hp. pose proof (digits2_pos_bounds p) as [Plo _]. split; [lia |].
  destruct (Z.le_gt_cases (Zpos (digits2_pos p)) 53) as [H | H]; [exact H |].
  assert (2 ^ 53 <= 2 ^ (Zpos (digits2_pos p) - 1)) by (apply Z.pow_le_mono_r; lia).
  lia.
Qed.

Lemma shr_m_of_loc (m : Z) (l : location) : shr_m (shr_record_of_loc m l) = m.
Proof. destruct l as [|[]]; reflexivity. Qed.

(** One alignment step on a mantissa below [2^54]: at most one bit is
    dropped, and what is left is below [2^53]. *)
Lemma shr_fexp_small (m e : Z) (l : location) :
  0 <= m < 2 ^ 54 -> -1074 <= e ->
  exists r e',
    shr_fexp prec emax m e l = (r, e')
    /\ 0 <= shr_m r < 2 ^ 53
    /\ e <= e' <= e + 1.
Proof.
  intros Hm He. unfold shr_fexp, shr. rewrite fexp64.
  assert (Hd : 0 <= Zdigits2 m <= 54 /\ m < 2 ^ Zdigits2 m).
  { destruct m as [|p|p]; cbn [Zdigits2]; [split; [lia | reflexivity] | | lia].
    pose proof (digits2_pos_bounds p) as [Plo Phi]. split; [| exact Phi].
    split; [lia |].
    destruct (Z.le_gt_cases (Zpos (digits2_pos p)) 54) as [H | H]; [exact H |].
    assert (2 ^ 54 <= 2 ^ (Zpos (digits2_pos p) - 1))
      by (apply Z.pow_le_mono_r; lia).
    lia. }
  destruct Hd as [Hd Hlt].
  assert (Hsame : Z.max (Zdigits2 m + e - 53) (-1074) - e <= 0 -> m < 2 ^ 53).
  { intros H. assert (Zdigits2 m <= 53) by lia.
    assert (2 ^ Zdigits2 m <= 2 ^ 53) by (apply Z.pow_le_mono_r; lia). lia. }
  destruct (Z.max (Zdigits2 m + e - 53) (-1074) - e) as [|n|n] eqn:En.
  - exists (shr_record_of_loc m l), e. split; [reflexivity |].
    rewrite shr_m_of_loc. split; [| lia]. split; [lia |]. apply Hsame. lia.
  - assert (Hn : Zpos n = 1) by lia.
    exists (iter_pos shr_1 n (shr_record_of_loc m l)), (e + Zpos n).
    split; [reflexivity |]. split; [| lia].
    rewrite iter_shr_1_m by (rewrite shr_m_of_loc; lia).
    rewrite shr_m_of_loc, Hn. change (2 ^ 1) with 2.
    split; [apply Z.div_pos; lia |].
    apply Z.div_lt_upper_bound; [lia |]. change (2 * 2 ^ 53) with (2 ^ 54). lia.
  - exists (shr_record_of_loc m l), e. split; [reflexivity |].
    rewrite shr_m_of_loc. split; [| lia]. split; [lia |]. apply Hsame. lia.
Qed.

Lemma binary_round_aux_finite (s : bool) (m e : Z) (l : location) :
  0 <= m < 2 ^ 54 -> -1074 <= e <= 0 ->
  forall s', binary_round_aux prec emax s m e l <> S754_infinity s'.
Proof.
  intros Hm He s'. unfold binary_round_aux.
  destruct (shr_fexp_small m e l) as (r1 & e1 & -> & Hr1 & He1); [lia | lia |].
  pose proof (round_nearest_even_range (shr_m r1) (loc_of_shr_record r1)) as Hv.
  assert (2 ^ 53 + 1 < 2 ^ 54) by reflexivity.
  destruct (shr_fexp_small (round_nearest_even (shr_m r1) (loc_of_shr_record r1))
              e1 loc_Exact) as (r2 & e2 & -> & Hr2 & He2); [lia | lia |].
  destruct (shr_m r2); [discriminate | | discriminate].
  change (emax - prec) with 971.
  destruct (Z.leb_spec e2 971); [discriminate | lia].
Qed.

(** Dividing two integers below [2^53] is dividing their floats, and does
    not overflow. *)
Lemma SFdiv_small (s1 s2 : bool) (p q : positive) :
  Zpos p < 2 ^ 53 -> Zpos q < 2 ^ 53 ->
  SFdiv prec emax (S754_finite s1 p 0) (S754_finite s2 q 0)
  = SFdiv prec emax (binary_round prec emax s1 p 0) (binary_round prec emax s2 q 0)
  /\ forall s', SFdiv prec emax (S754_finite s1 p 0) (S754_finite s2 q 0)
                <> S754_infinity s'.
Proof.
  intros Hp Hq.
  destruct (binary_round_small s1 p Hp) as (_ & _ & ->).
  destruct (binary_round_small s2 q Hq) as (_ & _ & ->).
  destruct (SFdiv_core_small p q Hp Hq) as (Hcore & m & l & Hraw & Hm).
  cbn [SFdiv]. rewrite Hcore. split; [reflexivity |].
  rewrite Hraw. intros s'.
  pose proof (digits2_pos_small p Hp). pose proof (digits2_pos_small q Hq).
  apply binary_round_aux_finite; lia.
Qed.

Lemma int_truediv_small (a b : Z) :
  Z.abs a < 2 ^ 53 -> Z.abs b < 2 ^ 53 -> b <> 0 ->
  int_truediv a b = Ok (Z2F a / Z2F b)%float.
Proof.
  intros Ha Hb Hb0. unfold int_truediv.
  destruct (Z.eqb_spec b 0) as [E | _]; [contradiction |].
  assert (Hq : SFdiv prec emax (sf_of_Z a) (sf_of_Z b)
               = Prim2SF (Z2F a / Z2F b)
               /\ forall s', SFdiv prec emax (sf_of_Z a) (sf_of_Z b)
                             <> S754_infinity s').
  { rewrite div_spec. unfold SF64div. rewrite !Prim2SF_Z2F by assumption.
    destruct b as [|q|q]; [contradiction | |];
      destruct a as [|p|p]; cbn [sf_of_Z binary_normalize];
      try (apply SFdiv_small; lia);
      match goal with
      | |- context [binary_round prec emax ?s q 0] =>
          destruct (binary_round_small s q) as (_ & _ & ->); [lia |]
      end;
      (split; [reflexivity | discriminate]). }
  destruct Hq as [Hq Hfin]. rewrite Hq, SF2Prim_Prim2SF.
  unfold is_inf. rewrite <- Hq.
  destruct (SFdiv prec emax (sf_of_Z a) (sf_of_Z b)) eqn:E; try reflexivity.
  now contradiction (Hfin s).
Qed.

Lemma percentage_change_numeric (baseline current : value) (b c : num) :
  as_num baseline = Some b ->
  as_num current = Some c ->
  eq_zero baseline = false ->
  (exists q, _calculate_percentage_change baseline current = Ok q)
  \/ _calculate_percentage_change baseline current = Raise OverflowError.
Proof.
  intros Hb Hc Hz. unfold _calculate_percentage_change, need_num.
  rewrite Hz, Hc, Hb. cbn [Res.bind]. unfold eq_zero in Hz. rewrite Hb in Hz.
  destruct b as [zb | fb], c as [zc | fc]; cbn [num_sub to_float Res.bind].
  - cbn [num_truediv]. unfold int_truediv. rewrite Hz.
    destruct (is_inf _); eauto.
  - destruct (float_of_Z zb) as [yb | e] eqn:Eb; cbn [Res.bind].
    + cbn [num_truediv to_float Res.bind]. rewrite Eb. cbn [Res.bind].
      rewrite float_truediv_nonzero; [eauto |].
      apply (float_of_Z_nonzero zb); [| exact Eb].
      intros ->. discriminate Hz.
    + unfold float_of_Z in Eb. destruct (is_inf _); [| discriminate].
      injection Eb as <-. auto.
  - destruct (float_of_Z zc) as [yc | e] eqn:Ec; cbn [Res.bind].
    + cbn [num_truediv to_float Res.bind].
      rewrite float_truediv_nonzero by exact Hz. eauto.
    + unfold float_of_Z in Ec. destruct (is_inf _); [| discriminate].
      injection Ec as <-. auto.
  - cbn [num_truediv to_float Res.bind].
    rewrite float_truediv_nonzero by exact Hz. eauto.
Qed.




(** ** Safety overhead *)

Lemma assess_safety_overhead (change : float) :
  exists status, _assess_performance_change change "safety_overhead" = Ok status.
Proof.
  unfold _assess_performance_change. simpl. eexists. reflexivity.
Qed.

(** C4, as stated, fails on the last digit: with overheads 10% and 18% the
    difference the code computes is not the float 0.08. *)
Lemma overhead_delta_is_not_008 :
  safety_overheads disabled_100 enabled_110 disabled_100 enabled_118
  = Ok (0.10, 0.18, 0.07999999999999999)%float
  /\ (0.07999999999999999 =? 0.08)%float = false.
Proof. split; reflexivity. Qed.

(** C4 (amended): the overhead of each run is the percentage change from
    the disabled to the enabled measurement of that run, and the delta is
    the binary64 difference [current_overhead - baseline_overhead], which is
    what is classified and reported; it is not a relative change.  With
    overheads 10% and 18% the delta is 0.18 - 0.10 = 0.07999999999999999,
    the float just below 0.08, reported as 8.0%. *)
Theorem overhead_delta_spec :
  (forall self v0 l0 v1 l1 t0 u0 t1 u1 bo co,
      lookup_overhead self = Ok (v0, l0, v1, l1) ->
      forallb truthy [v0; l0; v1; l1] = true ->
      subscript v0 "cpu_time" = Ok t0 ->
      subscript l0 "cpu_time" = Ok u0 ->
      subscript v1 "cpu_time" = Ok t1 ->
      subscript l1 "cpu_time" = Ok u1 ->
      _calculate_percentage_change t0 u0 = Ok bo ->
      _calculate_percentage_change t1 u1 = Ok co ->
      safety_overheads v0 l0 v1 l1 = Ok (bo, co, (co - bo)%float)
      /\ exists status self',
          _assess_performance_change (co - bo) "safety_overhead" = Ok status
          /\ compare_safety_overhead self
             = Ok (Some {| Safety.baseline_overhead_percent := (bo * 100)%float;
                           Safety.current_overhead_percent := (co * 100)%float;
                           Safety.overhead_change_percent := ((co - bo) * 100)%float;
                           Safety.status := status |}, self'))
  /\ (safety_overheads disabled_100 enabled_110 disabled_100 enabled_118
      = Ok (0.10, 0.18, 0.18 - 0.10)%float
      /\ (0.18 - 0.10 = 0.07999999999999999)%float
      /\ next_up (0.18 - 0.10) = 0.08%float
      /\ fmt_float false 1 ((0.18 - 0.10) * 100) = "8.0"
      /\ ((0.18 - 0.10) / 0.10 =? 0.18 - 0.10)%float = false).
Proof.
  split.
  - intros self v0 l0 v1 l1 t0 u0 t1 u1 bo co Hl Ht Hv0 Hl0 Hv1 Hl1 Hb Hc.
    assert (Hs : safety_overheads v0 l0 v1 l1 = Ok (bo, co, (co - bo)%float)).
    { unfold safety_overheads. rewrite Hv0, Hl0. simpl. rewrite Hb. simpl.
      rewrite Hv1, Hl1. simpl. rewrite Hc. reflexivity. }
    split; [exact Hs |].
    destruct (assess_safety_overhead (co - bo)) as [status Hst].
    exists status.
    unfold compare_safety_overhead. rewrite Hl. cbn [Res.bind].
    rewrite Ht, Hs. cbn [Res.bind]. rewrite Hst. cbn [Res.bind].
    change (threshold "safety_overhead_critical") with (Ok 0.15%float).
    change (threshold "safety_overhead_warning") with (Ok 0.05%float).
    cbn [Res.bind].
    destruct (0.15 <? co - bo)%float; [eexists; split; reflexivity |].
    destruct (0.05 <? co - bo)%float; eexists; split; reflexivity.
  - repeat split; reflexivity.
Qed.

Lemma overhead_delta_spec_witness :
  safety_overheads disabled_100 enabled_110 disabled_100 enabled_118
  = Ok (0.10, 0.18, 0.18 - 0.10)%float
  /\ exists status self',
      _assess_performance_change (0.18 - 0.10) "safety_overhead" = Ok status
      /\ compare_safety_overhead overhead_10_18
         = Ok (Some {| Safety.baseline_overhead_percent := (0.10 * 100)%float;
                       Safety.current_overhead_percent := (0.18 * 100)%float;
                       Safety.overhead_change_percent := ((0.18 - 0.10) * 100)%float;
                       Safety.status := status |}, self').
Proof.
  apply (proj1 overhead_delta_spec overhead_10_18
           disabled_100 enabled_110 disabled_100 enabled_118
           (VInt 100) (VInt 110) (VInt 100) (VInt 118));
    reflexivity.
Defined.

(** ** Lookup in a result set *)

Lemma find_benchmark_records (items : list value) (name : string) :
  forallb is_record items = true ->
  find_benchmark items name = Ok (first_named name items).
Proof.
  unfold first_named.
  induction items as [|bench rest IH]; simpl; [reflexivity |].
  intros H. apply andb_prop in H as [Hb Hrest].
  destruct bench as [| | | | |l|d]; try discriminate.
  simpl. destruct (dict_get "name" d) as [n|]; simpl.
  - destruct (eq_str n name); [reflexivity | auto].
  - auto.
Qed.

Lemma first_named_absent (items : list value) (name : string) :
  absent name items = true -> first_named name items = VNone.
Proof.
  unfold absent, first_named. intros H. apply negb_true_iff in H.
  induction items as [|bench rest IH]; simpl in *; [reflexivity |].
  apply orb_false_elim in H as [H1 H2]. rewrite H1. auto.
Qed.

Lemma lookup_pair_records (self : BenchmarkComparator)
    (bitems citems : list value) (name : string) :
  result_set (baseline_data self) bitems ->
  result_set (current_data self) citems ->
  lookup_pair self name = Ok (first_named name bitems, first_named name citems).
Proof.
  intros [Hb Hbr] [Hc Hcr]. unfold lookup_pair, _get_benchmark_by_name.
  rewrite Hb, Hc. simpl.
  rewrite (find_benchmark_records _ _ Hbr). simpl.
  rewrite (find_benchmark_records _ _ Hcr). reflexivity.
Qed.

Lemma skipped_pair (baseline current : value) :
  baseline = VNone \/ current = VNone ->
  truthy baseline && truthy current = false.
Proof.
  intros [-> | ->]; [reflexivity | apply andb_false_r].
Qed.

Lemma core_body_skip (self : BenchmarkComparator) (name : string)
    (baseline current : value) (results : list (string * Core.entry)) :
  lookup_pair self name = Ok (baseline, current) ->
  truthy baseline && truthy current = false ->
  core_body name (results, self) = Ok (results, self).
Proof.
  intros Hl Ht. unfold core_body. rewrite Hl. cbn [Res.bind]. now rewrite Ht.
Qed.

Lemma memory_body_skip (self : BenchmarkComparator) (name : string)
    (baseline current : value) (results : list (string * Memory.entry)) :
  lookup_pair self name = Ok (baseline, current) ->
  truthy baseline && truthy current = false ->
  memory_body name (results, self) = Ok (results, self).
Proof.
  intros Hl Ht. unfold memory_body. rewrite Hl. cbn [Res.bind]. now rewrite Ht.
Qed.

(** ** One comparison, one list *)

Lemma bind_ok {A B} (m : result A) (k : A -> result B) (b : B) :
  Res.bind m k = Ok b -> exists a, m = Ok a /\ k a = Ok b.
Proof.
  destruct m as [a|e]; simpl; [eauto | discriminate].
Qed.

Tactic Notation "bind_inv" hyp(H) "as" simple_intropattern(a) ident(E) :=
  apply bind_ok in H; destruct H as (a & E & H).

Lemma not_appended_self (l : list string) : ~ appended l l.
Proof.
  intros [msg H]. apply (f_equal (@List.length string)) in H.
  rewrite length_app in H. simpl in H. lia.
Qed.

Lemma same_inputs_refl (self : BenchmarkComparator) : same_inputs self self.
Proof. repeat split. Qed.

Lemma contributes_quiet (s : Severity) (self : BenchmarkComparator) :
  s = OK \/ s = IMPROVEMENT -> contributes s self self.
Proof.
  intros Hs. split; [apply same_inputs_refl |].
  repeat split; auto; intros H;
    solve [ destruct Hs; subst; discriminate
          | exfalso; eapply not_appended_self; eassumption ].
Qed.

Lemma contributes_warning (self : BenchmarkComparator) (msg : string) :
  contributes WARNING self (add_warning self msg).
Proof.
  split; [repeat split |]. simpl.
  repeat split; auto; intros H;
    solve [ now exists msg
          | discriminate
          | exfalso; eapply not_appended_self; eassumption
          | congruence ].
Qed.

Lemma contributes_critical (self : BenchmarkComparator) (msg : string) :
  contributes CRITICAL self (add_critical self msg).
Proof.
  split; [repeat split |]. simpl.
  repeat split; auto; intros H;
    solve [ now exists msg
          | discriminate
          | exfalso; eapply not_appended_self; eassumption
          | congruence ].
Qed.

Lemma assess_latency_cases (change : float) (category : string)
    (warning critical : float) (s : Severity) :
  threshold (category ++ "_warning") = Ok warning ->
  threshold (category ++ "_critical") = Ok critical ->
  _assess_performance_change change category = Ok s ->
  ((critical <? change)%float = true /\ s = CRITICAL)
  \/ ((critical <? change)%float = false
      /\ (warning <? change)%float = true /\ s = WARNING)
  \/ ((critical <? change)%float = false
      /\ (warning <? change)%float = false /\ (s = OK \/ s = IMPROVEMENT)).
Proof.
  intros Hw Hc. unfold _assess_performance_change. rewrite Hw, Hc. simpl.
  destruct (critical <? change)%float; [intros [= <-]; auto |].
  destruct (warning <? change)%float; [intros [= <-]; auto |].
  destruct (change <? - 0.05)%float; intros [= <-]; auto 6.
Qed.

Lemma assess_throughput_cases (change : float) (s : Severity) :
  _assess_throughput_change change = Ok s ->
  ((change <? opp 0.30)%float = true /\ s = CRITICAL)
  \/ ((change <? opp 0.30)%float = false
      /\ (change <? opp 0.15)%float = true /\ s = WARNING)
  \/ ((change <? opp 0.30)%float = false
      /\ (change <? opp 0.15)%float = false /\ (s = OK \/ s = IMPROVEMENT)).
Proof.
  unfold _assess_throughput_change.
  change (threshold "throughput_critical") with (Ok 0.30%float).
  change (threshold "throughput_warning") with (Ok 0.15%float).
  cbn [Res.bind].
  destruct (change <? opp 0.30)%float; [intros [= <-]; auto |].
  destruct (change <? opp 0.15)%float; [intros [= <-]; auto |].
  destruct (0.05 <? change)%float; intros [= <-]; auto 6.
Qed.

Lemma core_body_outcome (name : string) (results results' : list (string * Core.entry))
    (self self' : BenchmarkComparator) :
  core_body name (results, self) = Ok (results', self') ->
  (results' = results /\ self' = self)
  \/ exists e change,
      results' = dict_set name e results
      /\ _assess_performance_change change "core_latency" = Ok (Core.status e)
      /\ contributes (Core.status e) self self'.
Proof.
  unfold core_body. intros H.
  bind_inv H as [baseline current] Hl.
  destruct (truthy baseline && truthy current);
    [| injection H as <- <-; auto].
  bind_inv H as baseline_time Hb. bind_inv H as current_time Hc.
  bind_inv H as change Hch. bind_inv H as status Hst.
  change (threshold "core_latency_critical") with (Ok 0.25%float) in H.
  change (threshold "core_latency_warning") with (Ok 0.10%float) in H.
  cbn [Res.bind] in H. right.
  destruct (assess_latency_cases change "core_latency" _ _ status eq_refl eq_refl Hst)
    as [[Hx ->] | [(Hx & Hw & ->) | (Hx & Hw & Hs)]];
    rewrite Hx in H; try rewrite Hw in H.
  - bind_inv H as b Eb. bind_inv H as c Ec. injection H as <- <-.
    eexists; exists change; split; [reflexivity | split; [exact Hst | apply contributes_critical]].
  - bind_inv H as b Eb. bind_inv H as c Ec. injection H as <- <-.
    eexists; exists change; split; [reflexivity | split; [exact Hst | apply contributes_warning]].
  - injection H as <- <-.
    eexists; exists change; split; [reflexivity | split; [exact Hst | now apply contributes_quiet]].
Qed.

Lemma memory_body_outcome (name : string) (results results' : list (string * Memory.entry))
    (self self' : BenchmarkComparator) :
  memory_body name (results, self) = Ok (results', self') ->
  (results' = results /\ self' = self)
  \/ exists e change,
      results' = dict_set name e results
      /\ _assess_throughput_change change = Ok (Memory.status e)
      /\ contributes (Memory.status e) self self'.
Proof.
  unfold memory_body. intros H.
  bind_inv H as [baseline current] Hl.
  destruct (truthy baseline && truthy current);
    [| injection H as <- <-; auto].
  bind_inv H as baseline_throughput Hb. bind_inv H as current_throughput Hc.
  bind_inv H as change Hch. bind_inv H as status Hst.
  change (threshold "throughput_critical") with (Ok 0.30%float) in H.
  change (threshold "throughput_warning") with (Ok 0.15%float) in H.
  cbn [Res.bind] in H. right.
  destruct (assess_throughput_cases change status Hst)
    as [[Hx ->] | [(Hx & Hw & ->) | (Hx & Hw & Hs)]];
    rewrite Hx in H; try rewrite Hw in H; injection H as <- <-;
    eexists; exists change; (split; [reflexivity | split; [exact Hst |]]).
  - apply contributes_critical.
  - apply contributes_warning.
  - now apply contributes_quiet.
Qed.

Lemma safety_outcome (self self' : BenchmarkComparator) (r : option Safety.entry) :
  compare_safety_overhead self = Ok (r, self') ->
  match r with
  | None => self' = self
  | Some e =>
      (exists change,
          _assess_performance_change change "safety_overhead" = Ok (Safety.status e))
      /\ contributes (Safety.status e) self self'
  end.
Proof.
  unfold compare_safety_overhead. intros H.
  bind_inv H as [[[v0 l0] v1] l1] Hl.
  destruct (forallb truthy _); [| injection H as <- <-; reflexivity].
  bind_inv H as [[bo co] change] Ho.
  bind_inv H as status Hst.
  change (threshold "safety_overhead_critical") with (Ok 0.15%float) in H.
  change (threshold "safety_overhead_warning") with (Ok 0.05%float) in H.
  cbn [Res.bind] in H.
  destruct (assess_latency_cases change "safety_overhead" _ _ status eq_refl eq_refl Hst)
    as [[Hx ->] | [(Hx & Hw & ->) | (Hx & Hw & Hs)]];
    rewrite Hx in H; try rewrite Hw in H; injection H as <- <-;
    (split; [exists change; exact Hst |]).
  - apply contributes_critical.
  - apply contributes_warning.
  - now apply contributes_quiet.
Qed.

(** C8: one comparison puts a message in [warnings] exactly when it is
    classified WARNING and in [critical_issues] exactly when it is
    classified CRITICAL, never in both; this holds for a core metric, the
    safety overhead and a memory metric. *)
Theorem one_comparison_one_list :
  (forall name results results' self self',
      core_body name (results, self) = Ok (results', self') ->
      (results' = results /\ self' = self)
      \/ exists e change,
          results' = dict_set name e results
          /\ _assess_performance_change change "core_latency" = Ok (Core.status e)
          /\ contributes (Core.status e) self self')
  /\ (forall name results results' self self',
         memory_body name (results, self) = Ok (results', self') ->
         (results' = results /\ self' = self)
         \/ exists e change,
             results' = dict_set name e results
             /\ _assess_throughput_change change = Ok (Memory.status e)
             /\ contributes (Memory.status e) self self')
  /\ (forall self self' r,
         compare_safety_overhead self = Ok (r, self') ->
         match r with
         | None => self' = self
         | Some e =>
             (exists change,
                 _assess_performance_change change "safety_overhead"
                 = Ok (Safety.status e))
             /\ contributes (Safety.status e) self self'
         end)
  /\ (forall s self self',
         contributes s self self' ->
         ~ (appended (warnings self) (warnings self')
            /\ appended (critical_issues self) (critical_issues self'))).
Proof.
  split; [| split; [| split]].
  - intros. now apply core_body_outcome.
  - intros. now apply memory_body_outcome.
  - intros. now apply safety_outcome.
  - intros s self self' (_ & Hw & Hc & _) [H1 H2].
    apply Hw in H1. apply Hc in H2. congruence.
Qed.

Lemma one_comparison_one_list_witness :
  exists e change,
    dict_set "BM_MakeMove_ShortChain_mean"
      {| Core.baseline_time := VInt 100;
         Core.current_time := VInt 130;
         Core.change_percent := 30%float;
         Core.status := CRITICAL |} []
    = dict_set "BM_MakeMove_ShortChain_mean" e []
    /\ _assess_performance_change change "core_latency" = Ok (Core.status e)
    /\ contributes (Core.status e) regressed
         (add_critical regressed
            "CRITICAL: BM_MakeMove_ShortChain_mean increased by 30.0% (100.00 μs → 130.00 μs)").
Proof.
  destruct (proj1 one_comparison_one_list "BM_MakeMove_ShortChain_mean" [] _
              regressed _ eq_refl) as [[H _] | H].
  - discriminate H.
  - exact H.
Defined.

(** ** The comparisons keep their inputs and only append *)

Lemma extends_refl (self : BenchmarkComparator) : extends self self.
Proof.
  split; [apply same_inputs_refl |].
  split; exists []; now rewrite app_nil_r.
Qed.

Lemma same_inputs_trans (a b c : BenchmarkComparator) :
  same_inputs a b -> same_inputs b c -> same_inputs a c.
Proof.
  unfold same_inputs. intuition congruence.
Qed.

Lemma extends_trans (a b c : BenchmarkComparator) :
  extends a b -> extends b c -> extends a c.
Proof.
  intros (Hi & [w Hw] & [x Hx]) (Hi' & [w' Hw'] & [x' Hx']).
  split; [eapply same_inputs_trans; eassumption |].
  split.
  - exists (w ++ w')%list. now rewrite Hw', Hw, app_assoc.
  - exists (x ++ x')%list. now rewrite Hx', Hx, app_assoc.
Qed.

Lemma contributes_extends (s : Severity) (self self' : BenchmarkComparator) :
  contributes s self self' -> extends self self'.
Proof.
  intros (Hi & Hw & Hc & Hw' & Hc'). split; [exact Hi |]. split.
  - destruct s; try (exists []; rewrite app_nil_r; apply Hw'; discriminate).
    destruct (proj1 Hw eq_refl) as [msg ->]. now exists [msg].
  - destruct s; try (exists []; rewrite app_nil_r; apply Hc'; discriminate).
    destruct (proj1 Hc eq_refl) as [msg ->]. now exists [msg].
Qed.

Lemma core_body_extends (name : string) (results results' : list (string * Core.entry))
    (self self' : BenchmarkComparator) :
  core_body name (results, self) = Ok (results', self') -> extends self self'.
Proof.
  intros H. apply core_body_outcome in H as [[_ ->] | (e & c & _ & _ & H)].
  - apply extends_refl.
  - eapply contributes_extends, H.
Qed.

Lemma memory_body_extends (name : string)
    (results results' : list (string * Memory.entry))
    (self self' : BenchmarkComparator) :
  memory_body name (results, self) = Ok (results', self') -> extends self self'.
Proof.
  intros H. apply memory_body_outcome in H as [[_ ->] | (e & c & _ & _ & H)].
  - apply extends_refl.
  - eapply contributes_extends, H.
Qed.

Lemma safety_extends (self self' : BenchmarkComparator) (r : option Safety.entry) :
  compare_safety_overhead self = Ok (r, self') -> extends self self'.
Proof.
  intros H. apply safety_outcome in H. destruct r as [e|].
  - eapply contributes_extends, H.
  - subst. apply extends_refl.
Qed.

Section Loop.
Context {R : Type}.
Variable body : string -> R * BenchmarkComparator -> result (R * BenchmarkComparator).
Hypothesis body_extends :
  forall name r r' self self',
    body name (r, self) = Ok (r', self') -> extends self self'.

Lemma for_each_extends (names : list string) (r r' : R)
    (self self' : BenchmarkComparator) :
  for_each body names (r, self) = Ok (r', self') -> extends self self'.
Proof.
  revert r self.
  induction names as [|name names IH]; cbn [for_each]; intros r self H.
  - injection H as <- <-. apply extends_refl.
  - bind_inv H as [r1 self1] H1.
    eapply extends_trans; [eapply body_extends, H1 | eapply IH, H].
Qed.
End Loop.

(** ** Missing metrics *)

Lemma dict_get_set_other {A} (k k' : string) (v : A) (d : list (string * A)) :
  k <> k' -> dict_get k (dict_set k' v d) = dict_get k d.
Proof.
  intros Hk. assert (Hf : String.eqb k' k = false)
    by (apply String.eqb_neq; congruence).
  induction d as [|[k0 v0] d IH]; simpl.
  - now rewrite Hf.
  - destruct (String.eqb_spec k0 k') as [-> | Hne]; simpl.
    + now rewrite Hf.
    + now rewrite IH.
Qed.

Section Missing.
Variable self : BenchmarkComparator.
Variables bitems citems : list value.
Variable name : string.
Hypothesis baseline_set : result_set (baseline_data self) bitems.
Hypothesis current_set : result_set (current_data self) citems.
Hypothesis missing : absent name bitems = true \/ absent name citems = true.

Lemma result_sets_kept (s : BenchmarkComparator) :
  same_inputs self s ->
  result_set (baseline_data s) bitems /\ result_set (current_data s) citems.
Proof.
  intros (_ & _ & Hb & Hc). now rewrite Hb, Hc.
Qed.

Lemma absent_pair (s : BenchmarkComparator) :
  same_inputs self s ->
  exists baseline current,
    lookup_pair s name = Ok (baseline, current)
    /\ truthy baseline && truthy current = false.
Proof.
  intros Hs. destruct (result_sets_kept s Hs) as [Hb Hc].
  exists (first_named name bitems), (first_named name citems).
  split; [now apply lookup_pair_records |].
  apply skipped_pair.
  destruct missing as [H | H]; [left | right]; now apply first_named_absent.
Qed.

Lemma core_body_absent (s : BenchmarkComparator) (results : list (string * Core.entry)) :
  same_inputs self s -> core_body name (results, s) = Ok (results, s).
Proof.
  intros Hs. destruct (absent_pair s Hs) as (b & c & Hl & Ht).
  eapply core_body_skip; eassumption.
Qed.

Lemma memory_body_absent (s : BenchmarkComparator)
    (results : list (string * Memory.entry)) :
  same_inputs self s -> memory_body name (results, s) = Ok (results, s).
Proof.
  intros Hs. destruct (absent_pair s Hs) as (b & c & Hl & Ht).
  eapply memory_body_skip; eassumption.
Qed.

Lemma core_loop_absent (names : list string) (results results' : list (string * Core.entry))
    (s s' : BenchmarkComparator) :
  same_inputs self s ->
  dict_get name results = None ->
  for_each core_body names (results, s) = Ok (results', s') ->
  dict_get name results' = None.
Proof.
  revert results s.
  induction names as [|m names IH]; cbn [for_each]; intros results s Hs Hr H.
  - now injection H as <- <-.
  - bind_inv H as [r1 s1] H1.
    assert (Hs1 : same_inputs self s1).
    { eapply same_inputs_trans; [exact Hs |]. eapply core_body_extends, H1. }
    apply (IH r1 s1 Hs1); [| exact H].
    destruct (String.eqb_spec name m) as [Heq | Hne].
    + rewrite <- Heq in H1. rewrite (core_body_absent s results Hs) in H1. now injection H1 as <- <-.
    + apply core_body_outcome in H1 as [[-> _] | (e & c & -> & _)]; [exact Hr |].
      now rewrite dict_get_set_other.
Qed.

Lemma memory_loop_absent (names : list string)
    (results results' : list (string * Memory.entry))
    (s s' : BenchmarkComparator) :
  same_inputs self s ->
  dict_get name results = None ->
  for_each memory_body names (results, s) = Ok (results', s') ->
  dict_get name results' = None.
Proof.
  revert results s.
  induction names as [|m names IH]; cbn [for_each]; intros results s Hs Hr H.
  - now injection H as <- <-.
  - bind_inv H as [r1 s1] H1.
    assert (Hs1 : same_inputs self s1).
    { eapply same_inputs_trans; [exact Hs |]. eapply memory_body_extends, H1. }
    apply (IH r1 s1 Hs1); [| exact H].
    destruct (String.eqb_spec name m) as [Heq | Hne].
    + rewrite <- Heq in H1. rewrite (memory_body_absent s results Hs) in H1. now injection H1 as <- <-.
    + apply memory_body_outcome in H1 as [[-> _] | (e & c & -> & _)]; [exact Hr |].
      now rewrite dict_get_set_other.
Qed.

Lemma lookup_overhead_records (s : BenchmarkComparator) :
  same_inputs self s ->
  lookup_overhead s
  = Ok (first_named "BM_SafetyLevel_Comparison/0_mean" bitems,
        first_named "BM_SafetyLevel_Comparison/1_mean" bitems,
        first_named "BM_SafetyLevel_Comparison/0_mean" citems,
        first_named "BM_SafetyLevel_Comparison/1_mean" citems).
Proof.
  intros Hs. destruct (result_sets_kept s Hs) as [[Hb Hbr] [Hc Hcr]].
  unfold lookup_overhead, _get_benchmark_by_name. rewrite Hb, Hc. simpl.
  rewrite !(find_benchmark_records _ _ Hbr). simpl.
  rewrite !(find_benchmark_records _ _ Hcr). reflexivity.
Qed.

Lemma safety_absent (s : BenchmarkComparator) :
  same_inputs self s ->
  In name overhead_benchmarks ->
  compare_safety_overhead s = Ok (None, s).
Proof.
  intros Hs Hin. unfold compare_safety_overhead.
  rewrite (lookup_overhead_records s Hs). cbn [Res.bind].
  assert (Hf : forallb truthy
                 [ first_named "BM_SafetyLevel_Comparison/0_mean" bitems;
                   first_named "BM_SafetyLevel_Comparison/1_mean" bitems;
                   first_named "BM_SafetyLevel_Comparison/0_mean" citems;
                   first_named "BM_SafetyLevel_Comparison/1_mean" citems ] = false).
  { simpl in Hin. destruct Hin as [<- | [<- | []]]; destruct missing as [H | H];
      rewrite (first_named_absent _ _ H); simpl; now rewrite ?andb_false_r. }
  now rewrite Hf.
Qed.
End Missing.

Lemma report_lines_parts (self self' : BenchmarkComparator) (lines : list string) :
  report_lines self = Ok (lines, self') ->
  exists core_results s1 core safety_results s2 memory_results,
    compare_core_performance self = Ok (core_results, s1)
    /\ map_res core_line core_results = Ok core
    /\ compare_safety_overhead s1 = Ok (safety_results, s2)
    /\ compare_memory_performance s2 = Ok (memory_results, self')
    /\ lines = layout (header self) core safety_results memory_results
                 (summary_lines self').
Proof.
  unfold report_lines. intros H.
  bind_inv H as [core_results s1] H1. bind_inv H as core H2.
  bind_inv H as [safety_results s2] H3. bind_inv H as [memory_results s3] H4.
  injection H as <- <-.
  exists core_results, s1, core, safety_results, s2, memory_results. auto.
Qed.

Lemma map_res_length {A B} (f : A -> result B) (l : list A) (l' : list B) :
  map_res f l = Ok l' -> List.length l' = List.length l.
Proof.
  revert l'. induction l as [|x l IH]; cbn [map_res]; intros l' H.
  - now injection H as <-.
  - bind_inv H as y Hy. bind_inv H as ys Hys. injection H as <-.
    cbn [List.length]. f_equal. now apply IH.
Qed.

(** C6: a metric absent from the baseline or the current result set is
    skipped without error: its loop iteration changes nothing, the
    comparison holds no result under its name, the report has one metric
    line per result and so none for it, and when it is one of the overhead
    records the overhead section of the report is the single line
    "Safety overhead data not available". *)
Theorem missing_metric_is_skipped (self : BenchmarkComparator)
    (bitems citems : list value) (name : string) :
  result_set (baseline_data self) bitems ->
  result_set (current_data self) citems ->
  absent name bitems = true \/ absent name citems = true ->
  (forall results, core_body name (results, self) = Ok (results, self))
  /\ (forall results, memory_body name (results, self) = Ok (results, self))
  /\ (In name overhead_benchmarks -> compare_safety_overhead self = Ok (None, self))
  /\ (forall text self',
         generate_report self = Ok (text, self') ->
         exists core_results s1 core safety_results s2 memory_results section,
           compare_core_performance self = Ok (core_results, s1)
           /\ map_res core_line core_results = Ok core
           /\ List.length core = List.length core_results
           /\ compare_safety_overhead s1 = Ok (safety_results, s2)
           /\ compare_memory_performance s2 = Ok (memory_results, self')
           /\ text
              = join nl
                  (header self ++ core
                   ++ "" :: "SAFETY SYSTEM OVERHEAD ANALYSIS" :: str_repeat "-" 40
                   :: section
                   ++ "" :: "MEMORY PERFORMANCE ANALYSIS" :: str_repeat "-" 40
                   :: map memory_line memory_results
                   ++ "" :: "SUMMARY" :: str_repeat "-" 40
                   :: summary_lines self'
                   ++ [ ""; str_repeat "=" 60 ])%list
           /\ dict_get name core_results = None
           /\ dict_get name memory_results = None
           /\ (In name overhead_benchmarks ->
               safety_results = None
               /\ section = [ "Safety overhead data not available" ])).
Proof.
  intros Hb Hc Habs.
  pose proof (same_inputs_refl self) as Hrefl.
  split; [| split; [| split]].
  - intros results. eapply core_body_absent; eassumption.
  - intros results. eapply memory_body_absent; eassumption.
  - intros Hin. eapply safety_absent; eassumption.
  - intros text self' H. unfold generate_report in H.
    bind_inv H as [lines s] Hl. injection H as <- <-.
    apply report_lines_parts in Hl
      as (core_results & s1 & core & safety_results & s2 & memory_results
          & H1 & H2 & H3 & H4 & ->).
    assert (Hs1 : same_inputs self s1)
      by apply (for_each_extends core_body core_body_extends _ _ _ _ _ H1).
    assert (Hs2 : same_inputs self s2).
    { eapply same_inputs_trans; [exact Hs1 |]. apply (safety_extends _ _ _ H3). }
    exists core_results, s1, core, safety_results, s2, memory_results,
      (safety_lines safety_results).
    split; [assumption |]. split; [assumption |].
    split; [now apply map_res_length in H2 |].
    split; [assumption |]. split; [assumption |].
    split; [reflexivity |].
    split; [| split].
    + apply (core_loop_absent self bitems citems name Hb Hc Habs
               core_benchmarks [] core_results self s1 Hrefl eq_refl H1).
    + apply (memory_loop_absent self bitems citems name Hb Hc Habs
               memory_benchmarks [] memory_results s2 s Hs2 eq_refl H4).
    + intros Hin.
      rewrite (safety_absent self bitems citems name Hb Hc Habs s1 Hs1 Hin) in H3.
      injection H3 as <- _. split; reflexivity.
Qed.

Lemma missing_metric_is_skipped_witness :
  (forall results,
      core_body "BM_SafetyLevel_Comparison/1_mean" (results, evolved)
      = Ok (results, evolved))
  /\ (forall results,
         memory_body "BM_SafetyLevel_Comparison/1_mean" (results, evolved)
         = Ok (results, evolved))
  /\ (In "BM_SafetyLevel_Comparison/1_mean" overhead_benchmarks ->
      compare_safety_overhead evolved = Ok (None, evolved))
  /\ (forall text self',
         generate_report evolved = Ok (text, self') ->
         exists core_results s1 core safety_results s2 memory_results section,
           compare_core_performance evolved = Ok (core_results, s1)
           /\ map_res core_line core_results = Ok core
           /\ List.length core = List.length core_results
           /\ compare_safety_overhead s1 = Ok (safety_results, s2)
           /\ compare_memory_performance s2 = Ok (memory_results, self')
           /\ text
              = join nl
                  (header evolved ++ core
                   ++ "" :: "SAFETY SYSTEM OVERHEAD ANALYSIS" :: str_repeat "-" 40
                   :: section
                   ++ "" :: "MEMORY PERFORMANCE ANALYSIS" :: str_repeat "-" 40
                   :: map memory_line memory_results
                   ++ "" :: "SUMMARY" :: str_repeat "-" 40
                   :: summary_lines self'
                   ++ [ ""; str_repeat "=" 60 ])%list
           /\ dict_get "BM_SafetyLevel_Comparison/1_mean" core_results = None
           /\ dict_get "BM_SafetyLevel_Comparison/1_mean" memory_results = None
           /\ (In "BM_SafetyLevel_Comparison/1_mean" overhead_benchmarks ->
               safety_results = None
               /\ section = [ "Safety overhead data not available" ])).
Proof.
  apply (missing_metric_is_skipped evolved evolved_baseline evolved_current
           "BM_SafetyLevel_Comparison/1_mean").
  - split; reflexivity.
  - split; reflexivity.
  - right. reflexivity.
Defined.

(** ** Generating the report *)

Lemma report_lines_extends (self self' : BenchmarkComparator) (lines : list string) :
  report_lines self = Ok (lines, self') -> extends self self'.
Proof.
  intros H.
  apply report_lines_parts in H
    as (core_results & s1 & core & safety_results & s2 & memory_results
        & H1 & _ & H3 & H4 & _).
  apply (extends_trans self s1 self').
  - apply (for_each_extends core_body core_body_extends _ _ _ _ _ H1).
  - apply (extends_trans s1 s2 self').
    + apply (safety_extends _ _ _ H3).
    + apply (for_each_extends memory_body memory_body_extends _ _ _ _ _ H4).
Qed.

Lemma comparator_ext (self self' : BenchmarkComparator) :
  same_inputs self self' ->
  warnings self' = warnings self ->
  critical_issues self' = critical_issues self ->
  self' = self.
Proof.
  destruct self, self'. unfold same_inputs. simpl.
  intros (-> & -> & -> & ->) -> ->. reflexivity.
Qed.

(** C9, as stated, fails: generating the report for a regressed benchmark
    puts a message in [critical_issues], and generating it again from the
    resulting state gives another text and a longer list. *)
Lemma report_generation_is_not_pure :
  exists text1 self1 text2 self2 msg,
    generate_report regressed = Ok (text1, self1)
    /\ critical_issues regressed = []
    /\ critical_issues self1 = [msg]
    /\ generate_report self1 = Ok (text2, self2)
    /\ critical_issues self2 = [msg; msg]
    /\ text1 <> text2.
Proof.
  do 5 eexists.
  split; [vm_compute; reflexivity |].
  split; [reflexivity |].
  split; [reflexivity |].
  split; [vm_compute; reflexivity |].
  split; [reflexivity |].
  intros H. apply String.eqb_eq in H. vm_compute in H. discriminate H.
Qed.

(** C9 (amended): generating the report runs the three comparisons itself.
    It keeps the file names and the loaded result sets, and it only appends
    to [warnings] and [critical_issues]; when it appends nothing the
    comparator is unchanged and generating the report again gives the same
    text and the same lists. *)
Theorem generate_report_appends (self self' : BenchmarkComparator) (text : string) :
  generate_report self = Ok (text, self') ->
  extends self self'
  /\ (warnings self' = warnings self ->
      critical_issues self' = critical_issues self ->
      self' = self /\ generate_report self' = Ok (text, self')).
Proof.
  intros H.
  assert (He : extends self self').
  { unfold generate_report in H. bind_inv H as [lines s] Hl.
    injection H as _ <-. eapply report_lines_extends, Hl. }
  split; [exact He |].
  intros Hw Hc. destruct He as [Hi _].
  pose proof (comparator_ext _ _ Hi Hw Hc) as ->. auto.
Qed.

Lemma generate_report_appends_witness :
  exists text,
    generate_report steady = Ok (text, steady)
    /\ extends steady steady
    /\ (warnings steady = warnings steady ->
        critical_issues steady = critical_issues steady ->
        steady = steady /\ generate_report steady = Ok (text, steady)).
Proof.
  eexists. split; [vm_compute; reflexivity |].
  apply (generate_report_appends steady steady). vm_compute. reflexivity.
Defined.

(** ** A record without [cpu_time] *)

Ltac raise_or_continue H :=
  match goal with
  | |- exists e, Raise _ = Raise e => eexists; reflexivity
  | |- exists e, Res.bind ?m _ = Raise e =>
      let E := fresh "E" in
      destruct m eqn:E; cbn [Res.bind];
      [ try discriminate H | eexists; reflexivity ]
  end.

Lemma safety_overheads_missing (v0 l0 v1 l1 v : value) :
  In v [v0; l0; v1; l1] ->
  subscript v "cpu_time" = Raise (KeyError "cpu_time") ->
  exists e, safety_overheads v0 l0 v1 l1 = Raise e.
Proof.
  intros Hin Hv. unfold safety_overheads.
  simpl in Hin. destruct Hin as [<- | [<- | [<- | [<- | []]]]];
    repeat raise_or_continue Hv.
Qed.

Lemma overhead_field_missing (self : BenchmarkComparator) (v0 l0 v1 l1 : value) :
  lookup_overhead self = Ok (v0, l0, v1, l1) ->
  forallb truthy [v0; l0; v1; l1] = true ->
  (exists v, In v [v0; l0; v1; l1]
             /\ subscript v "cpu_time" = Raise (KeyError "cpu_time")) ->
  exists e, compare_safety_overhead self = Raise e.
Proof.
  intros Hl Ht (v & Hin & Hv).
  destruct (safety_overheads_missing v0 l0 v1 l1 v Hin Hv) as [e He].
  exists e. unfold compare_safety_overhead.
  rewrite Hl. cbn [Res.bind]. rewrite Ht, He. reflexivity.
Qed.

(** C10: with all four overhead records found, one of them without a
    [cpu_time] field, the overhead comparison raises [KeyError] instead of
    reporting the section as unavailable; the core comparison reads a
    missing [cpu_time] as 0, and a missing baseline [cpu_time] then gives
    change 0 and severity OK. *)
Theorem missing_cpu_time_field :
  (lookup_overhead overhead_untimed
   = Ok (disabled_100, enabled_110, disabled_100, enabled_untimed)
   /\ forallb truthy [disabled_100; enabled_110; disabled_100; enabled_untimed] = true
   /\ compare_safety_overhead overhead_untimed = Raise (KeyError "cpu_time")
   /\ generate_report overhead_untimed = Raise (KeyError "cpu_time"))
  /\ (forall self v0 l0 v1 l1,
         lookup_overhead self = Ok (v0, l0, v1, l1) ->
         forallb truthy [v0; l0; v1; l1] = true ->
         (exists v, In v [v0; l0; v1; l1]
                    /\ subscript v "cpu_time" = Raise (KeyError "cpu_time")) ->
         exists e, compare_safety_overhead self = Raise e)
  /\ (forall self name results b c,
         lookup_pair self name = Ok (VDict b, VDict c) ->
         b <> [] -> c <> [] ->
         dict_get "cpu_time" b = None ->
         core_body name (results, self)
         = Ok (dict_set name
                 {| Core.baseline_time := VInt 0;
                    Core.current_time :=
                      match dict_get "cpu_time" c with
                      | Some t => t
                      | None => VInt 0
                      end;
                    Core.change_percent := 0%float;
                    Core.status := OK |} results,
               self)).
Proof.
  split; [repeat split; reflexivity |].
  split; [intros; eapply overhead_field_missing; eassumption |].
  intros self name results b c Hl Hb Hc Hnone.
  unfold core_body. rewrite Hl. cbn [Res.bind].
  destruct b as [|b0 b]; [contradiction |].
  destruct c as [|c0 c]; [contradiction |].
  cbn [truthy andb]. unfold py_get. rewrite Hnone. cbn [Res.bind].
  reflexivity.
Qed.

Lemma missing_cpu_time_field_witness :
  core_body "BM_MakeMove_ShortChain_mean" ([], short_untimed)
  = Ok ([ ("BM_MakeMove_ShortChain_mean",
           {| Core.baseline_time := VInt 0;
              Core.current_time := VInt 130;
              Core.change_percent := 0%float;
              Core.status := OK |}) ],
        short_untimed).
Proof.
  apply (proj2 (proj2 missing_cpu_time_field) short_untimed
           "BM_MakeMove_ShortChain_mean" []
           [ ("name", VStr "BM_MakeMove_ShortChain_mean") ]
           [ ("name", VStr "BM_MakeMove_ShortChain_mean"); ("cpu_time", VInt 130) ]);
    [reflexivity | discriminate | discriminate | reflexivity].
Defined.

(** ** Load failures *)

Lemma load_raises_read (filename : string) (w : world) (e : io_error) :
  load_raises filename w e -> read_json filename w = Raise (IOError e).
Proof.
  unfold read_json. intros [[-> ->] | ->]; reflexivity.
Qed.

Lemma load_raises_exits (filename : string) (w : world) (e : io_error) :
  load_raises filename w e ->
  _load_json filename w
  = (Raise (fst (load_failure filename e w)), snd (load_failure filename e w)).
Proof.
  intros H. unfold _load_json. rewrite (load_raises_read _ _ _ H).
  cbn [Res.bind]. now destruct e.
Qed.

(** C7, as stated, fails twice: a missing baseline file is reported on
    standard output, nothing reaches standard error; and with both files
    loaded, an overhead record without [cpu_time] ends the invocation with
    an uncaught [KeyError]. *)
Lemma load_failure_not_on_stderr_nor_only_fatal :
  run cli no_files
  = (1, {| files := [];
           written := [];
           console := [ (Stdout, Text "Error: File baseline.json not found") ] |})
  /\ (exists comparator, __init__ "baseline.json" "current.json" untimed_files
                         = (Ok comparator, untimed_files))
  /\ run cli untimed_files
     = (1, {| files := files untimed_files;
              written := [];
              console := [ (Stderr, Traceback (KeyError "cpu_time")) ] |}).
Proof.
  split; [reflexivity |]. split; [eexists; reflexivity | reflexivity].
Qed.

(** C7 (amended): a load failure is fatal and ends the invocation before
    any comparison: the constructor does not return.  When the file does
    not exist or the JSON decoder rejects it, the loader prints its message
    on standard output and the exit status is 1, with nothing else printed
    or written.  Any other exception of [open] or of the decoder (no
    permission, a directory, bytes that are not text) is not caught: it
    leaves [main], the interpreter writes the traceback to standard error
    and the exit status is 1, with nothing on standard output. *)
Theorem load_failure_is_fatal (a : args) (w : world) (e : io_error) :
  load_raises (arg_baseline a) w e
  \/ ((exists data, _load_json (arg_baseline a) w = (Ok data, w))
      /\ load_raises (arg_current a) w e) ->
  exists filename,
    (filename = arg_baseline a \/ filename = arg_current a)
    /\ load_raises filename w e
    /\ match e with
       | FileNotFoundError =>
           let msg := "Error: File " ++ filename ++ " not found" in
           __init__ (arg_baseline a) (arg_current a) w
           = (Raise (SystemExit 1), print msg w)
           /\ main a w = (Raise (SystemExit 1), print msg w)
           /\ run a w = (1, print msg w)
       | JSONDecodeError =>
           let msg := "Error: Invalid JSON in " ++ filename in
           __init__ (arg_baseline a) (arg_current a) w
           = (Raise (SystemExit 1), print msg w)
           /\ main a w = (Raise (SystemExit 1), print msg w)
           /\ run a w = (1, print msg w)
       | _ =>
           __init__ (arg_baseline a) (arg_current a) w = (Raise (IOError e), w)
           /\ main a w = (Raise (IOError e), w)
           /\ run a w = (1, uncaught (IOError e) w)
       end.
Proof.
  intros [H | [[data Hd] H]].
  - exists (arg_baseline a). split; [now left |]. split; [exact H |].
    apply load_raises_exits in H.
    assert (Hi : __init__ (arg_baseline a) (arg_current a) w
                 = (Raise (fst (load_failure (arg_baseline a) e w)),
                    snd (load_failure (arg_baseline a) e w)))
      by (unfold __init__; now rewrite H).
    unfold run, main. cbn [parse_args]. rewrite Hi.
    destruct e; cbv zeta; repeat split; reflexivity.
  - exists (arg_current a). split; [now right |]. split; [exact H |].
    apply load_raises_exits in H.
    assert (Hi : __init__ (arg_baseline a) (arg_current a) w
                 = (Raise (fst (load_failure (arg_current a) e w)),
                    snd (load_failure (arg_current a) e w)))
      by (unfold __init__; now rewrite Hd, H).
    unfold run, main. cbn [parse_args]. rewrite Hi.
    destruct e; cbv zeta; repeat split; reflexivity.
Qed.

Lemma load_failure_is_fatal_witness :
  (exists filename,
      (filename = arg_baseline cli \/ filename = arg_current cli)
      /\ load_raises filename no_files FileNotFoundError
      /\ let msg := "Error: File " ++ filename ++ " not found" in
         __init__ (arg_baseline cli) (arg_current cli) no_files
         = (Raise (SystemExit 1), print msg no_files)
         /\ main cli no_files = (Raise (SystemExit 1), print msg no_files)
         /\ run cli no_files = (1, print msg no_files))
  /\ (exists filename,
         (filename = arg_baseline cli \/ filename = arg_current cli)
         /\ load_raises filename locked_files PermissionError
         /\ __init__ (arg_baseline cli) (arg_current cli) locked_files
            = (Raise (IOError PermissionError), locked_files)
         /\ main cli locked_files = (Raise (IOError PermissionError), locked_files)
         /\ run cli locked_files
            = (1, uncaught (IOError PermissionError) locked_files)).
Proof.
  split.
  - apply (load_failure_is_fatal cli no_files FileNotFoundError).
    left. left. split; reflexivity.
  - apply (load_failure_is_fatal cli locked_files PermissionError).
    right. split; [eexists; reflexivity | right; reflexivity].
Defined.


(** * Further properties *)

(** ** Order of binary64 comparisons *)

Ltac cmp_cases :=
  repeat match goal with
  | H : context [Pos.compare_cont Eq ?x ?y] |- _ =>
      rewrite (Pos.compare_cont_spec x y Eq) in H; simpl Pos.switch_Eq in H
  | |- context [Pos.compare_cont Eq ?x ?y] =>
      rewrite (Pos.compare_cont_spec x y Eq); simpl Pos.switch_Eq
  | H : context [Z.compare ?x ?y] |- _ => destruct (Z.compare_spec x y)
  | |- context [Z.compare ?x ?y] => destruct (Z.compare_spec x y)
  | H : context [Pos.compare ?x ?y] |- _ => destruct (Pos.compare_spec x y)
  | |- context [Pos.compare ?x ?y] => destruct (Pos.compare_spec x y)
  end.

Lemma SFltb_leb_trans (a b c : spec_float) :
  SFltb a b = true -> SFleb b c = true -> SFltb a c = true.
Proof.
  unfold SFltb, SFleb, SFcompare.
  destruct a as [sa|sa| |sa ma ea], b as [sb|sb| |sb mb eb], c as [sc|sc| |sc mc ec];
    try discriminate;
    try (destruct sa); try (destruct sb); try (destruct sc);
    try discriminate; try reflexivity;
    intros H1 H2; cmp_cases; simpl in *;
    try discriminate; try reflexivity; subst; lia.
Qed.

Lemma SFleb_ltb_trans (a b c : spec_float) :
  SFleb a b = true -> SFltb b c = true -> SFltb a c = true.
Proof.
  unfold SFltb, SFleb, SFcompare.
  destruct a as [sa|sa| |sa ma ea], b as [sb|sb| |sb mb eb], c as [sc|sc| |sc mc ec];
    try discriminate;
    try (destruct sa); try (destruct sb); try (destruct sc);
    try discriminate; try reflexivity;
    intros H1 H2; cmp_cases; simpl in *;
    try discriminate; try reflexivity; subst; lia.
Qed.

Lemma fltb_leb_trans (a b c : float) :
  (a <? b)%float = true -> (b <=? c)%float = true -> (a <? c)%float = true.
Proof.
  rewrite !ltb_spec, leb_spec. apply SFltb_leb_trans.
Qed.

Lemma fleb_ltb_trans (a b c : float) :
  (a <=? b)%float = true -> (b <? c)%float = true -> (a <? c)%float = true.
Proof.
  rewrite !ltb_spec, leb_spec. apply SFleb_ltb_trans.
Qed.

(** ** The classifications are monotone *)

Lemma latency_chain_monotone (w c x y : float) :
  (x <=? y)%float = true ->
  badness (if (c <? x)%float then CRITICAL
           else if (w <? x)%float then WARNING
           else if (x <? - 0.05)%float then IMPROVEMENT else OK)
  <= badness (if (c <? y)%float then CRITICAL
              else if (w <? y)%float then WARNING
              else if (y <? - 0.05)%float then IMPROVEMENT else OK).
Proof.
  intros Hle.
  destruct (c <? x)%float eqn:Hcx.
  - now rewrite (fltb_leb_trans c x y Hcx Hle).
  - destruct (w <? x)%float eqn:Hwx.
    + rewrite (fltb_leb_trans w x y Hwx Hle). destruct (c <? y)%float; simpl; lia.
    + destruct (x <? - 0.05)%float eqn:Hix.
      * destruct (c <? y)%float, (w <? y)%float, (y <? - 0.05)%float; simpl; lia.
      * destruct (y <? - 0.05)%float eqn:Hiy.
        -- rewrite (fleb_ltb_trans x y _ Hle Hiy) in Hix. discriminate.
        -- destruct (c <? y)%float, (w <? y)%float; simpl; lia.
Qed.

Lemma throughput_chain_monotone (w c x y : float) :
  (x <=? y)%float = true ->
  badness (if (y <? c)%float then CRITICAL
           else if (y <? w)%float then WARNING
           else if (0.05 <? y)%float then IMPROVEMENT else OK)
  <= badness (if (x <? c)%float then CRITICAL
              else if (x <? w)%float then WARNING
              else if (0.05 <? x)%float then IMPROVEMENT else OK).
Proof.
  intros Hle.
  destruct (y <? c)%float eqn:Hcy.
  - now rewrite (fleb_ltb_trans x y c Hle Hcy).
  - destruct (y <? w)%float eqn:Hwy.
    + rewrite (fleb_ltb_trans x y w Hle Hwy). destruct (x <? c)%float; simpl; lia.
    + destruct (0.05 <? y)%float eqn:Hiy.
      * destruct (x <? c)%float, (x <? w)%float, (0.05 <? x)%float; simpl; lia.
      * destruct (0.05 <? x)%float eqn:Hix.
        -- rewrite (fltb_leb_trans _ x y Hix Hle) in Hiy. discriminate.
        -- destruct (x <? c)%float, (x <? w)%float; simpl; lia.
Qed.

(** X1: both classifications are monotone in the change: a larger latency
    change is never classified as less severe (IMPROVEMENT, OK, WARNING,
    CRITICAL in that order), for every category, and a larger throughput
    change is never classified as more severe. *)
Theorem classification_is_monotone (x y : float) :
  (x <=? y)%float = true ->
  (forall category sx sy,
      _assess_performance_change x category = Ok sx ->
      _assess_performance_change y category = Ok sy ->
      badness sx <= badness sy)
  /\ (forall sx sy,
         _assess_throughput_change x = Ok sx ->
         _assess_throughput_change y = Ok sy ->
         badness sy <= badness sx).
Proof.
  intros Hle. split.
  - intros category sx sy. unfold _assess_performance_change.
    destruct (threshold (category ++ "_warning")) as [w|]; [| discriminate].
    destruct (threshold (category ++ "_critical")) as [c|]; [| discriminate].
    cbn [Res.bind]. intros [= <-] [= <-]. now apply latency_chain_monotone.
  - intros sx sy. unfold _assess_throughput_change.
    change (threshold "throughput_critical") with (Ok 0.30%float).
    change (threshold "throughput_warning") with (Ok 0.15%float).
    cbn [Res.bind].
    pose proof (throughput_chain_monotone (- (0.15)) (- (0.30)) x y Hle) as H.
    change (- (0.15))%float with (opp 0.15) in H.
    destruct (y <? opp 0.30)%float, (x <? opp 0.30)%float;
      cbn [Res.bind]; intros [= <-] [= <-]; exact H.
Qed.

Lemma classification_is_monotone_witness :
  (0.12 <=? 0.30)%float = true
  /\ (forall category sx sy,
         _assess_performance_change 0.12 category = Ok sx ->
         _assess_performance_change 0.30 category = Ok sy ->
         badness sx <= badness sy)
  /\ (forall sx sy,
         _assess_throughput_change 0.12 = Ok sx ->
         _assess_throughput_change 0.30 = Ok sy ->
         badness sy <= badness sx).
Proof.
  split; [reflexivity | apply (classification_is_monotone 0.12 0.30); reflexivity].
Defined.

(** ** Lookup by name *)

Lemma has_name_record (name : string) (bench : value) :
  has_name name bench = true -> is_record bench = true /\ bench <> VNone.
Proof.
  destruct bench; simpl; try discriminate. split; [reflexivity | discriminate].
Qed.

Lemma find_benchmark_prefix (pre : list value) (x : value) (post : list value)
    (name : string) :
  forallb is_record pre = true ->
  absent name pre = true ->
  find_benchmark (pre ++ x :: post) name
  = (n <- py_get x "name" VNone ;;
     if eq_str n name then Ok x else find_benchmark post name)%res.
Proof.
  unfold absent. intros Hr Ha. apply negb_true_iff in Ha.
  induction pre as [|b pre IH]; [reflexivity |].
  simpl in Hr, Ha. apply andb_prop in Hr as [Hb Hr].
  apply orb_false_elim in Ha as [Hn Ha].
  destruct b as [| | | | | |d]; try discriminate.
  cbn [app find_benchmark py_get Res.bind]. simpl in Hn.
  destruct (dict_get "name" d) as [n|]; [rewrite Hn |]; now apply IH.
Qed.

Lemma first_named_found (name : string) (items : list value) :
  first_named name items = VNone /\ absent name items = true
  \/ In (first_named name items) items
     /\ has_name name (first_named name items) = true
     /\ absent name items = false.
Proof.
  unfold first_named, absent.
  induction items as [|b items IH]; simpl; [auto |].
  destruct (has_name name b) eqn:Hb; simpl.
  - right. auto.
  - destruct IH as [[H1 H2] | (H1 & H2 & H3)]; [left | right]; auto.
Qed.

(** X2: [_get_benchmark_by_name] returns the first record bearing the name
    and does not look at what follows it; on a sequence of records it never
    raises, returns [None] exactly when no record bears the name, and
    otherwise returns a record of the sequence with that name; an element
    that is not an object, met before any match, raises
    [AttributeError]. *)
Theorem first_match_wins (name : string) :
  (forall pre bench post,
      forallb is_record pre = true ->
      absent name pre = true ->
      has_name name bench = true ->
      _get_benchmark_by_name (VList (pre ++ bench :: post)) name = Ok bench)
  /\ (forall items,
         forallb is_record items = true ->
         exists r,
           _get_benchmark_by_name (VList items) name = Ok r
           /\ (r = VNone <-> absent name items = true)
           /\ (r <> VNone -> In r items /\ has_name name r = true))
  /\ (forall pre x post,
         forallb is_record pre = true ->
         absent name pre = true ->
         is_record x = false ->
         _get_benchmark_by_name (VList (pre ++ x :: post)) name
         = Raise AttributeError).
Proof.
  split; [| split].
  - intros pre bench post Hr Ha Hb. unfold _get_benchmark_by_name.
    cbn [iterate Res.bind]. rewrite find_benchmark_prefix by assumption.
    destruct bench as [| | | | | |d]; try discriminate. simpl in Hb |- *.
    destruct (dict_get "name" d) as [n|]; [| discriminate]. now rewrite Hb.
  - intros items Hr. exists (first_named name items).
    unfold _get_benchmark_by_name. cbn [iterate Res.bind].
    split; [now apply find_benchmark_records |].
    destruct (first_named_found name items) as [[H1 H2] | (H1 & H2 & H3)].
    + rewrite H1, H2. split; [split; auto |]. intros Hne. now contradiction Hne.
    + rewrite H3. split; [split; [| discriminate] | auto].
      intros E. rewrite E in H2. discriminate.
  - intros pre x post Hr Ha Hx. unfold _get_benchmark_by_name.
    cbn [iterate Res.bind]. rewrite find_benchmark_prefix by assumption.
    destruct x; try discriminate; reflexivity.
Qed.

Lemma first_match_wins_witness :
  _get_benchmark_by_name (VList ([ disabled_100 ] ++ enabled_110 :: [ enabled_118 ]))
    "BM_SafetyLevel_Comparison/1_mean"
  = Ok enabled_110.
Proof.
  apply (proj1 (first_match_wins "BM_SafetyLevel_Comparison/1_mean")); reflexivity.
Defined.

(** ** Exit status of an invocation *)

Create HintDb no_exit.

Lemma no_exit_ok {A} (a : A) : no_exit (Ok a).
Proof. intros code. discriminate. Qed.

Lemma no_exit_bind {A B} (m : result A) (k : A -> result B) :
  no_exit m -> (forall a, no_exit (k a)) -> no_exit (Res.bind m k).
Proof.
  intros Hm Hk code. destruct m as [a|e]; cbn [Res.bind].
  - apply Hk.
  - intros H. apply (Hm code). now injection H as ->.
Qed.

Ltac no_exit_step :=
  match goal with
  | |- no_exit (Ok _) => apply no_exit_ok
  | |- no_exit (Raise _) => intros ?; discriminate
  | |- no_exit (Res.bind _ _) => apply no_exit_bind; [| intros ?]
  | |- no_exit (if ?b then _ else _) => destruct b
  | |- no_exit (match ?x with _ => _ end) => destruct x
  | |- no_exit _ => solve [auto with no_exit]
  end.

Ltac no_exit := repeat no_exit_step.

Lemma no_exit_py_get v k d : no_exit (py_get v k d).
Proof. unfold py_get. no_exit. Qed.
Lemma no_exit_subscript v k : no_exit (subscript v k).
Proof. unfold subscript. no_exit. Qed.
Lemma no_exit_iterate v : no_exit (iterate v).
Proof. unfold iterate. no_exit. Qed.
Lemma no_exit_need_num v : no_exit (need_num v).
Proof. unfold need_num. no_exit. Qed.
Lemma no_exit_float_of_Z z : no_exit (float_of_Z z).
Proof. unfold float_of_Z. no_exit. Qed.
#[local] Hint Resolve no_exit_py_get no_exit_subscript no_exit_iterate
  no_exit_need_num no_exit_float_of_Z : no_exit.

Lemma no_exit_to_float n : no_exit (to_float n).
Proof. unfold to_float. no_exit. Qed.
Lemma no_exit_int_truediv a b : no_exit (int_truediv a b).
Proof. unfold int_truediv. no_exit. Qed.
Lemma no_exit_float_truediv a b : no_exit (float_truediv a b).
Proof. unfold float_truediv. no_exit. Qed.
#[local] Hint Resolve no_exit_to_float no_exit_int_truediv no_exit_float_truediv
  : no_exit.

Lemma no_exit_num_sub a b : no_exit (num_sub a b).
Proof. unfold num_sub. no_exit. Qed.
Lemma no_exit_num_mul a b : no_exit (num_mul a b).
Proof. unfold num_mul. no_exit. Qed.
Lemma no_exit_num_truediv a b : no_exit (num_truediv a b).
Proof. unfold num_truediv. no_exit. Qed.
Lemma no_exit_threshold k : no_exit (threshold k).
Proof. unfold threshold. no_exit. Qed.
#[local] Hint Resolve no_exit_num_sub no_exit_num_mul no_exit_num_truediv
  no_exit_threshold : no_exit.

Lemma no_exit_fmt_num plus p n : no_exit (fmt_num plus p n).
Proof. unfold fmt_num. no_exit. Qed.
Lemma no_exit_find_benchmark items name : no_exit (find_benchmark items name).
Proof.
  induction items as [|b items IH]; cbn [find_benchmark]; no_exit.
Qed.
#[local] Hint Resolve no_exit_fmt_num no_exit_find_benchmark : no_exit.

Lemma no_exit_get_benchmark bs name : no_exit (_get_benchmark_by_name bs name).
Proof. unfold _get_benchmark_by_name. no_exit. Qed.
Lemma no_exit_percentage b c : no_exit (_calculate_percentage_change b c).
Proof. unfold _calculate_percentage_change. no_exit. Qed.
Lemma no_exit_format_time t : no_exit (_format_time t).
Proof. unfold _format_time. no_exit. Qed.
Lemma no_exit_assess ch cat : no_exit (_assess_performance_change ch cat).
Proof. unfold _assess_performance_change. no_exit. Qed.
Lemma no_exit_assess_throughput ch : no_exit (_assess_throughput_change ch).
Proof. unfold _assess_throughput_change. no_exit. Qed.
#[local] Hint Resolve no_exit_get_benchmark no_exit_percentage no_exit_format_time
  no_exit_assess no_exit_assess_throughput : no_exit.

Lemma no_exit_lookup_pair self name : no_exit (lookup_pair self name).
Proof. unfold lookup_pair. no_exit. Qed.
Lemma no_exit_lookup_overhead self : no_exit (lookup_overhead self).
Proof. unfold lookup_overhead. no_exit. Qed.
Lemma no_exit_safety_overheads a b c d : no_exit (safety_overheads a b c d).
Proof. unfold safety_overheads. no_exit. Qed.
#[local] Hint Resolve no_exit_lookup_pair no_exit_lookup_overhead
  no_exit_safety_overheads : no_exit.

Lemma no_exit_core_body name st : no_exit (core_body name st).
Proof. unfold core_body. no_exit. Qed.
Lemma no_exit_memory_body name st : no_exit (memory_body name st).
Proof. unfold memory_body. no_exit. Qed.
Lemma no_exit_safety self : no_exit (compare_safety_overhead self).
Proof. unfold compare_safety_overhead. no_exit. Qed.
Lemma no_exit_core_line item : no_exit (core_line item).
Proof. unfold core_line. no_exit. Qed.
#[local] Hint Resolve no_exit_core_body no_exit_memory_body no_exit_safety
  no_exit_core_line : no_exit.

Lemma no_exit_for_each {A S} (body : A -> S -> result S) (l : list A) (s : S) :
  (forall x s, no_exit (body x s)) -> no_exit (for_each body l s).
Proof.
  intros Hb. revert s. induction l as [|x l IH]; intros s; cbn [for_each]; no_exit.
Qed.

Lemma no_exit_map_res {A B} (f : A -> result B) (l : list A) :
  (forall x, no_exit (f x)) -> no_exit (map_res f l).
Proof.
  intros Hf. induction l as [|x l IH]; cbn [map_res]; no_exit.
Qed.

Lemma no_exit_generate_report self : no_exit (generate_report self).
Proof.
  unfold generate_report, report_lines, compare_core_performance,
    compare_memory_performance.
  no_exit; try (apply no_exit_for_each; intros; apply no_exit_core_body);
    try (apply no_exit_for_each; intros; apply no_exit_memory_body);
    try (apply no_exit_map_res; intros; apply no_exit_core_line).
Qed.

Lemma get_exit_code_range (self : BenchmarkComparator) :
  get_exit_code self = 0 \/ get_exit_code self = 1 \/ get_exit_code self = 2.
Proof.
  unfold get_exit_code.
  destruct (nonempty (critical_issues self)), (nonempty (warnings self)); auto.
Qed.

Lemma contains_raises (k : string) (v : value) (e : exn) :
  contains k v = Raise e -> e = TypeError.
Proof.
  unfold contains. destruct v; intros [= <-] || discriminate; reflexivity.
Qed.

Lemma load_json_outcome (filename : string) (w : world) :
  (exists data, _load_json filename w = (Ok data, w))
  \/ (exists msg, _load_json filename w = (Raise (SystemExit 1), print msg w))
  \/ (exists e, _load_json filename w = (Raise e, w) /\ no_exit (@Raise unit e)).
Proof.
  unfold _load_json, read_json.
  destruct (dict_get filename (files w)) as [[e | data] |]; cbn [Res.bind].
  - destruct e; eauto; right; right; eexists; (split; [reflexivity |]);
      intros code; discriminate.
  - destruct (contains "benchmarks" data) as [found | e] eqn:E; cbn [Res.bind].
    + eauto.
    + apply contains_raises in E as ->. right. right. eexists.
      split; [reflexivity |]. intros code; discriminate.
  - eauto.
Qed.

Lemma init_outcome (b c : string) (w : world) :
  (exists comparator,
      __init__ b c w = (Ok comparator, w)
      /\ warnings comparator = [] /\ critical_issues comparator = [])
  \/ (exists msg, __init__ b c w = (Raise (SystemExit 1), print msg w))
  \/ (exists e, __init__ b c w = (Raise e, w) /\ no_exit (@Raise unit e)).
Proof.
  unfold __init__.
  destruct (load_json_outcome b w) as [[d ->] | [[msg ->] | (e & -> & He)]]; eauto.
  destruct (load_json_outcome c w) as [[d' ->] | [[msg ->] | (e & -> & He)]]; eauto.
Qed.

Lemma dict_get_set_same {A} (k : string) (v : A) (d : list (string * A)) :
  dict_get k (dict_set k v d) = Some v.
Proof.
  induction d as [|[k0 v0] d IH]; simpl.
  - now rewrite String.eqb_refl.
  - destruct (String.eqb k0 k) eqn:E; simpl; [now rewrite String.eqb_refl |].
    now rewrite E.
Qed.

Lemma in_console_print (s : string) (w : world) :
  In (Stdout, Text s) (console (print s w)).
Proof. simpl. apply in_or_app. right. now left. Qed.

Lemma in_console_print_more (x : stream * output) (s : string) (w : world) :
  In x (console w) -> In x (console (print s w)).
Proof. simpl. intros H. apply in_or_app. now left. Qed.

(** Writing the report: it is delivered when the output can be written;
    otherwise an exception of the file system leaves [main], the console
    is as it was, and the output path is untouched or holds a prefix of
    the report. *)
Lemma output_report_cases (a : args) (text : string) (w : world) :
  (writable a w
   /\ exists w',
       output_report a text w = (Ok tt, w')
       /\ delivered a text w'
       /\ files w' = files w)
  \/ (~ writable a w
      /\ exists path e w',
          output_path a = Some path
          /\ output_report a text w = (Raise (IOError e), w')
          /\ files w' = files w
          /\ console w' = console w
          /\ (written w' = written w
              \/ exists kept,
                  written w'
                  = dict_set path (Holds (substring 0 kept text)) (written w))).
Proof.
  unfold writable, delivered, output_report, output_path.
  destruct (arg_output a) as [path|];
    [destruct (String.eqb path "") eqn:Ep |].
  - left. split; [exact I |]. eexists. split; [reflexivity |].
    split; [apply in_console_print | reflexivity].
  - unfold write_file.
    destruct (dict_get path (written w)) as [[old | e | kept e] |].
    + left. split; [exact I |]. eexists. split; [reflexivity |].
      split; [apply dict_get_set_same | reflexivity].
    + right. split; [tauto |]. exists path, e, w. auto 10.
    + right. split; [tauto |]. exists path, e. eexists.
      split; [reflexivity |]. split; [reflexivity |].
      split; [reflexivity |]. split; [reflexivity |]. right. now exists kept.
    + left. split; [exact I |]. eexists. split; [reflexivity |].
      split; [apply dict_get_set_same | reflexivity].
  - left. split; [exact I |]. eexists. split; [reflexivity |].
    split; [apply in_console_print | reflexivity].
Qed.

Lemma delivered_print (a : args) (text s : string) (w : world) :
  delivered a text w -> delivered a text (print s w).
Proof.
  unfold delivered. destruct (output_path a); [auto |].
  apply in_console_print_more.
Qed.

(** What a run does once the report is generated. *)
Lemma run_generated (a : args) (w : world) (c c' : BenchmarkComparator)
    (text : string) :
  __init__ (arg_baseline a) (arg_current a) w = (Ok c, w) ->
  generate_report c = Ok (text, c') ->
  (writable a w ->
   fst (run a w) = (if arg_exit_on_regression a then get_exit_code c' else 0)
   /\ delivered a text (snd (run a w)))
  /\ (~ writable a w ->
      fst (run a w) = 1
      /\ exists path e,
          output_path a = Some path
          /\ console (snd (run a w))
             = (console w ++ [(Stderr, Traceback (IOError e))])%list
          /\ (written (snd (run a w)) = written w
              \/ exists kept,
                  written (snd (run a w))
                  = dict_set path (Holds (substring 0 kept text)) (written w))).
Proof.
  intros Hi Hg. unfold run, main. cbn [parse_args]. rewrite Hi, Hg.
  destruct (output_report_cases a text w)
    as [(Hw & w' & -> & Hd & _) | (Hw & path & e & w' & Hp & -> & _ & Hc & Hwr)].
  - split; [intros _ | intros H; contradiction].
    destruct (arg_exit_on_regression a); [| auto].
    split; [reflexivity |].
    destruct (get_exit_code c' =? 0); cbn [snd]; [exact Hd |].
    now apply delivered_print.
  - split; [intros H; contradiction | intros _].
    cbn [fst snd uncaught console written]. split; [reflexivity |].
    exists path, e. rewrite Hc. auto.
Qed.

(** A run generates the report, or stops before it. *)
Lemma run_cases (cl : command_line) (w : world) :
  (exists a comparator text comparator',
      cl = Args a
      /\ __init__ (arg_baseline a) (arg_current a) w = (Ok comparator, w)
      /\ generate_report comparator = Ok (text, comparator'))
  \/ ((forall a comparator text comparator',
          cl = Args a ->
          __init__ (arg_baseline a) (arg_current a) w = (Ok comparator, w) ->
          generate_report comparator <> Ok (text, comparator'))
      /\ stopped cl w
      /\ ((exists a, cl = Args a /\ fst (run cl w) = 1)
          \/ (exists usage, cl = Rejected usage /\ fst (run cl w) = 2)
          \/ (exists help, cl = AskedHelp help /\ fst (run cl w) = 0))).
Proof.
  destruct cl as [a | usage | help].
  - destruct (init_outcome (arg_baseline a) (arg_current a) w)
      as [(c & Hi & _) | [[msg Hi] | (e & Hi & He)]].
    + destruct (generate_report c) as [[text c'] | e] eqn:Hg.
      * left. exists a, c, text, c'. auto.
      * right. split; [| split].
        -- intros a1 c1 t1 c1' [= <-] Hi1. rewrite Hi in Hi1. injection Hi1 as <-.
           rewrite Hg. discriminate.
        -- unfold stopped, run, main. cbn [parse_args]. rewrite Hi, Hg.
           pose proof (no_exit_generate_report c) as Hn. rewrite Hg in Hn.
           destruct e; try (now contradiction (Hn code));
             cbn [fst snd uncaught written console]; eauto.
        -- left. exists a. split; [reflexivity |].
           unfold run, main. cbn [parse_args]. rewrite Hi, Hg.
           pose proof (no_exit_generate_report c) as Hn. rewrite Hg in Hn.
           destruct e; try reflexivity. now contradiction (Hn code).
    + right. split; [| split].
      * intros a1 c1 t1 c1' [= <-] Hi1. rewrite Hi in Hi1. discriminate.
      * unfold stopped, run, main. cbn [parse_args]. rewrite Hi.
        cbn [fst snd print written console]. eauto.
      * left. exists a. split; [reflexivity |].
        unfold run, main. cbn [parse_args]. now rewrite Hi.
    + right. split; [| split].
      * intros a1 c1 t1 c1' [= <-] Hi1. rewrite Hi in Hi1. discriminate.
      * unfold stopped, run, main. cbn [parse_args]. rewrite Hi.
        destruct e; try (now contradiction (He code));
          cbn [fst snd uncaught written console]; eauto.
      * left. exists a. split; [reflexivity |].
        unfold run, main. cbn [parse_args]. rewrite Hi.
        destruct e; try reflexivity. now contradiction (He code).
  - right. split; [discriminate |]. split.
    + unfold stopped. cbn. eauto.
    + right. left. now exists usage.
  - right. split; [discriminate |]. split.
    + unfold stopped. cbn. eauto.
    + right. right. now exists help.
Qed.



(** ** Changes that are never flagged *)

Lemma quiet_of_spec (ch : float) :
  (exists s, Prim2SF ch = S754_zero s) \/ Prim2SF ch = S754_nan -> quiet ch.
Proof.
  unfold quiet. intros [[[|] H] | H].
  - right. left. now apply Prim2SF_inj.
  - left. now apply Prim2SF_inj.
  - right. right. now apply Prim2SF_inj.
Qed.

Lemma spec_of_quiet (ch : float) :
  quiet ch -> (exists s, Prim2SF ch = S754_zero s) \/ Prim2SF ch = S754_nan.
Proof.
  intros [-> | [-> | ->]]; [left; now exists false | left; now exists true | now right].
Qed.

Lemma sub_self_quiet (x : float) : quiet (x - x).
Proof.
  apply quiet_of_spec. rewrite sub_spec. unfold SF64sub.
  destruct (Prim2SF x) as [s|s| |s m e]; cbn [SFsub].
  - left. exists false. now destruct s.
  - right. now destruct s.
  - now right.
  - left. exists false. now rewrite Z.sub_diag.
Qed.

Lemma div_quiet (x y : float) : quiet x -> quiet (x / y).
Proof.
  intros H. apply spec_of_quiet in H. apply quiet_of_spec.
  rewrite div_spec. unfold SF64div.
  destruct H as [[s H] | H]; rewrite H; destruct (Prim2SF y) as [t|t| |t m e];
    cbn [SFdiv]; eauto.
Qed.

Lemma int_truediv_zero (z : Z) (q : float) :
  int_truediv 0 z = Ok q -> quiet q.
Proof.
  unfold int_truediv. destruct (z =? 0); [discriminate |].
  destruct z as [|p|p]; cbn [sf_of_Z SFdiv xorb].
  - destruct (is_inf _); [discriminate |]. intros [= <-]. right. right. reflexivity.
  - destruct (is_inf _); [discriminate |]. intros [= <-]. left. reflexivity.
  - destruct (is_inf _); [discriminate |]. intros [= <-]. right. left. reflexivity.
Qed.

(** The change of a measurement against itself. *)
Lemma self_change_quiet (v : value) (ch : float) :
  _calculate_percentage_change v v = Ok ch -> quiet ch.
Proof.
  unfold _calculate_percentage_change.
  destruct (eq_zero v); [intros [= <-]; now left |].
  unfold need_num. destruct (as_num v) as [[z | f] |]; cbn [Res.bind];
    [| | discriminate].
  - cbn [num_sub Res.bind num_truediv]. rewrite Z.sub_diag. apply int_truediv_zero.
  - cbn [num_sub to_float Res.bind num_truediv]. unfold float_truediv.
    destruct (f =? 0)%float; [discriminate |]. intros [= <-].
    apply div_quiet, sub_self_quiet.
Qed.

Lemma quiet_latency (ch : float) (category : string) (s : Severity) :
  quiet ch ->
  _assess_performance_change ch category = Ok s ->
  In category categories ->
  s = OK.
Proof.
  intros Hq Hs Hin.
  assert (Hcases : category = "core_latency" \/ category = "safety_overhead"
                   \/ category = "throughput" \/ category = "memory")
    by (simpl in Hin; intuition auto).
  destruct Hcases as [-> | [-> | [-> | ->]]], Hq as [-> | [-> | ->]];
    vm_compute in Hs; congruence.
Qed.

Lemma quiet_throughput (ch : float) (s : Severity) :
  quiet ch -> _assess_throughput_change ch = Ok s -> s = OK.
Proof.
  intros [-> | [-> | ->]] Hs; vm_compute in Hs; congruence.
Qed.

Lemma lookup_pair_same (self : BenchmarkComparator) (name : string)
    (baseline current : value) :
  baseline_data self = current_data self ->
  lookup_pair self name = Ok (baseline, current) ->
  baseline = current.
Proof.
  intros Hd. unfold lookup_pair. rewrite Hd.
  destruct (subscript (current_data self) "benchmarks") as [bs|]; [| discriminate].
  cbn [Res.bind].
  destruct (_get_benchmark_by_name bs name) as [r|]; [| discriminate].
  cbn [Res.bind]. now intros [= <- <-].
Qed.

Lemma core_body_quiet (self self' : BenchmarkComparator) (name : string)
    (results results' : list (string * Core.entry)) (baseline current : value) :
  lookup_pair self name = Ok (baseline, current) ->
  (forall bt ct ch,
      py_get baseline "cpu_time" (VInt 0) = Ok bt ->
      py_get current "cpu_time" (VInt 0) = Ok ct ->
      _calculate_percentage_change bt ct = Ok ch -> quiet ch) ->
  core_body name (results, self) = Ok (results', self') ->
  self' = self
  /\ if truthy baseline && truthy current
     then exists e, results' = dict_set name e results /\ Core.status e = OK
     else results' = results.
Proof.
  intros Hl Hq H. unfold core_body in H. rewrite Hl in H. cbn [Res.bind] in H.
  destruct (truthy baseline && truthy current); [| injection H as <- <-; auto].
  bind_inv H as baseline_time Hb. bind_inv H as current_time Hc.
  bind_inv H as change Hch. bind_inv H as status Hst.
  pose proof (Hq _ _ _ Hb Hc Hch) as Hquiet.
  assert (status = OK)
    by (eapply quiet_latency; [exact Hquiet | exact Hst | simpl; auto]).
  subst status.
  change (threshold "core_latency_critical") with (Ok 0.25%float) in H.
  change (threshold "core_latency_warning") with (Ok 0.10%float) in H.
  cbn [Res.bind] in H.
  assert (Hc1 : (0.25 <? change)%float = false)
    by (destruct Hquiet as [-> | [-> | ->]]; reflexivity).
  assert (Hc2 : (0.10 <? change)%float = false)
    by (destruct Hquiet as [-> | [-> | ->]]; reflexivity).
  rewrite Hc1, Hc2 in H. injection H as <- <-.
  split; [reflexivity |]. eexists. split; reflexivity.
Qed.

Lemma core_body_self (self self' : BenchmarkComparator) (name : string)
    (results results' : list (string * Core.entry)) :
  baseline_data self = current_data self ->
  core_body name (results, self) = Ok (results', self') ->
  self' = self.
Proof.
  intros Hd H. pose proof H as H0. unfold core_body in H0.
  bind_inv H0 as [baseline current] Hl.
  pose proof (lookup_pair_same _ _ _ _ Hd Hl) as <-.
  eapply (core_body_quiet _ _ _ _ _ _ _ Hl); [| exact H].
  intros bt ct ch Hb Hc. rewrite Hb in Hc. injection Hc as <-.
  apply self_change_quiet.
Qed.

Lemma memory_body_quiet (self self' : BenchmarkComparator) (name : string)
    (results results' : list (string * Memory.entry)) (baseline current : value) :
  lookup_pair self name = Ok (baseline, current) ->
  (forall bt ct ch,
      py_get baseline "bytes_per_second" (VInt 0) = Ok bt ->
      py_get current "bytes_per_second" (VInt 0) = Ok ct ->
      _calculate_percentage_change bt ct = Ok ch -> quiet ch) ->
  memory_body name (results, self) = Ok (results', self') ->
  self' = self
  /\ if truthy baseline && truthy current
     then exists e, results' = dict_set name e results /\ Memory.status e = OK
     else results' = results.
Proof.
  intros Hl Hq H. unfold memory_body in H. rewrite Hl in H. cbn [Res.bind] in H.
  destruct (truthy baseline && truthy current); [| injection H as <- <-; auto].
  bind_inv H as baseline_throughput Hb. bind_inv H as current_throughput Hc.
  bind_inv H as change Hch. bind_inv H as status Hst.
  pose proof (Hq _ _ _ Hb Hc Hch) as Hquiet.
  assert (status = OK) by (eapply quiet_throughput; eassumption).
  subst status.
  change (threshold "throughput_critical") with (Ok 0.30%float) in H.
  change (threshold "throughput_warning") with (Ok 0.15%float) in H.
  cbn [Res.bind] in H.
  assert (Hc1 : (change <? opp 0.30)%float = false)
    by (destruct Hquiet as [-> | [-> | ->]]; reflexivity).
  assert (Hc2 : (change <? opp 0.15)%float = false)
    by (destruct Hquiet as [-> | [-> | ->]]; reflexivity).
  rewrite Hc1, Hc2 in H. injection H as <- <-.
  split; [reflexivity |]. eexists. split; reflexivity.
Qed.

Lemma memory_body_self (self self' : BenchmarkComparator) (name : string)
    (results results' : list (string * Memory.entry)) :
  baseline_data self = current_data self ->
  memory_body name (results, self) = Ok (results', self') ->
  self' = self.
Proof.
  intros Hd H. pose proof H as H0. unfold memory_body in H0.
  bind_inv H0 as [baseline current] Hl.
  pose proof (lookup_pair_same _ _ _ _ Hd Hl) as <-.
  eapply (memory_body_quiet _ _ _ _ _ _ _ Hl); [| exact H].
  intros bt ct ch Hb Hc. rewrite Hb in Hc. injection Hc as <-.
  apply self_change_quiet.
Qed.

Lemma lookup_overhead_same (self : BenchmarkComparator) (v0 l0 v1 l1 : value) :
  baseline_data self = current_data self ->
  lookup_overhead self = Ok (v0, l0, v1, l1) ->
  v1 = v0 /\ l1 = l0.
Proof.
  intros Hd. unfold lookup_overhead. rewrite Hd.
  destruct (subscript (current_data self) "benchmarks") as [bs|]; [| discriminate].
  cbn [Res.bind].
  destruct (_get_benchmark_by_name bs "BM_SafetyLevel_Comparison/0_mean") as [a|];
    [| discriminate].
  cbn [Res.bind].
  destruct (_get_benchmark_by_name bs "BM_SafetyLevel_Comparison/1_mean") as [b|];
    [| discriminate].
  cbn [Res.bind]. now intros [= <- <- <- <-].
Qed.

Lemma safety_self (self self' : BenchmarkComparator) (r : option Safety.entry) :
  baseline_data self = current_data self ->
  compare_safety_overhead self = Ok (r, self') ->
  self' = self.
Proof.
  intros Hd H. unfold compare_safety_overhead in H.
  bind_inv H as [[[v0 l0] v1] l1] Hl.
  destruct (lookup_overhead_same _ _ _ _ _ Hd Hl) as [-> ->].
  destruct (forallb truthy _); [| now injection H as _ <-].
  bind_inv H as [[bo co] change] Ho.
  assert (Hq : quiet change).
  { unfold safety_overheads in Ho.
    bind_inv Ho as t0 H0. bind_inv Ho as u0 H1. bind_inv Ho as x Hx.
    bind_inv Ho as t1 H2. bind_inv Ho as u1 H3. bind_inv Ho as y Hy.
    rewrite H0 in H2. injection H2 as <-. rewrite H1 in H3. injection H3 as <-.
    rewrite Hx in Hy. injection Hy as <-. injection Ho as _ _ <-.
    apply sub_self_quiet. }
  bind_inv H as status Hst.
  change (threshold "safety_overhead_critical") with (Ok 0.15%float) in H.
  change (threshold "safety_overhead_warning") with (Ok 0.05%float) in H.
  cbn [Res.bind] in H.
  destruct Hq as [-> | [-> | ->]];
    vm_compute in H; now injection H as _ <-.
Qed.

Lemma core_loop_self (names : list string) (self self' : BenchmarkComparator)
    (results results' : list (string * Core.entry)) :
  baseline_data self = current_data self ->
  for_each core_body names (results, self) = Ok (results', self') ->
  self' = self.
Proof.
  intros Hd. revert results.
  induction names as [|n names IH]; cbn [for_each]; intros results H.
  - now injection H as _ <-.
  - bind_inv H as [r1 s1] H1.
    apply (core_body_self _ _ _ _ _ Hd) in H1 as ->. eapply IH, H.
Qed.

Lemma memory_loop_self (names : list string) (self self' : BenchmarkComparator)
    (results results' : list (string * Memory.entry)) :
  baseline_data self = current_data self ->
  for_each memory_body names (results, self) = Ok (results', self') ->
  self' = self.
Proof.
  intros Hd. revert results.
  induction names as [|n names IH]; cbn [for_each]; intros results H.
  - now injection H as _ <-.
  - bind_inv H as [r1 s1] H1.
    apply (memory_body_self _ _ _ _ _ Hd) in H1 as ->. eapply IH, H.
Qed.

Lemma generate_report_self (self self' : BenchmarkComparator) (text : string) :
  baseline_data self = current_data self ->
  generate_report self = Ok (text, self') ->
  self' = self.
Proof.
  intros Hd H. unfold generate_report in H. bind_inv H as [lines s] Hl.
  injection H as _ <-.
  apply report_lines_parts in Hl
    as (core_results & s1 & core & safety_results & s2 & memory_results
        & H1 & _ & H3 & H4 & _).
  apply (core_loop_self _ _ _ _ _ Hd) in H1 as ->.
  apply (safety_self _ _ _ Hd) in H3 as ->.
  now apply (memory_loop_self _ _ _ _ _ Hd) in H4.
Qed.

Lemma load_parsed (filename : string) (w : world) (data : value) :
  dict_get filename (files w) = Some (Parsed data) ->
  _load_json filename w
  = (match contains "benchmarks" data with
     | Raise e => Raise e
     | Ok true => Ok data
     | Ok false => Ok (VDict [("benchmarks", data)])
     end, w).
Proof.
  intros H. unfold _load_json, read_json. rewrite H. cbn [Res.bind].
  destruct (contains "benchmarks" data) as [[|]|e] eqn:E; cbn [Res.bind];
    try reflexivity.
  apply contains_raises in E as ->. reflexivity.
Qed.

Lemma init_same_document (b c : string) (w : world) (data : value)
    (comparator : BenchmarkComparator) :
  dict_get b (files w) = Some (Parsed data) ->
  dict_get c (files w) = Some (Parsed data) ->
  __init__ b c w = (Ok comparator, w) ->
  baseline_data comparator = current_data comparator
  /\ warnings comparator = [] /\ critical_issues comparator = [].
Proof.
  intros Hb Hc. unfold __init__.
  rewrite (load_parsed b w data Hb).
  destruct (contains "benchmarks" data) as [[|]|] eqn:E; try discriminate;
    rewrite (load_parsed c w data Hc), E; intros [= <-]; auto.
Qed.



Lemma sub_nan (x y : float) : x = nan \/ y = nan -> (x - y)%float = nan.
Proof.
  intros H. apply Prim2SF_inj. rewrite sub_spec. unfold SF64sub.
  destruct H as [-> | ->]; change (Prim2SF nan) with S754_nan.
  - reflexivity.
  - now destruct (Prim2SF x).
Qed.

Lemma div_nan (x y : float) : x = nan \/ y = nan -> (x / y)%float = nan.
Proof.
  intros H. apply Prim2SF_inj. rewrite div_spec. unfold SF64div.
  destruct H as [-> | ->]; change (Prim2SF nan) with S754_nan.
  - reflexivity.
  - now destruct (Prim2SF x).
Qed.

Lemma float_truediv_nan (x y q : float) :
  x = nan \/ y = nan -> float_truediv x y = Ok q -> q = nan.
Proof.
  intros H. unfold float_truediv. destruct (y =? 0)%float; [discriminate |].
  intros [= <-]. now apply div_nan.
Qed.

(** A zero baseline, or a NaN on either side, gives a change that is a
    zero or NaN. *)
Lemma unflagged_change (b c : value) (ch : float) :
  eq_zero b = true \/ b = VFloat nan \/ c = VFloat nan ->
  _calculate_percentage_change b c = Ok ch ->
  quiet ch.
Proof.
  unfold _calculate_percentage_change. intros H.
  destruct (eq_zero b) eqn:Hz; [intros [= <-]; now left |].
  destruct H as [H | H]; [discriminate |].
  intros Hc. right. right.
  bind_inv Hc as nc Hnc. bind_inv Hc as nb Hnb. bind_inv Hc as d Hd.
  unfold need_num in Hnc, Hnb.
  destruct H as [-> | ->].
  - injection Hnb as <-.
    assert (Hdn : d = NFloat nan).
    { destruct nc as [z | f]; cbn [num_sub to_float Res.bind] in Hd.
      - bind_inv Hd as x Hx. injection Hd as <-. f_equal. apply sub_nan. now right.
      - injection Hd as <-. f_equal. apply sub_nan. now right. }
    subst d. cbn [num_truediv to_float Res.bind] in Hc.
    eapply float_truediv_nan; [| exact Hc]. now left.
  - injection Hnc as <-.
    assert (Hdn : d = NFloat nan).
    { destruct nb as [z | f]; cbn [num_sub to_float Res.bind] in Hd.
      - bind_inv Hd as x Hx. injection Hd as <-. f_equal. apply sub_nan. now left.
      - injection Hd as <-. f_equal. apply sub_nan. now left. }
    subst d. destruct nb as [z | f]; cbn [num_truediv to_float Res.bind] in Hc.
    + bind_inv Hc as y Hy. eapply float_truediv_nan; [| exact Hc]. now left.
    + eapply float_truediv_nan; [| exact Hc]. now left.
Qed.

(** X5: a benchmark whose baseline measurement is zero or missing, or one
    of whose measurements is NaN, is never flagged: when its comparison
    completes, the status is OK and no message is added, for a core metric
    on [cpu_time] and for a memory metric on [bytes_per_second]. *)
Theorem unflaggable_measurements (self self' : BenchmarkComparator)
    (name : string) (b c : list (string * value)) :
  lookup_pair self name = Ok (VDict b, VDict c) ->
  b <> [] -> c <> [] ->
  (forall results results',
      eq_zero (measurement "cpu_time" b) = true
      \/ measurement "cpu_time" b = VFloat nan
      \/ measurement "cpu_time" c = VFloat nan ->
      core_body name (results, self) = Ok (results', self') ->
      self' = self
      /\ exists e, results' = dict_set name e results /\ Core.status e = OK)
  /\ (forall results results',
         eq_zero (measurement "bytes_per_second" b) = true
         \/ measurement "bytes_per_second" b = VFloat nan
         \/ measurement "bytes_per_second" c = VFloat nan ->
         memory_body name (results, self) = Ok (results', self') ->
         self' = self
         /\ exists e, results' = dict_set name e results /\ Memory.status e = OK).
Proof.
  intros Hl Hb Hc.
  assert (Ht : truthy (VDict b) && truthy (VDict c) = true)
    by (destruct b, c; try contradiction; reflexivity).
  split; intros results results' Hm H.
  - eapply (core_body_quiet _ _ _ _ _ _ _ Hl) in H as [-> H].
    + rewrite Ht in H. auto.
    + intros bt ct ch [= <-] [= <-]. now apply unflagged_change.
  - eapply (memory_body_quiet _ _ _ _ _ _ _ Hl) in H as [-> H].
    + rewrite Ht in H. auto.
    + intros bt ct ch [= <-] [= <-]. now apply unflagged_change.
Qed.

Lemma unflaggable_measurements_witness :
  (forall results results',
      eq_zero (measurement "cpu_time" zero_record) = true
      \/ measurement "cpu_time" zero_record = VFloat nan
      \/ measurement "cpu_time" slow_record = VFloat nan ->
      core_body "BM_MakeMove_ShortChain_mean" (results, zero_baseline)
      = Ok (results', zero_baseline) ->
      zero_baseline = zero_baseline
      /\ exists e,
          results' = dict_set "BM_MakeMove_ShortChain_mean" e results
          /\ Core.status e = OK)
  /\ (forall results results',
         eq_zero (measurement "bytes_per_second" zero_record) = true
         \/ measurement "bytes_per_second" zero_record = VFloat nan
         \/ measurement "bytes_per_second" slow_record = VFloat nan ->
         memory_body "BM_MakeMove_ShortChain_mean" (results, zero_baseline)
         = Ok (results', zero_baseline) ->
         zero_baseline = zero_baseline
         /\ exists e,
             results' = dict_set "BM_MakeMove_ShortChain_mean" e results
             /\ Memory.status e = OK).
Proof.
  apply (unflaggable_measurements zero_baseline zero_baseline
           "BM_MakeMove_ShortChain_mean" zero_record slow_record);
    [reflexivity | discriminate | discriminate].
Defined.

(** ** Results and messages of the comparisons *)

Lemma core_body_entry (name : string) (results results' : list (string * Core.entry))
    (self self' : BenchmarkComparator) :
  core_body name (results, self) = Ok (results', self') ->
  if present self name
  then exists e, results' = dict_set name e results
                 /\ contributes (Core.status e) self self'
  else results' = results /\ self' = self.
Proof.
  unfold core_body, present. intros H.
  bind_inv H as [baseline current] Hl. rewrite Hl.
  destruct (truthy baseline && truthy current);
    [| injection H as <- <-; auto].
  bind_inv H as baseline_time Hb. bind_inv H as current_time Hc.
  bind_inv H as change Hch. bind_inv H as status Hst.
  change (threshold "core_latency_critical") with (Ok 0.25%float) in H.
  change (threshold "core_latency_warning") with (Ok 0.10%float) in H.
  cbn [Res.bind] in H.
  destruct (assess_latency_cases change "core_latency" _ _ status eq_refl eq_refl Hst)
    as [[Hx ->] | [(Hx & Hw & ->) | (Hx & Hw & Hs)]];
    rewrite Hx in H; try rewrite Hw in H.
  - bind_inv H as b Eb. bind_inv H as c Ec. injection H as <- <-.
    eexists; split; [reflexivity | apply contributes_critical].
  - bind_inv H as b Eb. bind_inv H as c Ec. injection H as <- <-.
    eexists; split; [reflexivity | apply contributes_warning].
  - injection H as <- <-.
    eexists; split; [reflexivity | now apply contributes_quiet].
Qed.

Lemma memory_body_entry (name : string)
    (results results' : list (string * Memory.entry))
    (self self' : BenchmarkComparator) :
  memory_body name (results, self) = Ok (results', self') ->
  if present self name
  then exists e, results' = dict_set name e results
                 /\ contributes (Memory.status e) self self'
  else results' = results /\ self' = self.
Proof.
  unfold memory_body, present. intros H.
  bind_inv H as [baseline current] Hl. rewrite Hl.
  destruct (truthy baseline && truthy current);
    [| injection H as <- <-; auto].
  bind_inv H as baseline_throughput Hb. bind_inv H as current_throughput Hc.
  bind_inv H as change Hch. bind_inv H as status Hst.
  change (threshold "throughput_critical") with (Ok 0.30%float) in H.
  change (threshold "throughput_warning") with (Ok 0.15%float) in H.
  cbn [Res.bind] in H.
  destruct (assess_throughput_cases change status Hst)
    as [[Hx ->] | [(Hx & Hw & ->) | (Hx & Hw & Hs)]];
    rewrite Hx in H; try rewrite Hw in H; injection H as <- <-;
    (eexists; split; [reflexivity |]).
  - apply contributes_critical.
  - apply contributes_warning.
  - now apply contributes_quiet.
Qed.

Lemma present_same_inputs (s s' : BenchmarkComparator) (name : string) :
  same_inputs s s' -> present s' name = present s name.
Proof.
  intros (_ & _ & Hb & Hc). unfold present, lookup_pair. now rewrite Hb, Hc.
Qed.

Lemma dict_set_fresh {A} (k : string) (v : A) (d : list (string * A)) :
  dict_get k d = None -> dict_set k v d = (d ++ [(k, v)])%list.
Proof.
  induction d as [|[k0 v0] d IH]; simpl; [reflexivity |].
  destruct (String.eqb k0 k); [discriminate |]. intros H. now rewrite IH.
Qed.

Lemma dict_get_app_none {A} (k : string) (d d' : list (string * A)) :
  dict_get k d = None -> dict_get k (d ++ d') = dict_get k d'.
Proof.
  induction d as [|[k0 v0] d IH]; simpl; [reflexivity |].
  destruct (String.eqb k0 k); [discriminate | exact IH].
Qed.

(** What a status adds to the length of a list of messages. *)
Lemma contributes_lengths (st : Severity) (s s' : BenchmarkComparator) :
  contributes st s s' ->
  same_inputs s s'
  /\ List.length (warnings s') = (List.length (warnings s) + count WARNING [st])%nat
  /\ List.length (critical_issues s')
     = (List.length (critical_issues s) + count CRITICAL [st])%nat.
Proof.
  intros (Hi & Hw & Hc & Hw' & Hc'). split; [exact Hi |].
  destruct st; unfold count; simpl.
  - rewrite Hw', Hc' by discriminate. lia.
  - rewrite Hw', Hc' by discriminate. lia.
  - destruct (proj1 Hw eq_refl) as [msg ->]. rewrite Hc' by discriminate.
    rewrite length_app. simpl. lia.
  - destruct (proj1 Hc eq_refl) as [msg ->]. rewrite Hw' by discriminate.
    rewrite length_app. simpl. lia.
Qed.

Lemma count_app (s : Severity) (l l' : list Severity) :
  count s (l ++ l') = (count s l + count s l')%nat.
Proof.
  unfold count. now rewrite filter_app, length_app.
Qed.

Section Entries.
Context {E : Type}.
Variable status : E -> Severity.
Variable body : string -> list (string * E) * BenchmarkComparator
                -> result (list (string * E) * BenchmarkComparator).
Hypothesis body_entry :
  forall name results results' self self',
    body name (results, self) = Ok (results', self') ->
    if present self name
    then exists e, results' = dict_set name e results
                   /\ contributes (status e) self self'
    else results' = results /\ self' = self.

Lemma loop_entries (names : list string) :
  NoDup names ->
  forall results results' self self',
    (forall n, In n names -> dict_get n results = None) ->
    for_each body names (results, self) = Ok (results', self') ->
    exists added,
      results' = (results ++ added)%list
      /\ map fst added = filter (present self) names
      /\ same_inputs self self'
      /\ List.length (warnings self')
         = (List.length (warnings self) + count WARNING (statuses status added))%nat
      /\ List.length (critical_issues self')
         = (List.length (critical_issues self) + count CRITICAL (statuses status added))%nat.
Proof.
  induction 1 as [|name names Hnotin Hnd IH]; intros results results' self self' Hfresh H;
    cbn [for_each] in H.
  - injection H as <- <-. exists []. rewrite app_nil_r.
    repeat split; auto.
  - bind_inv H as [r1 s1] H1. apply body_entry in H1.
    cbn [filter]. destruct (present self name) eqn:Hp.
    + destruct H1 as (e & -> & Hc).
      apply contributes_lengths in Hc as (Hi & Hw & Hcr).
      rewrite dict_set_fresh in H by (apply Hfresh; now left).
      apply IH in H as (added & -> & Hk & Hi' & Hw' & Hcr').
      * exists ((name, e) :: added). rewrite <- app_assoc.
        split; [reflexivity |]. split.
        { cbn [map fst]. f_equal. rewrite Hk.
          apply filter_ext. intros n. now apply present_same_inputs. }
        split; [eapply same_inputs_trans; eassumption |].
        change (statuses status ((name, e) :: added))
          with ([status e] ++ statuses status added)%list.
        rewrite !count_app. lia.
      * intros n Hn. rewrite dict_get_app_none by (apply Hfresh; now right).
        simpl. destruct (String.eqb_spec name n) as [-> | _]; [contradiction | reflexivity].
    + destruct H1 as [-> ->].
      apply IH in H; [exact H |].
      intros n Hn. apply Hfresh. now right.
Qed.
End Entries.

Lemma NoDup_core_benchmarks : NoDup core_benchmarks.
Proof.
  unfold core_benchmarks. repeat constructor; simpl; intuition discriminate.
Qed.

Lemma NoDup_memory_benchmarks : NoDup memory_benchmarks.
Proof.
  unfold memory_benchmarks. repeat constructor; simpl; intuition discriminate.
Qed.

Lemma truthy_first_named (name : string) (items : list value) :
  truthy (first_named name items) = negb (absent name items).
Proof.
  destruct (first_named_found name items) as [[-> ->] | (_ & H & ->)];
    [reflexivity |].
  destruct (first_named name items) as [| | | | | |d]; try discriminate.
  simpl in H |- *. destruct d; [discriminate | reflexivity].
Qed.

Lemma core_entries (self self' : BenchmarkComparator)
    (results : list (string * Core.entry)) :
  compare_core_performance self = Ok (results, self') ->
  map fst results = filter (present self) core_benchmarks
  /\ same_inputs self self'
  /\ List.length (warnings self')
     = (List.length (warnings self) + count WARNING (statuses Core.status results))%nat
  /\ List.length (critical_issues self')
     = (List.length (critical_issues self)
        + count CRITICAL (statuses Core.status results))%nat.
Proof.
  intros H.
  apply (loop_entries Core.status core_body core_body_entry _ NoDup_core_benchmarks)
    in H as (added & -> & H); [exact H | reflexivity].
Qed.

Lemma memory_entries (self self' : BenchmarkComparator)
    (results : list (string * Memory.entry)) :
  compare_memory_performance self = Ok (results, self') ->
  map fst results = filter (present self) memory_benchmarks
  /\ same_inputs self self'
  /\ List.length (warnings self')
     = (List.length (warnings self) + count WARNING (statuses Memory.status results))%nat
  /\ List.length (critical_issues self')
     = (List.length (critical_issues self)
        + count CRITICAL (statuses Memory.status results))%nat.
Proof.
  intros H.
  apply (loop_entries Memory.status memory_body memory_body_entry _
           NoDup_memory_benchmarks)
    in H as (added & -> & H); [exact H | reflexivity].
Qed.

Lemma safety_result_iff (self self' : BenchmarkComparator) (r : option Safety.entry) :
  compare_safety_overhead self = Ok (r, self') ->
  (r <> None <->
   exists v0 l0 v1 l1,
     lookup_overhead self = Ok (v0, l0, v1, l1)
     /\ forallb truthy [v0; l0; v1; l1] = true).
Proof.
  unfold compare_safety_overhead. intros H.
  bind_inv H as [[[v0 l0] v1] l1] Hl.
  destruct (forallb truthy [v0; l0; v1; l1]) eqn:Ht.
  - split.
    + intros _. exists v0, l0, v1, l1. auto.
    + intros _. bind_inv H as [[bo co] ch] Ho. bind_inv H as st Hst.
      bind_inv H as cr Hcr. destruct (cr <? ch)%float.
      * injection H as <- _. discriminate.
      * bind_inv H as wr Hwr. destruct (wr <? ch)%float;
          injection H as <- _; discriminate.
  - injection H as <- _. split; [intros C; now contradiction C |].
    intros (a & b & c & d & E & Ht'). rewrite Hl in E.
    injection E as <- <- <- <-. rewrite Ht in Ht'. discriminate.
Qed.

(** X6: each comparison holds one result per benchmark of its list that is
    found in both result sets, in the order of the list, and none for any
    other name; on sets of records a benchmark is found when a record of
    each set bears its name.  The overhead comparison gives a result
    exactly when its four records are found. *)
Theorem results_are_the_present_metrics (self : BenchmarkComparator) :
  (forall results self',
      compare_core_performance self = Ok (results, self') ->
      map fst results = filter (present self) core_benchmarks)
  /\ (forall results self',
         compare_memory_performance self = Ok (results, self') ->
         map fst results = filter (present self) memory_benchmarks)
  /\ (forall r self',
         compare_safety_overhead self = Ok (r, self') ->
         (r <> None <->
          exists v0 l0 v1 l1,
            lookup_overhead self = Ok (v0, l0, v1, l1)
            /\ forallb truthy [v0; l0; v1; l1] = true))
  /\ (forall bitems citems name,
         result_set (baseline_data self) bitems ->
         result_set (current_data self) citems ->
         present self name
         = negb (absent name bitems) && negb (absent name citems)).
Proof.
  split; [| split; [| split]].
  - intros results self' H. now apply core_entries in H.
  - intros results self' H. now apply memory_entries in H.
  - intros r self'. apply safety_result_iff.
  - intros bitems citems name Hb Hc. unfold present.
    rewrite (lookup_pair_records self bitems citems name Hb Hc).
    now rewrite !truthy_first_named.
Qed.

Lemma results_are_the_present_metrics_witness :
  exists results self',
    compare_core_performance mixed = Ok (results, self')
    /\ map fst results = filter (present mixed) core_benchmarks.
Proof.
  do 2 eexists. split; [vm_compute; reflexivity |].
  eapply (proj1 (results_are_the_present_metrics mixed)).
  vm_compute. reflexivity.
Defined.

Lemma safety_lengths (self self' : BenchmarkComparator) (r : option Safety.entry) :
  compare_safety_overhead self = Ok (r, self') ->
  List.length (warnings self')
  = (List.length (warnings self) + count WARNING (safety_status r))%nat
  /\ List.length (critical_issues self')
     = (List.length (critical_issues self) + count CRITICAL (safety_status r))%nat.
Proof.
  intros H. apply safety_outcome in H. destruct r as [e|].
  - destruct H as [_ H]. now apply contributes_lengths in H as (_ & Hw & Hc).
  - subst. unfold count. simpl. lia.
Qed.

Lemma nonempty_length {A} (l : list A) :
  nonempty l = (0 <? List.length l)%nat.
Proof. now destruct l. Qed.

(** X7: generating the report adds to [warnings] as many messages as there
    are results with status WARNING, and to [critical_issues] as many as
    there are with status CRITICAL; so for a comparator that starts with
    empty lists the exit code is 2 when some result is CRITICAL, else 1
    when some result is WARNING, else 0. *)
Theorem messages_match_statuses (self self' : BenchmarkComparator)
    (lines : list string) :
  report_lines self = Ok (lines, self') ->
  exists core_results s1 safety_results s2 memory_results,
    compare_core_performance self = Ok (core_results, s1)
    /\ compare_safety_overhead s1 = Ok (safety_results, s2)
    /\ compare_memory_performance s2 = Ok (memory_results, self')
    /\ let sts := all_statuses core_results safety_results memory_results in
       List.length (warnings self')
       = (List.length (warnings self) + count WARNING sts)%nat
       /\ List.length (critical_issues self')
          = (List.length (critical_issues self) + count CRITICAL sts)%nat
       /\ (warnings self = [] ->
           critical_issues self = [] ->
           get_exit_code self'
           = if (0 <? count CRITICAL sts)%nat then 2
             else if (0 <? count WARNING sts)%nat then 1
             else 0).
Proof.
  intros H.
  apply report_lines_parts in H
    as (core_results & s1 & core & safety_results & s2 & memory_results
        & H1 & _ & H3 & H4 & _).
  exists core_results, s1, safety_results, s2, memory_results.
  repeat (split; [assumption |]).
  apply core_entries in H1 as (_ & _ & Hw1 & Hc1).
  apply safety_lengths in H3 as (Hw2 & Hc2).
  apply memory_entries in H4 as (_ & _ & Hw3 & Hc3).
  cbv zeta. unfold all_statuses. rewrite !count_app.
  split; [lia |]. split; [lia |].
  intros Hw Hc. unfold get_exit_code. rewrite !nonempty_length.
  rewrite Hw3, Hw2, Hw1, Hc3, Hc2, Hc1, Hw, Hc. simpl List.length.
  rewrite !Nat.add_0_l, !Nat.add_assoc. reflexivity.
Qed.

Lemma messages_match_statuses_witness :
  exists lines self',
    report_lines mixed = Ok (lines, self')
    /\ exists core_results s1 safety_results s2 memory_results,
        compare_core_performance mixed = Ok (core_results, s1)
        /\ compare_safety_overhead s1 = Ok (safety_results, s2)
        /\ compare_memory_performance s2 = Ok (memory_results, self')
        /\ let sts := all_statuses core_results safety_results memory_results in
           List.length (warnings self')
           = (List.length (warnings mixed) + count WARNING sts)%nat
           /\ List.length (critical_issues self')
              = (List.length (critical_issues mixed) + count CRITICAL sts)%nat
           /\ (warnings mixed = [] ->
               critical_issues mixed = [] ->
               get_exit_code self'
               = if (0 <? count CRITICAL sts)%nat then 2
                 else if (0 <? count WARNING sts)%nat then 1
                 else 0).
Proof.
  do 2 eexists. split; [vm_compute; reflexivity |].
  eapply (messages_match_statuses mixed). vm_compute. reflexivity.
Defined.

(** ** What the comparisons can observe *)

Lemma agree_add_critical (s t : BenchmarkComparator) (msg : string) :
  agree s t -> agree (add_critical s msg) (add_critical t msg).
Proof.
  intros (H1 & H2 & H3 & H4 & H5 & H6). unfold agree. simpl.
  repeat split; auto. now rewrite H4.
Qed.

Lemma agree_add_warning (s t : BenchmarkComparator) (msg : string) :
  agree s t -> agree (add_warning s msg) (add_warning t msg).
Proof.
  intros (H1 & H2 & H3 & H4 & H5 & H6). unfold agree. simpl.
  repeat split; auto. now rewrite H3.
Qed.

Ltac agree_step :=
  match goal with
  | |- agree_result (Res.bind ?m _) (Res.bind ?m _) =>
      destruct m; cbn [Res.bind]
  | |- agree_result (if ?b then _ else _) (if ?b then _ else _) => destruct b
  | |- agree_result (let '(_, _) := ?p in _) (let '(_, _) := ?p in _) => destruct p
  | |- agree_result (Raise _) (Raise _) => reflexivity
  | |- agree_result (Ok (_, _)) (Ok (_, _)) =>
      split; [reflexivity
             | first [ assumption
                     | now apply agree_add_critical
                     | now apply agree_add_warning ] ]
  end.

Lemma core_body_agree (name : string) (results : list (string * Core.entry))
    (s t : BenchmarkComparator) :
  agree s t ->
  In name core_benchmarks ->
  agree_result (core_body name (results, s)) (core_body name (results, t)).
Proof.
  intros Ha Hin. unfold core_body.
  rewrite (proj1 (proj2 (proj2 (proj2 (proj2 Ha)))) name)
    by (apply in_or_app; now left).
  repeat agree_step.
Qed.

Lemma memory_body_agree (name : string) (results : list (string * Memory.entry))
    (s t : BenchmarkComparator) :
  agree s t ->
  In name memory_benchmarks ->
  agree_result (memory_body name (results, s)) (memory_body name (results, t)).
Proof.
  intros Ha Hin. unfold memory_body.
  rewrite (proj1 (proj2 (proj2 (proj2 (proj2 Ha)))) name)
    by (apply in_or_app; now right).
  repeat agree_step.
Qed.

Lemma safety_agree (s t : BenchmarkComparator) :
  agree s t ->
  agree_result (compare_safety_overhead s) (compare_safety_overhead t).
Proof.
  intros Ha. unfold compare_safety_overhead.
  rewrite (proj2 (proj2 (proj2 (proj2 (proj2 Ha))))).
  repeat agree_step.
Qed.

Section AgreeLoop.
Context {R : Type}.
Variable body : string -> R * BenchmarkComparator -> result (R * BenchmarkComparator).
Variable inspected : list string.
Hypothesis body_agree :
  forall name r s t,
    agree s t -> In name inspected ->
    agree_result (body name (r, s)) (body name (r, t)).

Lemma for_each_agree (names : list string) (r : R) (s t : BenchmarkComparator) :
  incl names inspected ->
  agree s t ->
  agree_result (for_each body names (r, s)) (for_each body names (r, t)).
Proof.
  revert r s t. induction names as [|name names IH]; intros r s t Hin Ha;
    cbn [for_each].
  - now split.
  - assert (Hn : In name inspected) by (apply Hin; now left).
    pose proof (body_agree name r s t Ha Hn) as H.
    destruct (body name (r, s)) as [[r1 s1]|e1], (body name (r, t)) as [[r2 t1]|e2];
      cbn [agree_result Res.bind] in *; try contradiction.
    + destruct H as [<- Ha1]. apply IH; [| exact Ha1].
      intros n Hn'. apply Hin. now right.
    + exact H.
Qed.
End AgreeLoop.

Lemma summary_lines_agree (s t : BenchmarkComparator) :
  agree s t -> summary_lines s = summary_lines t.
Proof.
  intros (_ & _ & Hw & Hc & _). unfold summary_lines. now rewrite Hw, Hc.
Qed.

Lemma generate_report_agree (s t : BenchmarkComparator) :
  agree s t -> agree_result (generate_report s) (generate_report t).
Proof.
  intros Ha. unfold generate_report, report_lines,
    compare_core_performance, compare_memory_performance.
  assert (Hh : header s = header t)
    by (unfold header; destruct Ha as (-> & -> & _); reflexivity).
  rewrite Hh.
  pose proof (for_each_agree core_body core_benchmarks core_body_agree
                core_benchmarks [] s t (incl_refl _) Ha) as H1.
  destruct (for_each core_body core_benchmarks ([], s)) as [[r1 s1]|e1],
           (for_each core_body core_benchmarks ([], t)) as [[r2 t1]|e2];
    cbn [agree_result Res.bind] in *; try contradiction; [| exact H1].
  destruct H1 as [<- Ha1].
  destruct (map_res core_line r1) as [core|e]; cbn [Res.bind]; [| reflexivity].
  pose proof (safety_agree s1 t1 Ha1) as H2.
  destruct (compare_safety_overhead s1) as [[r3 s2]|e1],
           (compare_safety_overhead t1) as [[r4 t2]|e2];
    cbn [agree_result Res.bind] in *; try contradiction; [| exact H2].
  destruct H2 as [<- Ha2].
  pose proof (for_each_agree memory_body memory_benchmarks memory_body_agree
                memory_benchmarks [] s2 t2 (incl_refl _) Ha2) as H3.
  destruct (for_each memory_body memory_benchmarks ([], s2)) as [[r5 s3]|e1],
           (for_each memory_body memory_benchmarks ([], t2)) as [[r6 t3]|e2];
    cbn [agree_result Res.bind] in *; try contradiction; [| exact H3].
  destruct H3 as [<- Ha3].
  rewrite (summary_lines_agree s3 t3 Ha3). now split.
Qed.

Lemma records_hold_no_string (k : string) (items : list value) :
  forallb is_record items = true ->
  existsb (fun x => eq_str x k) items = false.
Proof.
  induction items as [|b items IH]; simpl; [reflexivity |].
  intros H. apply andb_prop in H as [Hb Hr].
  destruct b; try discriminate. simpl. auto.
Qed.

Lemma load_bare (filename : string) (w : world) (items : list value) :
  dict_get filename (files w) = Some (Parsed (VList items)) ->
  forallb is_record items = true ->
  _load_json filename w = (Ok (VDict [("benchmarks", VList items)]), w).
Proof.
  intros H Hr. unfold _load_json, read_json. rewrite H. cbn [Res.bind contains].
  now rewrite records_hold_no_string.
Qed.

Lemma load_wrapped (filename : string) (w : world) (d : list (string * value))
    (v : value) :
  dict_get filename (files w) = Some (Parsed (VDict d)) ->
  dict_get "benchmarks" d = Some v ->
  _load_json filename w = (Ok (VDict d), w).
Proof.
  intros H Hd. unfold _load_json, read_json. rewrite H.
  cbn [Res.bind contains]. now rewrite Hd.
Qed.

Lemma agree_of_subscripts (s t : BenchmarkComparator) :
  baseline_file s = baseline_file t ->
  current_file s = current_file t ->
  warnings s = warnings t ->
  critical_issues s = critical_issues t ->
  subscript (baseline_data s) "benchmarks" = subscript (baseline_data t) "benchmarks" ->
  subscript (current_data s) "benchmarks" = subscript (current_data t) "benchmarks" ->
  agree s t.
Proof.
  intros H1 H2 H3 H4 Hb Hc. unfold agree, lookup_pair, lookup_overhead.
  rewrite Hb, Hc. repeat split; auto.
Qed.

(** Writing the report depends on the written files and on the console
    only. *)
Lemma output_report_agree (a : args) (text : string) (w1 w2 : world) :
  written w1 = written w2 ->
  console w1 = console w2 ->
  fst (output_report a text w1) = fst (output_report a text w2)
  /\ written (snd (output_report a text w1)) = written (snd (output_report a text w2))
  /\ console (snd (output_report a text w1)) = console (snd (output_report a text w2)).
Proof.
  intros Hw Hc. unfold output_report, write_file.
  destruct (arg_output a) as [path|]; [destruct (String.eqb path "") |];
    try (cbn; now rewrite Hw, Hc).
  rewrite Hw. destruct (dict_get path (written w2)) as [[old | e | kept e] |];
    cbn; now rewrite ?Hw, ?Hc.
Qed.

Lemma main_agree (a : args) (w1 w2 : world) (c1 c2 : BenchmarkComparator) :
  __init__ (arg_baseline a) (arg_current a) w1 = (Ok c1, w1) ->
  __init__ (arg_baseline a) (arg_current a) w2 = (Ok c2, w2) ->
  agree c1 c2 ->
  written w1 = written w2 ->
  console w1 = console w2 ->
  observable (run a w1) = observable (run a w2).
Proof.
  intros H1 H2 Ha Hw Hc. unfold observable, run, main. cbn [parse_args].
  rewrite H1, H2.
  pose proof (generate_report_agree c1 c2 Ha) as Hg.
  destruct (generate_report c1) as [[x s1]|e1], (generate_report c2) as [[y s2]|e2];
    cbn [agree_result] in Hg; try contradiction.
  - destruct Hg as [<- (_ & _ & Hw' & Hc' & _)].
    assert (He : get_exit_code s1 = get_exit_code s2)
      by (unfold get_exit_code; now rewrite Hw', Hc').
    rewrite He.
    destruct (output_report_agree a x w1 w2 Hw Hc) as (Hr & Hw1 & Hc1).
    destruct (output_report a x w1) as [r1 v1], (output_report a x w2) as [r2 v2].
    cbn [fst snd] in Hr, Hw1, Hc1. subst r2.
    destruct r1 as [[]|e].
    + destruct (arg_exit_on_regression a);
        try destruct (get_exit_code s2 =? 0);
        simpl; now rewrite Hw1, Hc1.
    + destruct e; simpl; now rewrite Hw1, Hc1.
  - subst e2. destruct e1; simpl; now rewrite Hw, Hc.
Qed.

Lemma load_holds (filename : string) (w : world) (doc : value) (items : list value) :
  dict_get filename (files w) = Some (Parsed doc) ->
  holds doc items ->
  forallb is_record items = true ->
  exists data,
    _load_json filename w = (Ok data, w) /\ result_set data items.
Proof.
  intros H [-> | (d & -> & Hd)] Hr.
  - eexists. split; [apply (load_bare _ _ _ H Hr) |]. now split.
  - eexists. split; [apply (load_wrapped _ _ _ _ H Hd) |].
    split; [| exact Hr]. cbn [subscript]. now rewrite Hd.
Qed.

Lemma first_named_relevant (name : string) (items : list value) :
  In name inspected ->
  first_named name (filter relevant items) = first_named name items.
Proof.
  intros Hin. unfold first_named.
  induction items as [|b items IH]; [reflexivity |].
  cbn [filter find]. destruct (has_name name b) eqn:Hb.
  - assert (Hr : relevant b = true)
      by (unfold relevant; apply existsb_exists; eauto).
    rewrite Hr. cbn [find]. now rewrite Hb.
  - destruct (relevant b); [cbn [find]; rewrite Hb |]; exact IH.
Qed.

Lemma agree_of_relevant (s t : BenchmarkComparator)
    (sb sc tb tc : list value) :
  baseline_file s = baseline_file t ->
  current_file s = current_file t ->
  warnings s = warnings t ->
  critical_issues s = critical_issues t ->
  result_set (baseline_data s) sb ->
  result_set (current_data s) sc ->
  result_set (baseline_data t) tb ->
  result_set (current_data t) tc ->
  filter relevant sb = filter relevant tb ->
  filter relevant sc = filter relevant tc ->
  agree s t.
Proof.
  intros H1 H2 H3 H4 Hsb Hsc Htb Htc Eb Ec.
  assert (Hn : forall name, In name inspected ->
                            first_named name sb = first_named name tb
                            /\ first_named name sc = first_named name tc).
  { intros name Hin.
    rewrite <- (first_named_relevant name sb), <- (first_named_relevant name tb),
      <- (first_named_relevant name sc), <- (first_named_relevant name tc)
      by assumption.
    now rewrite Eb, Ec. }
  unfold agree. repeat split; auto.
  - intros name Hin.
    assert (Hi : In name inspected).
    { unfold inspected. apply in_app_or in Hin as [Hin | Hin];
        apply in_or_app; [now left | right; apply in_or_app; now right]. }
    rewrite (lookup_pair_records s sb sc name Hsb Hsc),
      (lookup_pair_records t tb tc name Htb Htc).
    now destruct (Hn name Hi) as [-> ->].
  - rewrite (lookup_overhead_records s sb sc Hsb Hsc s (same_inputs_refl s)),
      (lookup_overhead_records t tb tc Htb Htc t (same_inputs_refl t)).
    assert (H0 : In "BM_SafetyLevel_Comparison/0_mean" inspected)
      by (unfold inspected; simpl; auto 10).
    assert (H1' : In "BM_SafetyLevel_Comparison/1_mean" inspected)
      by (unfold inspected; simpl; auto 10).
    destruct (Hn _ H0) as [-> ->]. destruct (Hn _ H1') as [-> ->].
    reflexivity.
Qed.

Lemma init_holds (a : args) (w : world) (bdoc cdoc : value)
    (bitems citems : list value) :
  dict_get (arg_baseline a) (files w) = Some (Parsed bdoc) ->
  dict_get (arg_current a) (files w) = Some (Parsed cdoc) ->
  holds bdoc bitems -> holds cdoc citems ->
  forallb is_record bitems = true ->
  forallb is_record citems = true ->
  exists comparator,
    __init__ (arg_baseline a) (arg_current a) w = (Ok comparator, w)
    /\ baseline_file comparator = arg_baseline a
    /\ current_file comparator = arg_current a
    /\ warnings comparator = [] /\ critical_issues comparator = []
    /\ result_set (baseline_data comparator) bitems
    /\ result_set (current_data comparator) citems.
Proof.
  intros Hb Hc Hhb Hhc Hbr Hcr.
  destruct (load_holds _ _ _ _ Hb Hhb Hbr) as (bd & Elb & Hsb).
  destruct (load_holds _ _ _ _ Hc Hhc Hcr) as (cd & Elc & Hsc).
  eexists. unfold __init__. rewrite Elb, Elc.
  do 5 (split; [reflexivity |]). split; assumption.
Qed.

Lemma relevant_records_decide (a : args) (w1 w2 : world)
    (bdoc1 cdoc1 bdoc2 cdoc2 : value) (b1 c1 b2 c2 : list value) :
  dict_get (arg_baseline a) (files w1) = Some (Parsed bdoc1) ->
  dict_get (arg_current a) (files w1) = Some (Parsed cdoc1) ->
  dict_get (arg_baseline a) (files w2) = Some (Parsed bdoc2) ->
  dict_get (arg_current a) (files w2) = Some (Parsed cdoc2) ->
  holds bdoc1 b1 -> holds cdoc1 c1 -> holds bdoc2 b2 -> holds cdoc2 c2 ->
  forallb is_record b1 = true -> forallb is_record c1 = true ->
  forallb is_record b2 = true -> forallb is_record c2 = true ->
  filter relevant b1 = filter relevant b2 ->
  filter relevant c1 = filter relevant c2 ->
  written w1 = written w2 ->
  console w1 = console w2 ->
  observable (run a w1) = observable (run a w2).
Proof.
  intros Db1 Dc1 Db2 Dc2 Hb1 Hc1 Hb2 Hc2 Rb1 Rc1 Rb2 Rc2 Eb Ec Hw Hc.
  destruct (init_holds a w1 _ _ _ _ Db1 Dc1 Hb1 Hc1 Rb1 Rc1)
    as (k1 & I1 & F1 & G1 & W1 & C1 & Sb1 & Sc1).
  destruct (init_holds a w2 _ _ _ _ Db2 Dc2 Hb2 Hc2 Rb2 Rc2)
    as (k2 & I2 & F2 & G2 & W2 & C2 & Sb2 & Sc2).
  apply (main_agree a w1 w2 k1 k2 I1 I2); [| assumption | assumption].
  eapply agree_of_relevant; try eassumption; congruence.
Qed.

(** X8: the two document shapes are interchangeable: whether each document
    is a bare array of records or an object holding that array under
    ["benchmarks"] (with any other fields), an invocation has the same
    exit status, console output and written report. *)
Theorem document_shapes_agree (a : args) (w1 w2 : world)
    (bdoc1 cdoc1 bdoc2 cdoc2 : value) (bitems citems : list value) :
  dict_get (arg_baseline a) (files w1) = Some (Parsed bdoc1) ->
  dict_get (arg_current a) (files w1) = Some (Parsed cdoc1) ->
  dict_get (arg_baseline a) (files w2) = Some (Parsed bdoc2) ->
  dict_get (arg_current a) (files w2) = Some (Parsed cdoc2) ->
  holds bdoc1 bitems -> holds cdoc1 citems ->
  holds bdoc2 bitems -> holds cdoc2 citems ->
  forallb is_record bitems = true ->
  forallb is_record citems = true ->
  written w1 = written w2 ->
  console w1 = console w2 ->
  observable (run a w1) = observable (run a w2).
Proof.
  intros. eapply relevant_records_decide; try eassumption; reflexivity.
Qed.

Lemma document_shapes_agree_witness :
  observable (run cli bare_files) = observable (run cli wrapped_files).
Proof.
  apply (document_shapes_agree cli bare_files wrapped_files
           (VList overhead_10) (VList overhead_18)
           (VDict [("context", VDict []); ("benchmarks", VList overhead_10)])
           (VDict [("benchmarks", VList overhead_18)])
           overhead_10 overhead_18);
    first [ reflexivity
          | left; reflexivity
          | right; eexists; split; reflexivity ].
Defined.

(** X9: only the records of the seven inspected benchmarks matter: two
    pairs of record documents whose records with an inspected name are
    the same, in the same order, give the same exit status, console output
    and written report, whatever other records they hold. *)
Theorem only_inspected_records_matter (a : args) (w1 w2 : world)
    (bdoc1 cdoc1 bdoc2 cdoc2 : value) (b1 c1 b2 c2 : list value) :
  dict_get (arg_baseline a) (files w1) = Some (Parsed bdoc1) ->
  dict_get (arg_current a) (files w1) = Some (Parsed cdoc1) ->
  dict_get (arg_baseline a) (files w2) = Some (Parsed bdoc2) ->
  dict_get (arg_current a) (files w2) = Some (Parsed cdoc2) ->
  holds bdoc1 b1 -> holds cdoc1 c1 -> holds bdoc2 b2 -> holds cdoc2 c2 ->
  forallb is_record b1 = true -> forallb is_record c1 = true ->
  forallb is_record b2 = true -> forallb is_record c2 = true ->
  filter relevant b1 = filter relevant b2 ->
  filter relevant c1 = filter relevant c2 ->
  written w1 = written w2 ->
  console w1 = console w2 ->
  observable (run a w1) = observable (run a w2).
Proof.
  intros. eapply relevant_records_decide; eassumption.
Qed.

Lemma only_inspected_records_matter_witness :
  observable (run cli bare_files) = observable (run cli noisy_files).
Proof.
  apply (only_inspected_records_matter cli bare_files noisy_files
           (VList overhead_10) (VList overhead_18)
           (VList noisy_baseline) (VList noisy_current)
           overhead_10 overhead_18 noisy_baseline noisy_current);
    first [ reflexivity | left; reflexivity ].
Defined.

(** ** Summary of the report *)

(** X10: the summary of the report and the exit code tell the same story:
    the summary is the single "no regressions" line exactly when the exit
    code is 0, it opens with the critical heading exactly when the code is
    2 and with the warnings heading exactly when it is 1; and every
    recorded message, critical or warning, appears indented in it. *)
Theorem summary_matches_exit_code (self : BenchmarkComparator) :
  (get_exit_code self = 0
   <-> summary_lines self = [ "✅ No performance regressions detected" ])
  /\ (get_exit_code self = 2
      <-> hd_error (summary_lines self) = Some "❌ CRITICAL ISSUES DETECTED:")
  /\ (get_exit_code self = 1
      <-> hd_error (summary_lines self) = Some "⚠️  WARNINGS:")
  /\ (forall msg,
         In msg (critical_issues self ++ warnings self)%list ->
         In (indent msg) (summary_lines self)).
Proof.
  unfold get_exit_code, summary_lines.
  split; [| split; [| split]].
  - destruct (critical_issues self) as [|c cs], (warnings self) as [|x xs];
      cbn [nonempty negb andb List.concat app map];
      split; intros H; try reflexivity; discriminate H.
  - destruct (critical_issues self) as [|c cs], (warnings self) as [|x xs];
      cbn [nonempty negb andb List.concat app hd_error map];
      split; intros H; try reflexivity; discriminate H.
  - destruct (critical_issues self) as [|c cs], (warnings self) as [|x xs];
      cbn [nonempty negb andb List.concat app hd_error map];
      split; intros H; try reflexivity; discriminate H.
  - intros msg Hin. cbn [List.concat]. rewrite app_nil_r.
    apply in_app_or in Hin as [Hin | Hin].
    + apply in_or_app. left.
      destruct (critical_issues self) as [|c cs]; [contradiction |].
      cbn [nonempty]. right. now apply in_map.
    + apply in_or_app. right. apply in_or_app. left.
      destruct (warnings self) as [|x xs]; [contradiction |].
      cbn [nonempty]. right. now apply in_map.
Qed.

(** ** Float measurements *)

Lemma float_record_is_record (items : list value) :
  forallb float_record items = true -> forallb is_record items = true.
Proof.
  induction items as [|b items IH]; simpl; [reflexivity |].
  intros H. apply andb_prop in H as [Hb Hr]. rewrite (IH Hr).
  now destruct b.
Qed.

Lemma float_record_fields (bench : value) :
  float_record bench = true ->
  exists d f,
    bench = VDict d
    /\ dict_get "cpu_time" d = Some (VFloat f)
    /\ measured (measurement "bytes_per_second" d).
Proof.
  destruct bench as [| | | | | |d]; try discriminate. simpl.
  intros H. apply andb_prop in H as [Hc Hb].
  destruct (dict_get "cpu_time" d) as [[| | |f| | |]|] eqn:Ec; try discriminate.
  exists d, f. split; [reflexivity |]. split; [exact Ec |].
  unfold measurement, measured.
  destruct (dict_get "bytes_per_second" d) as [[| | |g| | |]|]; try discriminate;
    eauto.
Qed.

Lemma first_named_float (name : string) (items : list value) :
  forallb float_record items = true ->
  truthy (first_named name items) = true ->
  exists d f,
    first_named name items = VDict d
    /\ dict_get "cpu_time" d = Some (VFloat f)
    /\ measured (measurement "bytes_per_second" d).
Proof.
  intros Hf Ht.
  destruct (first_named_found name items) as [[E _] | (Hin & _ & _)].
  - rewrite E in Ht. discriminate.
  - apply float_record_fields. rewrite forallb_forall in Hf. now apply Hf.
Qed.

Lemma percentage_change_total (b c : value) :
  measured b -> measured c ->
  exists ch, _calculate_percentage_change b c = Ok ch.
Proof.
  unfold _calculate_percentage_change.
  intros [[f ->] | ->] Hc; [| eexists; reflexivity].
  destruct (eq_zero (VFloat f)) eqn:Hz; [eexists; reflexivity |].
  cbn [eq_zero as_num] in Hz.
  destruct Hc as [[g ->] | ->];
    cbn [need_num as_num Res.bind num_sub to_float];
    [| change (float_of_Z 0) with (Ok 0%float); cbn [Res.bind]];
    cbn [num_truediv to_float Res.bind]; unfold float_truediv; rewrite Hz;
    eexists; reflexivity.
Qed.

Lemma format_time_float (f : float) :
  exists s, _format_time (VFloat f) = Ok s.
Proof.
  unfold _format_time. cbn [need_num as_num Res.bind num_lt_int].
  destruct (f <? 1)%float.
  - cbn [num_mul to_float Res.bind].
    change (float_of_Z 1000) with (Ok 1000%float).
    cbn [Res.bind fmt_num to_float]. eexists; reflexivity.
  - destruct (f <? 1000)%float.
    + cbn [Res.bind fmt_num to_float]. eexists; reflexivity.
    + cbn [num_truediv to_float Res.bind].
      change (float_of_Z 1000) with (Ok 1000%float).
      cbn [Res.bind]. unfold float_truediv.
      change (1000 =? 0)%float with false. eexists; reflexivity.
Qed.

Lemma dict_set_Forall {A} (P : A -> Prop) (k : string) (v : A)
    (d : list (string * A)) :
  P v -> Forall P (map snd d) -> Forall P (map snd (dict_set k v d)).
Proof.
  intros Hv. induction d as [|[k0 v0] d IH]; simpl; intros H.
  - now constructor.
  - inversion H as [|? ? H0 Hd]; subst.
    destruct (String.eqb k0 k); simpl; constructor; auto.
Qed.

(** The two records a loop iteration reads, on float inputs. *)
Lemma lookup_pair_float (self : BenchmarkComparator) (name : string) :
  float_inputs self ->
  exists baseline current,
    lookup_pair self name = Ok (baseline, current)
    /\ (truthy baseline && truthy current = true ->
        exists b x c y,
          baseline = VDict b /\ current = VDict c
          /\ dict_get "cpu_time" b = Some (VFloat x)
          /\ dict_get "cpu_time" c = Some (VFloat y)
          /\ measured (measurement "bytes_per_second" b)
          /\ measured (measurement "bytes_per_second" c)).
Proof.
  intros (bitems & citems & Hb & Hc & Fb & Fc).
  exists (first_named name bitems), (first_named name citems).
  split; [now apply lookup_pair_records |].
  intros Ht. apply andb_prop in Ht as [Tb Tc].
  destruct (first_named_float name bitems Fb Tb) as (b & x & -> & Hx & Mb).
  destruct (first_named_float name citems Fc Tc) as (c & y & -> & Hy & Mc).
  exists b, x, c, y. auto 10.
Qed.

Lemma core_body_total (name : string) (results : list (string * Core.entry))
    (self : BenchmarkComparator) :
  float_inputs self ->
  Forall float_times (map snd results) ->
  exists results' self',
    core_body name (results, self) = Ok (results', self')
    /\ float_inputs self'
    /\ Forall float_times (map snd results').
Proof.
  intros Hf Hr. unfold core_body.
  destruct (lookup_pair_float self name Hf) as (baseline & current & -> & Hrec).
  cbn [Res.bind].
  destruct (truthy baseline && truthy current); [| eauto].
  destruct (Hrec eq_refl) as (b & x & c & y & -> & -> & Hx & Hy & _).
  cbn [py_get Res.bind]. rewrite Hx, Hy.
  destruct (percentage_change_total (VFloat x) (VFloat y)) as [ch ->];
    [left; eauto | left; eauto |].
  cbn [Res.bind]. unfold _assess_performance_change.
  change (threshold ("core_latency" ++ "_warning")) with (Ok 0.10%float).
  change (threshold ("core_latency" ++ "_critical")) with (Ok 0.25%float).
  change (threshold "core_latency_critical") with (Ok 0.25%float).
  change (threshold "core_latency_warning") with (Ok 0.10%float).
  cbn [Res.bind].
  destruct (format_time_float x) as [sx ->], (format_time_float y) as [sy ->].
  cbn [Res.bind].
  assert (Hnew : forall e,
             Core.baseline_time e = VFloat x -> Core.current_time e = VFloat y ->
             Forall float_times (map snd (dict_set name e results))).
  { intros e E1 E2. apply dict_set_Forall; [| exact Hr]. split; eauto. }
  destruct (0.25 <? ch)%float.
  - do 2 eexists. split; [reflexivity |]. split; [exact Hf |]. now apply Hnew.
  - destruct (0.10 <? ch)%float;
      (do 2 eexists; split; [reflexivity |]; split; [exact Hf |]; now apply Hnew).
Qed.

Lemma memory_body_total (name : string) (results : list (string * Memory.entry))
    (self : BenchmarkComparator) :
  float_inputs self -> True ->
  exists results' self',
    memory_body name (results, self) = Ok (results', self')
    /\ float_inputs self' /\ True.
Proof.
  intros Hf _. unfold memory_body.
  destruct (lookup_pair_float self name Hf) as (baseline & current & -> & Hrec).
  cbn [Res.bind].
  destruct (truthy baseline && truthy current); [| eauto].
  destruct (Hrec eq_refl) as (b & x & c & y & -> & -> & _ & _ & Mb & Mc).
  cbn [py_get Res.bind]. fold (measurement "bytes_per_second" b).
  fold (measurement "bytes_per_second" c).
  destruct (percentage_change_total _ _ Mb Mc) as [ch ->].
  cbn [Res.bind]. unfold _assess_throughput_change.
  change (threshold "throughput_critical") with (Ok 0.30%float).
  change (threshold "throughput_warning") with (Ok 0.15%float).
  cbn [Res.bind].
  destruct (ch <? opp 0.30)%float; cbn [Res.bind];
    [| destruct (ch <? opp 0.15)%float];
    (do 2 eexists; split; [reflexivity | split; [exact Hf | exact I]]).
Qed.

Lemma safety_total (self : BenchmarkComparator) :
  float_inputs self ->
  exists r self',
    compare_safety_overhead self = Ok (r, self') /\ float_inputs self'.
Proof.
  intros Hf. pose proof Hf as (bitems & citems & Hb & Hc & Fb & Fc).
  unfold compare_safety_overhead.
  rewrite (lookup_overhead_records self bitems citems Hb Hc self
             (same_inputs_refl self)).
  cbn [Res.bind].
  destruct (forallb truthy _) eqn:Ht; [| eauto].
  cbn [forallb] in Ht.
  apply andb_prop in Ht as [T0 Ht]. apply andb_prop in Ht as [T1 Ht].
  apply andb_prop in Ht as [T2 Ht]. apply andb_prop in Ht as [T3 _].
  destruct (first_named_float _ _ Fb T0) as (d0 & x0 & -> & H0 & _).
  destruct (first_named_float _ _ Fb T1) as (d1 & x1 & -> & H1 & _).
  destruct (first_named_float _ _ Fc T2) as (d2 & x2 & -> & H2 & _).
  destruct (first_named_float _ _ Fc T3) as (d3 & x3 & -> & H3 & _).
  unfold safety_overheads. cbn [subscript]. rewrite H0, H1, H2, H3.
  cbn [Res.bind].
  destruct (percentage_change_total (VFloat x0) (VFloat x1)) as [bo ->];
    [left; eauto | left; eauto |].
  cbn [Res.bind].
  destruct (percentage_change_total (VFloat x2) (VFloat x3)) as [co ->];
    [left; eauto | left; eauto |].
  cbn [Res.bind]. unfold _assess_performance_change.
  change (threshold ("safety_overhead" ++ "_warning")) with (Ok 0.05%float).
  change (threshold ("safety_overhead" ++ "_critical")) with (Ok 0.15%float).
  change (threshold "safety_overhead_critical") with (Ok 0.15%float).
  change (threshold "safety_overhead_warning") with (Ok 0.05%float).
  cbn [Res.bind].
  destruct (0.15 <? co - bo)%float; cbn [Res.bind];
    [| destruct (0.05 <? co - bo)%float];
    (do 2 eexists; split; [reflexivity | exact Hf]).
Qed.

Section Total.
Context {R : Type}.
Variable body : string -> R * BenchmarkComparator -> result (R * BenchmarkComparator).
Variable good : R -> Prop.
Hypothesis body_total :
  forall name r self,
    float_inputs self -> good r ->
    exists r' self',
      body name (r, self) = Ok (r', self') /\ float_inputs self' /\ good r'.

Lemma for_each_total (names : list string) (r : R) (self : BenchmarkComparator) :
  float_inputs self -> good r ->
  exists r' self',
    for_each body names (r, self) = Ok (r', self')
    /\ float_inputs self' /\ good r'.
Proof.
  revert r self. induction names as [|name names IH]; intros r self Hf Hg;
    cbn [for_each].
  - eauto.
  - destruct (body_total name r self Hf Hg) as (r1 & s1 & -> & Hf1 & Hg1).
    cbn [Res.bind]. now apply IH.
Qed.
End Total.

Lemma core_lines_total (results : list (string * Core.entry)) :
  Forall float_times (map snd results) ->
  exists lines, map_res core_line results = Ok lines.
Proof.
  induction results as [|[name e] results IH]; cbn [map_res map snd]; intros H.
  - eauto.
  - inversion H as [|? ? [[x Hx] [y Hy]] Hrest]; subst.
    destruct (IH Hrest) as [lines ->].
    unfold core_line. rewrite Hx, Hy.
    destruct (format_time_float x) as [sx ->], (format_time_float y) as [sy ->].
    cbn [Res.bind]. eauto.
Qed.

Lemma generate_report_total (self : BenchmarkComparator) :
  float_inputs self ->
  exists text self', generate_report self = Ok (text, self').
Proof.
  intros Hf. unfold generate_report, report_lines, compare_core_performance,
    compare_memory_performance.
  destruct (for_each_total core_body (fun r => Forall float_times (map snd r))
              core_body_total core_benchmarks [] self Hf (Forall_nil _))
    as (r1 & s1 & -> & Hf1 & Hg1).
  cbn [Res.bind].
  destruct (core_lines_total r1 Hg1) as [lines ->]. cbn [Res.bind].
  destruct (safety_total s1 Hf1) as (r2 & s2 & -> & Hf2). cbn [Res.bind].
  destruct (for_each_total memory_body (fun _ => True) memory_body_total
              memory_benchmarks [] s2 Hf2 I)
    as (r3 & s3 & -> & _ & _).
  cbn [Res.bind]. eauto.
Qed.



(** ** Runs that stop before the report *)


